(** * Doctor dashboard: slot generation and the pending-update gate

    A shallow embedding of
    - [formatTime], [parseTime12to24] and [generateTimeSlots] of
      frontend/src/app/doctor-dashboard/components/ScheduleCalendar.tsx, and
    - [handleSubmit] of the doctor profile page,
    together with the properties the specification states about them.

    Conventions of the embedding.
    - A JavaScript string is a [string]; its characters are read as code
      units below 256.
    - A JavaScript number is a [value]: [Num z] for the integer [z], [NaN],
      and [Undefined] for the result of destructuring past the end of an
      array.  Arithmetic on integers is exact (all quantities of a working
      day stay far below 2^53).
    - A call completes normally ([Ret]), throws ([Throw]) or, for the
      [while] loop run with a bounded number of iterations, is still
      running when the bound is reached ([Timeout]). *)

From Stdlib Require Import ZArith Ascii String DecimalString Lia Bool.
From stdpp Require Import base option list sorting gmap strings.

Local Open Scope Z_scope.

(** * The embedding *)

(** ** JavaScript values and completions *)

Inductive value : Type :=
  | Undefined
  | NaN
  | Num (z : Z).

Inductive error : Type :=
  | TypeError.

Inductive Res (A : Type) : Type :=
  | Ret (a : A)
  | Throw (e : error)
  | Timeout.

Arguments Ret {A} a.
Arguments Throw {A} e.
Arguments Timeout {A}.

#[global] Instance Res_ret : MRet Res := fun A a => Ret a.

#[global] Instance Res_bind : MBind Res := fun A B k m =>
  match m with
  | Ret a => k a
  | Throw e => Throw e
  | Timeout => Timeout
  end.

Module JS.

(** [a < b] on numbers: false as soon as one side is not a number. *)
Definition lt (a b : value) : bool :=
  match a, b with
  | Num x, Num y => x <? y
  | _, _ => false
  end.

(** [a >= b]. *)
Definition ge (a b : value) : bool :=
  match a, b with
  | Num x, Num y => y <=? x
  | _, _ => false
  end.

(** [a === b]: [NaN] differs from everything, itself included. *)
Definition strict_eq (a b : value) : bool :=
  match a, b with
  | Num x, Num y => x =? y
  | Undefined, Undefined => true
  | _, _ => false
  end.

(** [a + b] on numbers; [undefined] converts to [NaN]. *)
Definition add (a b : value) : value :=
  match a, b with
  | Num x, Num y => Num (x + y)
  | _, _ => NaN
  end.

(** [a % b]: the remainder has the sign of the dividend; [x % 0] is
    [NaN]. *)
Definition rem (a b : value) : value :=
  match a, b with
  | Num x, Num y => if y =? 0 then NaN else Num (Z.rem x y)
  | _, _ => NaN
  end.

(** [Math.floor(a / b)] for a positive divisor. *)
Definition floor_div (a b : value) : value :=
  match a, b with
  | Num x, Num y => if 0 <? y then Num (x / y) else NaN
  | _, _ => NaN
  end.

(** Truthiness of a number: [undefined], [NaN] and [0] are falsy. *)
Definition truthy (a : value) : bool :=
  match a with
  | Num z => negb (z =? 0)
  | _ => false
  end.

(** [a || b] on numbers. *)
Definition or (a b : value) : value := if truthy a then a else b.

(** [s || d] on an optional string: a missing or empty string is falsy. *)
Definition or_string (s : option string) (d : string) : string :=
  match s with
  | Some (String c r) => String c r
  | _ => d
  end.

(** [n.toString()]: decimal digits, a leading [-] below zero, [NaN] for
    not-a-number; a [TypeError] on [undefined]. *)
Definition toString (a : value) : Res string :=
  match a with
  | Num z => Ret (NilZero.string_of_int (Z.to_int z))
  | NaN => Ret "NaN"
  | Undefined => Throw TypeError
  end.

(** [s.padStart(2, '0')]. *)
Definition padStart2 (s : string) : string :=
  match s with
  | "" => "00"
  | String c "" => String "0" (String c "")
  | _ => s
  end.

(** [s.split(':')]: the pieces between colons; never empty. *)
Fixpoint split_colon (s : string) : list string :=
  match s with
  | "" => [""]
  | String c r =>
      if Ascii.eqb c ":" then "" :: split_colon r
      else match split_colon r with
           | p :: ps => String c p :: ps
           | [] => [String c ""]
           end
  end.

Definition is_digit (c : ascii) : bool :=
  let n := N_of_ascii c in ((48 <=? n) && (n <=? 57))%N.

Definition digit_value (c : ascii) : Z := Z.of_N (N_of_ascii c) - 48.

(** White space of [\s] and of the trimming done by [Number]: tab, line
    feed, vertical tab, form feed, carriage return, space and the
    no-break space. *)
Definition is_space (c : ascii) : bool :=
  let n := N_of_ascii c in
  (((9 <=? n) && (n <=? 13)) || (n =? 32) || (n =? 160))%N.

Fixpoint trim_start (s : string) : string :=
  match s with
  | String c r => if is_space c then trim_start r else s
  | "" => ""
  end.

Definition trim (s : string) : string :=
  String.rev (trim_start (String.rev (trim_start s))).

(** The value of a run of decimal digits, [None] when another character
    occurs. *)
Fixpoint digits (acc : Z) (s : string) : option Z :=
  match s with
  | "" => Some acc
  | String c r =>
      if is_digit c then digits (10 * acc + digit_value c) r else None
  end.

Definition unsigned_literal (s : string) : value :=
  match s with
  | "" => NaN
  | _ => match digits 0 s with Some z => Num z | None => NaN end
  end.

(** [Number(s)] on the integer literals: surrounding white space is
    dropped, the empty string is [0], an optional sign precedes decimal
    digits.  Every other string is [NaN] here.  Literals with a fraction,
    an exponent or a radix prefix, and [Infinity], denote numbers that
    [value] does not have; the statements below that depend on the number
    read take the start and end times in the ["HH:MM"] form. *)
Definition Number (s : string) : value :=
  match trim s with
  | "" => Num 0
  | String "+" r => unsigned_literal r
  | String "-" r =>
      match unsigned_literal r with Num z => Num (- z) | v => v end
  | t => unsigned_literal t
  end.

(** [parseInt(s)] on a non-empty run of digits (all that the regular
    expression of [parseTime12to24] lets through). *)
Definition parseInt (s : string) : value := unsigned_literal s.

(** [s.includes(t)]. *)
Fixpoint includes (s t : string) : bool :=
  String.prefix t s ||
  match s with
  | "" => false
  | String _ r => includes r t
  end.

(** Destructuring [[a, b] = arr]: a missing element is [undefined]. *)
Definition element (arr : list value) (i : nat) : value :=
  match arr !! i with
  | Some v => v
  | None => Undefined
  end.

End JS.

(** ** Data model *)

(** An appointment as fetched from the remote system.  [patientName] may be
    missing. *)
Module Appointment.
Record t : Type := mk {
  date : string;
  time : string;
  patientName : option string;
  id : string
}.
End Appointment.

(** [interface TimeSlot]: the two optional fields are [None] when the
    object literal leaves them out. *)
Module TimeSlot.
Record t : Type := mk {
  time : string;
  available : bool;
  patientName : option string;
  appointmentId : option string
}.
End TimeSlot.

(** One day of the weekly template; [start] and [end] may be missing. *)
Module DaySetting.
Record t : Type := mk {
  enabled : bool;
  start : option string;
  end_ : option string
}.
End DaySetting.

(** The schedule of a doctor: a JavaScript object used as a map from the
    lowercase weekday name to the day's setting, and the slot duration
    ([Undefined] when the field is missing). *)
Module Schedule.
Record t : Type := mk {
  weeklySchedule : gmap string DaySetting.t;
  slotDuration : value
}.
End Schedule.

(** ** Time formats *)

Definition ascii_upper (c : ascii) : ascii :=
  let n := N_of_ascii c in
  if ((97 <=? n) && (n <=? 122))%N then ascii_of_N (n - 32) else c.

(** [s.toUpperCase()], on strings of ASCII characters. *)
Fixpoint toUpperCase (s : string) : string :=
  match s with
  | "" => ""
  | String c r => String (ascii_upper c) (toUpperCase r)
  end.

(** [formatTime]: a 24-hour [HH:MM] string to the 12-hour form. *)
Definition formatTime (time24 : string) : Res string :=
  let parts := JS.Number <$> JS.split_colon time24 in
  let hours := JS.element parts 0 in
  let minutes := JS.element parts 1 in
  let period := if JS.ge hours (Num 12) then "PM" else "AM" in
  let hours12 := JS.or (JS.rem hours (Num 12)) (Num 12) in
  h ← JS.toString hours12;
  m ← JS.toString minutes;
  Ret (JS.padStart2 h +:+ ":" +:+ JS.padStart2 m +:+ " " +:+ period).

(** The regular expression [/(\d{1,2}):(\d{2})\s*(AM|PM)/i] of
    [parseTime12to24]. *)
Module TimeRegex.

(** The three capture groups of a match. *)
Record groups : Type := mk { g1 : string; g2 : string; g3 : string }.

(** [(AM|PM)] under the [i] flag, at the head of [s]. *)
Definition period (s : string) : option string :=
  match s with
  | String a (String m _) =>
      if (Ascii.eqb (ascii_upper a) "A" || Ascii.eqb (ascii_upper a) "P")
         && Ascii.eqb (ascii_upper m) "M"
      then Some (String a (String m ""))
      else None
  | _ => None
  end.

(** [:(\d{2})\s*(AM|PM)] at the head of [s].  [\s*] is greedy; no white
    space begins [AM] or [PM], so giving characters back cannot help. *)
Definition after_hours (s : string) : option (string * string) :=
  match s with
  | String ":" (String d1 (String d2 r)) =>
      if JS.is_digit d1 && JS.is_digit d2 then
        p ← period (JS.trim_start r);
        Some (String d1 (String d2 ""), p)
      else None
  | _ => None
  end.

(** A match that begins at the head of [s]: [\d{1,2}] tries two digits
    first, then one. *)
Definition at_head (s : string) : option groups :=
  let two :=
    match s with
    | String d1 (String d2 r) =>
        if JS.is_digit d1 && JS.is_digit d2 then
          '(m, p) ← after_hours r;
          Some (mk (String d1 (String d2 "")) m p)
        else None
    | _ => None
    end in
  let one :=
    match s with
    | String d1 r =>
        if JS.is_digit d1 then
          '(m, p) ← after_hours r;
          Some (mk (String d1 "") m p)
        else None
    | _ => None
    end in
  match two with
  | Some g => Some g
  | None => one
  end.

(** [s.match(re)]: the leftmost match. *)
Fixpoint exec (s : string) : option groups :=
  match at_head s with
  | Some g => Some g
  | None =>
      match s with
      | "" => None
      | String _ r => exec r
      end
  end.

End TimeRegex.

(** [parseTime12to24]: a 12-hour time to 24-hour [HH:MM]; ["00:00"] when
    the string does not match. *)
Definition parseTime12to24 (time12 : string) : Res string :=
  match TimeRegex.exec time12 with
  | None => Ret "00:00"
  | Some match_ =>
      let hours := JS.parseInt (TimeRegex.g1 match_) in
      let minutes := TimeRegex.g2 match_ in
      let period := toUpperCase (TimeRegex.g3 match_) in
      let hours :=
        if String.eqb period "PM" && negb (JS.strict_eq hours (Num 12))
        then JS.add hours (Num 12) else hours in
      let hours :=
        if String.eqb period "AM" && JS.strict_eq hours (Num 12)
        then Num 0 else hours in
      h ← JS.toString hours;
      Ret (JS.padStart2 h +:+ ":" +:+ minutes)
  end.

(** ** Slot generation *)

(** [arr.find(p)] for a predicate that may throw. *)
Fixpoint findM {A : Type} (p : A -> Res bool) (arr : list A) : Res (option A) :=
  match arr with
  | [] => Ret None
  | x :: r => b ← p x; if (b : bool) then Ret (Some x) else findM p r
  end.

(** The time an appointment is compared at: a string that contains [AM] or
    [PM] goes through [parseTime12to24], any other is taken as it is. *)
Definition apptTime24 (appt : Appointment.t) : Res string :=
  if JS.includes (Appointment.time appt) "AM"
     || JS.includes (Appointment.time appt) "PM"
  then parseTime12to24 (Appointment.time appt)
  else Ret (Appointment.time appt).

(** The slot pushed for the 24-hour time [time24], shown as [time12]. *)
Definition slotAt (appointments : list Appointment.t) (date : string)
    (time24 time12 : string) : Res TimeSlot.t :=
  let dateAppointments :=
    filter (fun appt => Appointment.date appt = date) appointments in
  matchingAppt ←
    findM (fun appt => t ← apptTime24 appt; Ret (String.eqb t time24))
          dateAppointments;
  match matchingAppt with
  | Some appt =>
      Ret (TimeSlot.mk time12 false
             (Some (JS.or_string (Appointment.patientName appt) "Patient"))
             (Some (Appointment.id appt)))
  | None => Ret (TimeSlot.mk time12 true None None)
  end.

(** The test of the [while] loop. *)
Definition before_end (currentHour currentMin endHour endMin : value) : bool :=
  JS.lt currentHour endHour
  || (JS.strict_eq currentHour endHour && JS.lt currentMin endMin).

(** Advance by the slot duration; minutes past 59 roll into the hour. *)
Definition advance (currentHour currentMin slotDuration : value) : value * value :=
  let currentMin := JS.add currentMin slotDuration in
  if JS.ge currentMin (Num 60)
  then (JS.add currentHour (JS.floor_div currentMin (Num 60)),
        JS.rem currentMin (Num 60))
  else (currentHour, currentMin).

(** The [while] loop of [generateTimeSlots], run for at most [fuel]
    iterations; [slots] is the array built so far. *)
Fixpoint generate_loop (fuel : nat) (appointments : list Appointment.t)
    (date : string) (endHour endMin slotDuration : value)
    (currentHour currentMin : value) (slots : list TimeSlot.t)
    : Res (list TimeSlot.t) :=
  match fuel with
  | O => Timeout
  | S fuel =>
      if before_end currentHour currentMin endHour endMin then
        h ← JS.toString currentHour;
        m ← JS.toString currentMin;
        let time24 := JS.padStart2 h +:+ ":" +:+ JS.padStart2 m in
        time12 ← formatTime time24;
        slot ← slotAt appointments date time24 time12;
        let slots := slots ++ [slot] in
        let '(currentHour, currentMin) :=
          advance currentHour currentMin slotDuration in
        generate_loop fuel appointments date endHour endMin slotDuration
          currentHour currentMin slots
      else Ret slots
  end.

Section Calendar.

(** [weekdayName date] stands for
    [new Date(date).toLocaleDateString('en-US', { weekday: 'long' }).toLowerCase()],
    which is computed by the host (its [Date] parser and its time zone)
    and not by the repository. *)
Context (weekdayName : string -> string).

(** [generateTimeSlots(date)], a closure over the component's [schedule]
    (null until fetched) and [appointments]. *)
Definition generateTimeSlots (fuel : nat) (schedule : option Schedule.t)
    (appointments : list Appointment.t) (date : string)
    : Res (list TimeSlot.t) :=
  match schedule with
  | None => Ret []
  | Some schedule =>
      let dayName := weekdayName date in
      match Schedule.weeklySchedule schedule !! dayName with
      | None => Ret []
      | Some daySchedule =>
          if negb (DaySetting.enabled daySchedule) then Ret []
          else
            let startTime := JS.or_string (DaySetting.start daySchedule) "09:00" in
            let endTime := JS.or_string (DaySetting.end_ daySchedule) "17:00" in
            let slotDuration := JS.or (Schedule.slotDuration schedule) (Num 30) in
            let startParts := JS.Number <$> JS.split_colon startTime in
            let endParts := JS.Number <$> JS.split_colon endTime in
            generate_loop fuel appointments date
              (JS.element endParts 0) (JS.element endParts 1) slotDuration
              (JS.element startParts 0) (JS.element startParts 1) []
      end
  end.

End Calendar.

(** ** Sample inputs *)

(** A host in which every date resolves to Monday, and a template with
    one entry; they serve to run the functions on concrete input. *)
Definition always_monday (date : string) : string := "monday".

Definition one_day (dayName : string) (day : DaySetting.t)
    (slotDuration : value) : Schedule.t :=
  Schedule.mk {[ dayName := day ]} slotDuration.

Definition monday_only (start end_ : option string) (slotDuration : value)
    : Schedule.t :=
  one_day "monday" (DaySetting.mk true start end_) slotDuration.

Definition sample_appts : list Appointment.t :=
  [ Appointment.mk "2024-01-15" "09:30" (Some "Ann") "a1";
    Appointment.mk "2024-01-15" "2:00 PM" None "a2";
    Appointment.mk "2024-01-16" "09:00" (Some "Bob") "a3";
    Appointment.mk "2024-01-15" "2:00 PM" (Some "Cy") "a4" ].

(** ** Clock times as the specification writes them *)

(** Times of day are minutes since midnight.  [clock24 t] is the ["HH:MM"]
    string of the data model and [clock12 t] the ["hh:mm AM/PM"] string of
    a slot, both with zero-padded fields; [timeOfDay] reads the latter
    back. *)
Definition digit_char (n : Z) : ascii := ascii_of_N (48 + Z.to_N n).

Definition two_digits (n : Z) : string :=
  String (digit_char (n / 10)) (String (digit_char (n `mod` 10)) "").

Definition clock24 (t : Z) : string :=
  two_digits (t / 60) +:+ ":" +:+ two_digits (t `mod` 60).

Definition clock12 (t : Z) : string :=
  let h := t / 60 in
  let h12 := if h `mod` 12 =? 0 then 12 else h `mod` 12 in
  two_digits h12 +:+ ":" +:+ two_digits (t `mod` 60)
    +:+ (if h <? 12 then " AM" else " PM").

Definition digit_of (c : ascii) : option Z :=
  if JS.is_digit c then Some (JS.digit_value c) else None.

Definition timeOfDay (label : string) : option Z :=
  match label with
  | String h1 (String h2 (String ":" (String m1 (String m2
      (String " " (String p (String "M" ""))))))) =>
      a ← digit_of h1; b ← digit_of h2; c ← digit_of m1; d ← digit_of m2;
      let h12 := 10 * a + b in
      let m := 10 * c + d in
      if (1 <=? h12) && (h12 <=? 12) && (m <? 60) then
        if Ascii.eqb p "A" then Some (60 * (h12 `mod` 12) + m)
        else if Ascii.eqb p "P" then Some (60 * (h12 `mod` 12 + 12) + m)
        else None
      else None
  | _ => None
  end.

(** The start times the specification asks for: [start], [start + d],
    ... while below [end]. *)
Definition slot_count (s e d : Z) : Z :=
  if s <? e then (e - s + d - 1) / d else 0.

Definition slot_starts (s e d : Z) : list Z :=
  (fun k => s + k * d) <$> seqZ 0 (slot_count s e d).

(** The appointment time after normalisation, as a plain string (see
    [apptTime24_ret]). *)
Definition normalizedTime (appt : Appointment.t) : string :=
  match apptTime24 appt with
  | Ret t => t
  | _ => Appointment.time appt
  end.

(** The appointment that occupies the slot at [time24] on [date]: the first
    of the list with that date and that normalised time. *)
Definition occupant (appointments : list Appointment.t) (date time24 : string)
    : option Appointment.t :=
  List.find (fun appt => String.eqb (normalizedTime appt) time24)
    (filter (fun appt => Appointment.date appt = date) appointments).

(** The slot of the start time [t]. *)
Definition slot_of (appointments : list Appointment.t) (date : string) (t : Z)
    : TimeSlot.t :=
  match occupant appointments date (clock24 t) with
  | Some appt =>
      TimeSlot.mk (clock12 t) false
        (Some (JS.or_string (Appointment.patientName appt) "Patient"))
        (Some (Appointment.id appt))
  | None => TimeSlot.mk (clock12 t) true None None
  end.

(** ** Outcomes of a call *)

(** [run] is a computation indexed by the number of loop iterations it may
    take.  It returns [a] when every large enough bound gives [Ret a]; it
    throws when every large enough bound gives [Throw e]; it diverges when
    no bound is enough. *)
Definition returns {A} (run : nat -> Res A) (a : A) : Prop :=
  exists n, forall fuel, (n <= fuel)%nat -> run fuel = Ret a.

Definition throws {A} (run : nat -> Res A) : Prop :=
  exists n e, forall fuel, (n <= fuel)%nat -> run fuel = Throw e.

Definition diverges {A} (run : nat -> Res A) : Prop :=
  forall fuel, run fuel = Timeout.

(** ** Working days *)

(** The day [dayName] of [schedule] is enabled, from the time [s] to the
    time [e] (minutes since midnight, written ["HH:MM"] in the template),
    with slots of [d] minutes. *)
Definition opens (schedule : Schedule.t) (dayName : string) (s e d : Z) : Prop :=
  exists day,
    Schedule.weeklySchedule schedule !! dayName = Some day
    /\ DaySetting.enabled day = true
    /\ DaySetting.start day = Some (clock24 s)
    /\ DaySetting.end_ day = Some (clock24 e)
    /\ Schedule.slotDuration schedule = Num d
    /\ 0 <= s < 1440 /\ 0 <= e < 1440 /\ 0 < d.

(** The checks behind the enumeration of clock strings. *)
Definition clock_checks (t : Z) : bool :=
  match JS.Number <$> JS.split_colon (clock24 t) with
  | [Num h; Num m] => (h =? t / 60) && (m =? t `mod` 60)
  | _ => false
  end
  && match JS.toString (Num (t / 60)), JS.toString (Num (t `mod` 60)) with
     | Ret h, Ret m =>
         String.eqb (JS.padStart2 h +:+ ":" +:+ JS.padStart2 m) (clock24 t)
     | _, _ => false
     end
  && match formatTime (clock24 t) with
     | Ret l => String.eqb l (clock12 t)
     | _ => false
     end
  && match timeOfDay (clock12 t) with
     | Some t' => t' =? t
     | None => false
     end.


(** Two appointments that differ at most in how their time is written. *)
Definition same_booking (a b : Appointment.t) : Prop :=
  Appointment.date a = Appointment.date b
  /\ normalizedTime a = normalizedTime b
  /\ Appointment.patientName a = Appointment.patientName b
  /\ Appointment.id a = Appointment.id b.

(** [schedule] with the setting of one day, or the duration, replaced. *)
Definition with_day (schedule : Schedule.t) (dayName : string)
    (day : DaySetting.t) : Schedule.t :=
  Schedule.mk (<[dayName := day]> (Schedule.weeklySchedule schedule))
    (Schedule.slotDuration schedule).

Definition with_duration (schedule : Schedule.t) (d : value) : Schedule.t :=
  Schedule.mk (Schedule.weeklySchedule schedule) d.

(** The name shown for an occupied slot. *)
Definition shown_name (patientName : option string) : string :=
  match patientName with
  | None | Some "" => "Patient"
  | Some n => n
  end.

(** The 12-hour spellings of the hour [h] (1..12) and minute [m] that the
    conversion rule is checked on: hour with or without a leading zero,
    marker with or without a space before it. *)
Definition spellings12 (h m : Z) (marker : string) : list string :=
  hs ← [NilZero.string_of_int (Z.to_int h); two_digits h];
  sep ← [" "; ""];
  [hs +:+ ":" +:+ two_digits m +:+ sep +:+ marker].

Definition parses_to (t : Z) (time12 : string) : bool :=
  match parseTime12to24 time12 with
  | Ret r => String.eqb r (clock24 t)
  | _ => false
  end.

Definition rule_checks (x : Z) : bool :=
  let h := x / 60 + 1 in
  let m := x `mod` 60 in
  forallb (parses_to (60 * (h `mod` 12) + m)) (spellings12 h m "AM")
  && forallb (parses_to (60 * (h `mod` 12 + 12) + m)) (spellings12 h m "PM").

(** ** Stored times as the specification reads them *)

(** The conversion rule of the specification: 12 AM is hour 0, 1-11 AM
    keep their hour, 12 PM stays 12 and 1-11 PM gain twelve hours. *)
Definition hour24 (h : Z) (marker : string) : Z :=
  if String.eqb marker "AM" then (if h =? 12 then 0 else h)
  else (if h =? 12 then 12 else h + 12).

(** The strings that store the time of day [t] (minutes since midnight):
    its 24-hour ["HH:MM"], and the 12-hour spellings of its minute with an
    hour from 1 to 12 and a marker that the rule takes to the hour of
    [t]. *)
Definition stored_as (t : Z) : list string :=
  clock24 t
  :: (h ← seqZ 1 12;
      marker ← ["AM"; "PM"];
      if hour24 h marker =? t / 60 then spellings12 h (t `mod` 60) marker
      else []).

(** Two appointments of the same date, patient and id that store the same
    time of day, each in a form of its own. *)
Definition same_stored (a b : Appointment.t) : Prop :=
  Appointment.date a = Appointment.date b
  /\ (exists t, 0 <= t < 1440
        /\ Appointment.time a ∈ stored_as t
        /\ Appointment.time b ∈ stored_as t)
  /\ Appointment.patientName a = Appointment.patientName b
  /\ Appointment.id a = Appointment.id b.

(** The check behind the enumeration of stored times: the code's
    normalisation takes every form of [t] to ["HH:MM"]. *)
Definition stored_checks (t : Z) : bool :=
  forallb (fun time =>
             String.eqb (normalizedTime (Appointment.mk "" time None ""))
                        (clock24 t))
          (stored_as t).

(** ** The doctor profile page and its pending-update gate *)

Module ProfilePage.

Record ProfileData : Type := mkProfileData {
  name : string;
  specialty : string;
  location : string;
  experience : value;
  image : string
}.

Record PendingUpdate : Type := mkPendingUpdate {
  hasPendingUpdate : bool;
  pendingData : option ProfileData;
  requestedAt : option string
}.

Inductive MessageType : Type := Success | Error | Warning.

Record Message : Type := mkMessage { type : MessageType; text : string }.

(** The five fields of a [Doctor] that the page reads; each may be
    missing. *)
Record Doctor : Type := mkDoctor {
  doctor_name : option string;
  doctor_specialty : option string;
  doctor_location : option string;
  doctor_experience : value;
  doctor_image : option string
}.

(** The state of the component. *)
Record State : Type := mkState {
  isLoading : bool;
  isSaving : bool;
  message : option Message;
  doctorProfile : option Doctor;
  pendingUpdate : PendingUpdate;
  formData : ProfileData
}.

Definition initial : State :=
  mkState true false None None (mkPendingUpdate false None None)
    (mkProfileData "" "" "" (Num 0) "").

Definition setIsLoading (b : bool) (st : State) : State :=
  mkState b (isSaving st) (message st) (doctorProfile st) (pendingUpdate st)
    (formData st).

Definition setIsSaving (b : bool) (st : State) : State :=
  mkState (isLoading st) b (message st) (doctorProfile st) (pendingUpdate st)
    (formData st).

Definition setMessage (m : option Message) (st : State) : State :=
  mkState (isLoading st) (isSaving st) m (doctorProfile st) (pendingUpdate st)
    (formData st).

Definition setDoctorProfile (d : option Doctor) (st : State) : State :=
  mkState (isLoading st) (isSaving st) (message st) d (pendingUpdate st)
    (formData st).

Definition setPendingUpdate (p : PendingUpdate) (st : State) : State :=
  mkState (isLoading st) (isSaving st) (message st) (doctorProfile st) p
    (formData st).

Definition setFormData (f : ProfileData) (st : State) : State :=
  mkState (isLoading st) (isSaving st) (message st) (doctorProfile st)
    (pendingUpdate st) f.

(** The requests the page sends to the remote API. *)
Inductive Request : Type :=
  | GetProfile
  | GetPendingUpdate
  | RequestProfileUpdate (data : ProfileData).

(** The answers of the remote API: [None] stands for a rejected promise. *)
Record Api : Type := mkApi {
  getProfile : option Doctor;
  getPendingUpdate : option PendingUpdate;
  requestProfileUpdate : ProfileData -> option unit
}.

(** [fetchProfile]: the state once the promise settles, and the requests
    sent on the way. *)
Definition fetchProfile (api : Api) (st : State) : State * list Request :=
  match getProfile api with
  | Some data =>
      let st := setDoctorProfile (Some data) st in
      let st :=
        setFormData
          (mkProfileData (JS.or_string (doctor_name data) "")
             (JS.or_string (doctor_specialty data) "")
             (JS.or_string (doctor_location data) "")
             (JS.or (doctor_experience data) (Num 0))
             (JS.or_string (doctor_image data) "")) st in
      let st :=
        match getPendingUpdate api with
        | Some pendingData => setPendingUpdate pendingData st
        | None => setPendingUpdate (mkPendingUpdate false None None) st
        end in
      (setIsLoading false st, [GetProfile; GetPendingUpdate])
  | None =>
      let st :=
        setMessage
          (Some (mkMessage Error "Failed to load profile. Please try again.")) st in
      (setIsLoading false st, [GetProfile])
  end.

(** [handleSubmit]; [now] is [new Date().toISOString()]. *)
Definition handleSubmit (api : Api) (now : string) (st : State)
    : State * list Request :=
  if hasPendingUpdate (pendingUpdate st) then
    (setMessage
       (Some (mkMessage Warning
          "You already have a pending profile update awaiting admin approval."))
       st,
     [])
  else
    let st := setIsSaving true st in
    let st := setMessage None st in
    match requestProfileUpdate api (formData st) with
    | Some _ =>
        let st :=
          setMessage
            (Some (mkMessage Success
               "Profile update request submitted! Awaiting admin approval."))
            st in
        let st :=
          setPendingUpdate
            (mkPendingUpdate true (Some (formData st)) (Some now)) st in
        (setIsSaving false st, [RequestProfileUpdate (formData st)])
    | None =>
        let st :=
          setMessage
            (Some (mkMessage Error
               "Failed to submit profile update. Please try again.")) st in
        (setIsSaving false st, [RequestProfileUpdate (formData st)])
    end.

(** The submit button is disabled while saving or pending. *)
Definition submitDisabled (st : State) : bool :=
  isSaving st || hasPendingUpdate (pendingUpdate st).

(** What can happen to a mounted page.  [fetchProfile] is called by the
    mount effect only, while the page is loading; the form, and with it
    [handleSubmit], exists only once loading is over. *)
Inductive step : State -> State -> Prop :=
  | step_fetch api st :
      isLoading st = true -> step st (fetchProfile api st).1
  | step_submit api now st :
      isLoading st = false -> step st (handleSubmit api now st).1.

End ProfilePage.

(** ** Slot generation over a store of arrays

    The same function with its arrays as objects of a store, to state what
    it mutates: [appointments] and [schedule] are references held by the
    component, [filter] allocates a new array, [push] updates the array it
    is called on. *)

Module Heap.

Definition loc : Type := positive.

Inductive obj : Type :=
  | Appointments (arr : list Appointment.t)
  | Slots (arr : list TimeSlot.t)
  | Template (schedule : Schedule.t).

(** A computation on the store. *)
Definition M (A : Type) : Type := gmap loc obj -> Res (A * gmap loc obj).

Definition ret {A} (a : A) : M A := fun σ => Ret (a, σ).

Definition bind {A B} (m : M A) (k : A -> M B) : M B :=
  fun σ =>
    match m σ with
    | Ret (a, σ') => k a σ'
    | Throw e => Throw e
    | Timeout => Timeout
    end.

(** A computation that does not touch the store. *)
Definition lift {A} (r : Res A) : M A :=
  fun σ =>
    match r with
    | Ret a => Ret (a, σ)
    | Throw e => Throw e
    | Timeout => Timeout
    end.

(** A new object, at a location not in use. *)
Definition alloc (o : obj) : M loc :=
  fun σ => let l := fresh (dom σ) in Ret (l, <[l := o]> σ).

(** [arr.filter(p)]: a new array; [arr] is only read. *)
Definition filter_appointments (P : Appointment.t -> Prop)
    `{forall a, Decision (P a)} (arr : loc) : M loc :=
  fun σ =>
    match σ !! arr with
    | Some (Appointments l) => alloc (Appointments (filter P l)) σ
    | _ => Throw TypeError
    end.

(** [arr.find(p)]: [arr] is only read. *)
Definition find_appointment (p : Appointment.t -> Res bool) (arr : loc)
    : M (option Appointment.t) :=
  fun σ =>
    match σ !! arr with
    | Some (Appointments l) => lift (findM p l) σ
    | _ => Throw TypeError
    end.

(** [arr.push(slot)]: updates [arr] in place. *)
Definition push (arr : loc) (slot : TimeSlot.t) : M unit :=
  fun σ =>
    match σ !! arr with
    | Some (Slots l) => Ret (tt, <[arr := Slots (l ++ [slot])]> σ)
    | _ => Throw TypeError
    end.

(** Reading the fields of [schedule]. *)
Definition read_template (l : loc) : M Schedule.t :=
  fun σ =>
    match σ !! l with
    | Some (Template s) => Ret (s, σ)
    | _ => Throw TypeError
    end.

Fixpoint generate_loop (fuel : nat) (appointments : loc) (date : string)
    (endHour endMin slotDuration : value) (currentHour currentMin : value)
    (slots : loc) : M unit :=
  match fuel with
  | O => fun _ => Timeout
  | S fuel =>
      if before_end currentHour currentMin endHour endMin then
        bind (lift (JS.toString currentHour)) (fun h =>
        bind (lift (JS.toString currentMin)) (fun m =>
        let time24 := JS.padStart2 h +:+ ":" +:+ JS.padStart2 m in
        bind (lift (formatTime time24)) (fun time12 =>
        bind (filter_appointments (fun appt => Appointment.date appt = date)
                appointments) (fun dateAppointments =>
        bind (find_appointment
                (fun appt => t ← apptTime24 appt; Ret (String.eqb t time24))
                dateAppointments) (fun matchingAppt =>
        bind (match matchingAppt with
              | Some appt =>
                  push slots
                    (TimeSlot.mk time12 false
                       (Some (JS.or_string (Appointment.patientName appt)
                                "Patient"))
                       (Some (Appointment.id appt)))
              | None => push slots (TimeSlot.mk time12 true None None)
              end) (fun _ =>
        let '(currentHour, currentMin) :=
          advance currentHour currentMin slotDuration in
        generate_loop fuel appointments date endHour endMin slotDuration
          currentHour currentMin slots))))))
      else ret tt
  end.

(** [generateTimeSlots(date)]: the location of the array it returns. *)
Definition generateTimeSlots (weekdayName : string -> string) (fuel : nat)
    (schedule : option loc) (appointments : loc) (date : string) : M loc :=
  match schedule with
  | None => alloc (Slots [])
  | Some schedule =>
      bind (read_template schedule) (fun schedule =>
      let dayName := weekdayName date in
      match Schedule.weeklySchedule schedule !! dayName with
      | None => alloc (Slots [])
      | Some daySchedule =>
          if negb (DaySetting.enabled daySchedule) then alloc (Slots [])
          else
            bind (alloc (Slots [])) (fun slots =>
            let startTime := JS.or_string (DaySetting.start daySchedule) "09:00" in
            let endTime := JS.or_string (DaySetting.end_ daySchedule) "17:00" in
            let slotDuration := JS.or (Schedule.slotDuration schedule) (Num 30) in
            let startParts := JS.Number <$> JS.split_colon startTime in
            let endParts := JS.Number <$> JS.split_colon endTime in
            bind (generate_loop fuel appointments date
                    (JS.element endParts 0) (JS.element endParts 1) slotDuration
                    (JS.element startParts 0) (JS.element startParts 1) slots)
                 (fun _ => ret slots))
      end)
  end.

(** The component's references are valid in the store [σ]: [appointments]
    is the array [appts], and [schedule] is null or the template [sch]. *)
Definition holds (σ : gmap loc obj) (schedule : option loc) (appointments : loc)
    (sch : option Schedule.t) (appts : list Appointment.t) : Prop :=
  σ !! appointments = Some (Appointments appts)
  /\ match schedule, sch with
     | None, None => True
     | Some l, Some s => σ !! l = Some (Template s)
     | _, _ => False
     end.

End Heap.

(** A store with the sample appointments at location 1 and a Monday
    template (09:00 to 10:00, 30 minutes) at location 2. *)
Definition sample_store : gmap Heap.loc Heap.obj :=
  {[ 1%positive := Heap.Appointments sample_appts;
     2%positive := Heap.Template
                     (monday_only (Some "09:00") (Some "10:00") (Num 30)) ]}.

(** A loaded profile page with a pending update. *)
Definition sample_pending_page : ProfilePage.State :=
  ProfilePage.mkState false false None None
    (ProfilePage.mkPendingUpdate true None (Some "2024-01-15T10:00:00.000Z"))
    (ProfilePage.mkProfileData "Dr. Ann" "Cardiologist" "Pune" (Num 7) "").

Definition sample_api : ProfilePage.Api :=
  ProfilePage.mkApi None None (fun _ => Some tt).

(** * Further definitions, for the rest of the components *)

(** The check behind the round trip of the two time formats. *)
Definition roundtrip_checks (t : Z) : bool :=
  match formatTime (clock24 t) with
  | Ret label =>
      match parseTime12to24 label with
      | Ret time24 => String.eqb time24 (clock24 t)
      | _ => false
      end
  | _ => false
  end.

(** A match of [TimeRegex] with its marker in upper case. *)
Definition upper_marker (g : TimeRegex.groups) : TimeRegex.groups :=
  TimeRegex.mk (TimeRegex.g1 g) (TimeRegex.g2 g) (toUpperCase (TimeRegex.g3 g)).

(** ** The week view of the schedule calendar *)

(** [interface DayData]. *)
Module DayData.
Record t : Type := mk {
  date : string;
  day : string;
  dayName : string;
  appointments : Z;
  enabled : bool
}.
End DayData.

Definition dayNames : list string :=
  ["monday"; "tuesday"; "wednesday"; "thursday"; "friday"; "saturday"; "sunday"].

Definition shortDayNames : list string :=
  ["Mon"; "Tue"; "Wed"; "Thu"; "Fri"; "Sat"; "Sun"].

(** [schedule.weeklySchedule[dayName]?.enabled || false]. *)
Definition isEnabled (schedule : Schedule.t) (dayName : string) : bool :=
  match Schedule.weeklySchedule schedule !! dayName with
  | Some daySchedule => DaySetting.enabled daySchedule
  | None => false
  end.

Section WeekView.

(** [weekDate selectedDate i] stands for the [dateStr] of the loop's turn
    [i]: the host's [Date] moved to the Monday of the week of
    [selectedDate] plus [i] days, through [toISOString], which throws on a
    date that does not parse. *)
Context (weekDate : string -> nat -> Res string).

(** The [for] loop of [generateWeekDays] over the indices [turns]. *)
Fixpoint weekDays_loop (schedule : Schedule.t)
    (appointments : list Appointment.t) (selectedDate : string)
    (turns : list nat) (days : list DayData.t) : Res (list DayData.t) :=
  match turns with
  | [] => Ret days
  | i :: turns =>
      dateStr ← weekDate selectedDate i;
      let dayName := dayNames !!! i in
      let days :=
        if isEnabled schedule dayName then
          let dayAppointments :=
            filter (fun appt => Appointment.date appt = dateStr) appointments in
          days ++ [DayData.mk dateStr (shortDayNames !!! i) dayName
                     (Z.of_nat (length dayAppointments)) true]
        else days in
      weekDays_loop schedule appointments selectedDate turns days
  end.

(** [generateWeekDays()], a closure over [schedule], [appointments] and
    [selectedDate]. *)
Definition generateWeekDays (schedule : option Schedule.t)
    (appointments : list Appointment.t) (selectedDate : string)
    : Res (list DayData.t) :=
  match schedule with
  | None => Ret []
  | Some schedule =>
      weekDays_loop schedule appointments selectedDate (seq 0 7) []
  end.

End WeekView.

(** The entry of the week view for the turn [i] with date [dateStr]. *)
Definition weekDay_entry (schedule : Schedule.t)
    (appointments : list Appointment.t) (dateOf : nat -> string) (i : nat)
    : option DayData.t :=
  if isEnabled schedule (dayNames !!! i) then
    Some (DayData.mk (dateOf i) (shortDayNames !!! i) (dayNames !!! i)
            (Z.of_nat (length (filter (fun appt => Appointment.date appt = dateOf i)
                                 appointments)))
            true)
  else None.

(** A host whose week of any date is 2024-01-15 (a Monday) to 2024-01-21. *)
Definition sample_week (selectedDate : string) (i : nat) : Res string :=
  Ret (["2024-01-15"; "2024-01-16"; "2024-01-17"; "2024-01-18"; "2024-01-19";
        "2024-01-20"; "2024-01-21"] !!! i).

(** ** Editing the profile form *)

(** The value of a digit in the given radix (10 or 16). *)
Definition digit_in (radix : Z) (c : ascii) : option Z :=
  let n := Z.of_N (N_of_ascii c) in
  let v :=
    if (48 <=? n) && (n <=? 57) then Some (n - 48)
    else if (97 <=? n) && (n <=? 102) then Some (n - 87)
    else if (65 <=? n) && (n <=? 70) then Some (n - 55)
    else None in
  match v with
  | Some d => if d <? radix then Some d else None
  | None => None
  end.

(** The value of the longest run of digits at the head of [s]. *)
Fixpoint digits_prefix (radix acc : Z) (s : string) : Z :=
  match s with
  | "" => acc
  | String c r =>
      match digit_in radix c with
      | Some d => digits_prefix radix (radix * acc + d) r
      | None => acc
      end
  end.

(** [parseInt(s)] without a radix, on any string: leading white space and
    a sign are skipped, [0x] selects radix 16, the longest run of digits
    is read and the rest ignored; [NaN] when there is no digit. *)
Definition parseInt_string (s : string) : value :=
  let s := JS.trim_start s in
  let '(sign, s) :=
    match s with
    | String c r =>
        if Ascii.eqb c "-" then (-1, r)
        else if Ascii.eqb c "+" then (1, r)
        else (1, s)
    | "" => (1, s)
    end in
  let '(radix, s) :=
    match s with
    | String z (String x r) =>
        if Ascii.eqb z "0" && (Ascii.eqb x "x" || Ascii.eqb x "X")
        then (16, r) else (10, s)
    | _ => (10, s)
    end in
  match s with
  | String c _ =>
      match digit_in radix c with
      | Some _ => Num (sign * digits_prefix radix 0 s)
      | None => NaN
      end
  | "" => NaN
  end.

Module ProfileForm.
Import ProfilePage.

(** The five inputs of the form that carry [onChange={handleChange}]; only
    [Experience] has [type="number"]. *)
Inductive Input : Type := Name | Specialty | Location | Experience | Image.

(** [handleChange]: the field named by the input takes the new value; the
    number input goes through [parseInt(...) || 0]. *)
Definition handleChange (target : Input) (targetValue : string) (st : State)
    : State :=
  let prev := formData st in
  setFormData
    match target with
    | Name =>
        mkProfileData targetValue (specialty prev) (location prev)
          (experience prev) (image prev)
    | Specialty =>
        mkProfileData (name prev) targetValue (location prev)
          (experience prev) (image prev)
    | Location =>
        mkProfileData (name prev) (specialty prev) targetValue
          (experience prev) (image prev)
    | Experience =>
        mkProfileData (name prev) (specialty prev) (location prev)
          (JS.or (parseInt_string targetValue) (Num 0)) (image prev)
    | Image =>
        mkProfileData (name prev) (specialty prev) (location prev)
          (experience prev) targetValue
    end st.

(** What happens to the page: the mount effect settles, the form is
    submitted, an input changes. *)
Inductive Event : Type :=
  | Mounted (api : Api)
  | Submitted (api : Api) (now : string)
  | Changed (target : Input) (targetValue : string).

(** One event.  [fetchProfile] runs for the mount effect only, while the
    page is loading; the form exists only once loading is over, and its
    inputs are disabled while an update is pending.  A submission and its
    answer are one step here; [ProfileSession] below takes them apart. *)
Definition page_step (st : State) (ev : Event) : State * list Request :=
  match ev with
  | Mounted api => if isLoading st then fetchProfile api st else (st, [])
  | Submitted api now =>
      if isLoading st then (st, []) else handleSubmit api now st
  | Changed target targetValue =>
      if isLoading st || hasPendingUpdate (pendingUpdate st) then (st, [])
      else (handleChange target targetValue st, [])
  end.

(** A sequence of events, with the requests sent along the way. *)
Fixpoint page_run (st : State) (evs : list Event) : State * list Request :=
  match evs with
  | [] => (st, [])
  | ev :: evs =>
      let '(st1, sent1) := page_step st ev in
      let '(st2, sent2) := page_run st1 evs in
      (st2, sent1 ++ sent2)
  end.

End ProfileForm.

(** ** Submissions under way *)

Module ProfileSession.
Import ProfilePage ProfileForm.

(** A page together with the submissions that await their answer: for
    each, the [formData] that its call of [handleSubmit] closed over. *)
Record Session : Type := mkSession {
  page : State;
  awaiting : list ProfileData
}.

(** [handleSubmit] up to its [await]. *)
Definition submit_begin (s : Session) : Session * list Request :=
  let st := page s in
  if hasPendingUpdate (pendingUpdate st) then
    (mkSession
       (setMessage
          (Some (mkMessage Warning
             "You already have a pending profile update awaiting admin approval."))
          st)
       (awaiting s),
     [])
  else
    let st1 := setIsSaving true st in
    let st1 := setMessage None st1 in
    (mkSession st1 (awaiting s ++ [formData st]),
     [RequestProfileUpdate (formData st)]).

(** [handleSubmit] after its [await], for the call that closed over
    [data], when the request has been accepted; [now] is
    [new Date().toISOString()] at that moment. *)
Definition submit_resolved (data : ProfileData) (now : string) (st : State)
    : State :=
  let st :=
    setMessage
      (Some (mkMessage Success
         "Profile update request submitted! Awaiting admin approval."))
      st in
  let st := setPendingUpdate (mkPendingUpdate true (Some data) (Some now)) st in
  setIsSaving false st.

(** [handleSubmit] after its [await], when the request has failed. *)
Definition submit_rejected (st : State) : State :=
  let st :=
    setMessage
      (Some (mkMessage Error
         "Failed to submit profile update. Please try again.")) st in
  setIsSaving false st.

(** What happens to the page: an input changes, the form is submitted,
    the [i]-th submission under way is accepted or refused. *)
Inductive Event : Type :=
  | Changed (target : Input) (targetValue : string)
  | Submitted
  | Accepted (i : nat) (now : string)
  | Refused (i : nat).

(** One event.  The form exists only once loading is over, and its inputs
    are disabled while an update is pending, not while a request is under
    way. *)
Definition step (s : Session) (ev : Event) : Session * list Request :=
  match ev with
  | Changed target targetValue =>
      if isLoading (page s) || hasPendingUpdate (pendingUpdate (page s))
      then (s, [])
      else (mkSession (handleChange target targetValue (page s)) (awaiting s),
            [])
  | Submitted => if isLoading (page s) then (s, []) else submit_begin s
  | Accepted i now =>
      match awaiting s !! i with
      | Some data =>
          (mkSession (submit_resolved data now (page s)) (delete i (awaiting s)),
           [])
      | None => (s, [])
      end
  | Refused i =>
      match awaiting s !! i with
      | Some _ =>
          (mkSession (submit_rejected (page s)) (delete i (awaiting s)), [])
      | None => (s, [])
      end
  end.

Fixpoint run (s : Session) (evs : list Event) : Session * list Request :=
  match evs with
  | [] => (s, [])
  | ev :: evs =>
      let '(s1, sent1) := step s ev in
      let '(s2, sent2) := run s1 evs in
      (s2, sent1 ++ sent2)
  end.

Definition is_edit (ev : Event) : bool :=
  match ev with Changed _ _ => true | _ => false end.

End ProfileSession.

(** A server that knows the profile but whose pending-update lookup
    fails. *)
Definition sample_lookup_failure : ProfilePage.Api :=
  ProfilePage.mkApi
    (Some (ProfilePage.mkDoctor (Some "Dr. Ann") (Some "Cardiology") None NaN None))
    None (fun _ => Some tt).

(** ** The specialty selector *)

(** [c.toLowerCase()] on a code unit below 256: the letters A-Z and the
    accented capitals (all of 192..222 but the multiplication sign) move
    up by 32. *)
Definition ascii_lower (c : ascii) : ascii :=
  let n := N_of_ascii c in
  if (((65 <=? n) && (n <=? 90))
      || ((192 <=? n) && (n <=? 222) && negb (n =? 215)))%N
  then ascii_of_N (n + 32) else c.

(** [s.toLowerCase()]. *)
Fixpoint toLowerCase (s : string) : string :=
  match s with
  | "" => ""
  | String c r => String (ascii_lower c) (toLowerCase r)
  end.

Module SpecialtySelector.

Record Specialty : Type := mkSpecialty {
  id : string;
  name : string;
  category : string
}.

Definition specialties : list Specialty :=
  [ mkSpecialty "general-practice" "General Practice" "Primary Care";
    mkSpecialty "cardiology" "Cardiology" "Specialty";
    mkSpecialty "dermatology" "Dermatology" "Specialty";
    mkSpecialty "neurology" "Neurology" "Specialty";
    mkSpecialty "orthopedics" "Orthopedics" "Specialty";
    mkSpecialty "pediatrics" "Pediatrics" "Primary Care";
    mkSpecialty "psychiatry" "Psychiatry" "Mental Health";
    mkSpecialty "ophthalmology" "Ophthalmology" "Specialty";
    mkSpecialty "gynecology" "Gynecology" "Specialty";
    mkSpecialty "urology" "Urology" "Specialty";
    mkSpecialty "oncology" "Oncology" "Specialty";
    mkSpecialty "endocrinology" "Endocrinology" "Specialty";
    mkSpecialty "gastroenterology" "Gastroenterology" "Specialty";
    mkSpecialty "pulmonology" "Pulmonology" "Specialty";
    mkSpecialty "nephrology" "Nephrology" "Specialty";
    mkSpecialty "rheumatology" "Rheumatology" "Specialty";
    mkSpecialty "emergency-medicine" "Emergency Medicine" "Emergency" ].

(** The test of the [filter]: the query occurs in the name or in the
    category, letter case apart. *)
Definition matches (searchQuery : string) (specialty : Specialty) : bool :=
  JS.includes (toLowerCase (name specialty)) (toLowerCase searchQuery)
  || JS.includes (toLowerCase (category specialty)) (toLowerCase searchQuery).

(** [filteredSpecialties]. *)
Definition filteredSpecialties (searchQuery : string) : list Specialty :=
  List.filter (matches searchQuery) specialties.

(** [selectedSpecialty]: the specialty whose name is [value]. *)
Definition selectedSpecialty (value : string) : option Specialty :=
  List.find (fun s => String.eqb (name s) value) specialties.

(** The text of the button. *)
Definition buttonText (value : string) : string :=
  match selectedSpecialty value with
  | Some s => name s
  | None => "Select your specialty"
  end.

(** The state of the component. *)
Record State : Type := mkState { isOpen : bool; searchQuery : string }.

(** [handleSelect]: the value passed to [onChange], and the new state. *)
Definition handleSelect (specialty : Specialty) (st : State) : string * State :=
  (name specialty, mkState false "").

End SpecialtySelector.

(** ** The label of a requested change (admin dashboard) *)

Definition is_capital (c : ascii) : bool :=
  let n := N_of_ascii c in ((65 <=? n) && (n <=? 90))%N.

(** [key.replace(/([A-Z])/g, ' $1')]: a space before every capital. *)
Fixpoint space_capitals (key : string) : string :=
  match key with
  | "" => ""
  | String c r =>
      if is_capital c then String " " (String c (space_capitals r))
      else String c (space_capitals r)
  end.

(** [key.replace(/([A-Z])/g, ' $1').trim()]. *)
Definition fieldLabel (key : string) : string := JS.trim (space_capitals key).

(** A string without its white space, and the test that it has none. *)
Fixpoint drop_spaces (s : string) : string :=
  match s with
  | "" => ""
  | String c r => if JS.is_space c then drop_spaces r else String c (drop_spaces r)
  end.

Fixpoint no_space (s : string) : bool :=
  match s with
  | "" => true
  | String c r => negb (JS.is_space c) && no_space r
  end.

(** The last character of [s] is not white space. *)
Fixpoint ends_in_ink (s : string) : bool :=
  match s with
  | "" => false
  | String c "" => negb (JS.is_space c)
  | String _ r => ends_in_ink r
  end.

(** ** The axis of the appointments chart *)

Module RevenueChart.

(** [Math.ceil(n / d)] and [Math.round(n / d)] for integers [n] and a
    positive [d].  The source computes in double precision; the integer
    reading below is the same for appointment counts from 0 up to 2^50:
    the maximum [m] and the products are integers below 2^53, which a
    double holds exactly, the quotient [m / 5] is rounded by less than the
    1/5 that separates it from an integer, and a division by 4 is exact.
    The properties of the axis are stated for such counts only. *)
Definition ceil_quot (n d : Z) : Z := - ((- n) / d).

Definition round_quot (n d : Z) : Z := (2 * n + d) / (2 * d).

(** [Math.max(...appointmentsData.map((d) => d.appointments), 5)]. *)
Definition maxAppointments (appointments : list Z) : Z :=
  foldr Z.max 5 appointments.

Definition yAxisMax (appointments : list Z) : Z :=
  ceil_quot (maxAppointments appointments) 5 * 5 + 5.

(** [Array.from({ length: 5 }, (_, i) => Math.round((yAxisMax / 4) * i))]. *)
Definition yAxisTicks (appointments : list Z) : list Z :=
  (fun i => round_quot (yAxisMax appointments * i) 4) <$> seqZ 0 5.

End RevenueChart.

(** ** The booking dialogue *)

Module BookingModal.

Record TimeSlot : Type := mkTimeSlot { time : string; available : bool }.

Inductive ConsultationType : Type := Video | InPerson.

(** The two props the component reads in its effect and the six pieces of
    state it holds. *)
Record State : Type := mkState {
  isOpen : bool;
  doctorId : string;
  selectedDate : string;
  selectedTime : string;
  consultationType : ConsultationType;
  timeSlots : list TimeSlot;
  isLoading : bool;
  error : option string
}.

(** What the component does to the outside: the request for the slots of
    a date and the two callbacks of its parent. *)
Inductive Effect : Type :=
  | GetAvailableSlots (doctor date : string)
  | OnConfirm (date time : string) (type : ConsultationType)
  | OnClose.

(** The state of a component that has just been mounted; [today] is
    [new Date().toISOString().split('T')[0]]. *)
Definition initial (open : bool) (doctor today : string) : State :=
  mkState open doctor today "" Video [] false None.

(** A string used as a condition. *)
Definition nonempty (s : string) : bool :=
  match s with "" => false | String _ _ => true end.

Definition shows (e : option string) : bool :=
  match e with Some s => nonempty s | None => false end.

(** [fetchAvailableSlots(date)] up to its [await]. *)
Definition fetch_begin (date : string) (st : State) : State * list Effect :=
  (mkState (isOpen st) (doctorId st) (selectedDate st) ""
     (consultationType st) (timeSlots st) true None,
   [GetAvailableSlots (doctorId st) date]).

(** [fetchAvailableSlots] after its [await], when the request has been
    answered with [slots]. *)
Definition fetch_resolved (slots : list string) (st : State) : State :=
  let listed := (fun slot => mkTimeSlot slot true) <$> slots in
  mkState (isOpen st) (doctorId st) (selectedDate st) (selectedTime st)
    (consultationType st) listed false
    (if decide (length listed = 0%nat)
     then Some "No available slots for this date" else error st).

(** [fetchAvailableSlots] after its [await], when the request has failed. *)
Definition fetch_rejected (st : State) : State :=
  mkState (isOpen st) (doctorId st) (selectedDate st) (selectedTime st)
    (consultationType st) [] false (Some "Failed to load available slots").

(** The effect on [isOpen, doctorId, selectedDate]. *)
Definition effect (st : State) : State * list Effect :=
  if isOpen st && nonempty (doctorId st)
  then fetch_begin (selectedDate st) st else (st, []).

Definition handleConfirm (st : State) : list Effect :=
  if nonempty (selectedTime st)
  then [OnConfirm (selectedDate st) (selectedTime st) (consultationType st);
        OnClose]
  else [].

(** The grid of slots is drawn when nothing is loading, no error is shown
    and there is a slot. *)
Definition grid_drawn (st : State) : bool :=
  negb (isLoading st) && negb (shows (error st))
  && negb (bool_decide (length (timeSlots st) = 0%nat)).

(** What happens to a mounted component.  [Resolved date slots] and
    [Rejected date] are the answers to a request for [date]: the code after
    the [await] does not look at the date again. *)
Inductive Event : Type :=
  | Mounted
  | Props (open : bool) (doctor : string)
  | DateChanged (date : string)
  | TypeChosen (type : ConsultationType)
  | SlotClicked (i : nat)
  | ConfirmClicked
  | CloseClicked
  | Resolved (date : string) (slots : list string)
  | Rejected (date : string).

Definition step (st : State) (ev : Event) : State * list Effect :=
  match ev with
  | Mounted => effect st
  | Props open doctor =>
      if bool_decide (open = isOpen st) && bool_decide (doctor = doctorId st)
      then (st, [])
      else effect (mkState open doctor (selectedDate st) (selectedTime st)
                     (consultationType st) (timeSlots st) (isLoading st)
                     (error st))
  | DateChanged date =>
      if negb (isOpen st) || bool_decide (date = selectedDate st)
      then (st, [])
      else effect (mkState (isOpen st) (doctorId st) date (selectedTime st)
                     (consultationType st) (timeSlots st) (isLoading st)
                     (error st))
  | TypeChosen type =>
      if isOpen st
      then (mkState (isOpen st) (doctorId st) (selectedDate st)
              (selectedTime st) type (timeSlots st) (isLoading st) (error st),
            [])
      else (st, [])
  | SlotClicked i =>
      if isOpen st && grid_drawn st
      then match timeSlots st !! i with
           | Some slot =>
               if available slot
               then (mkState (isOpen st) (doctorId st) (selectedDate st)
                       (time slot) (consultationType st) (timeSlots st)
                       (isLoading st) (error st), [])
               else (st, [])
           | None => (st, [])
           end
      else (st, [])
  | ConfirmClicked =>
      if isOpen st then (st, handleConfirm st) else (st, [])
  | CloseClicked => if isOpen st then (st, [OnClose]) else (st, [])
  | Resolved _ slots => (fetch_resolved slots st, [])
  | Rejected _ => (fetch_rejected st, [])
  end.

Fixpoint run (st : State) (evs : list Event) : State * list Effect :=
  match evs with
  | [] => (st, [])
  | ev :: evs =>
      let '(st1, out1) := step st ev in
      let '(st2, out2) := run st1 evs in
      (st2, out1 ++ out2)
  end.

(** The times that the answers among [evs] have offered. *)
Definition offered (evs : list Event) : list string :=
  evs ≫= (fun ev => match ev with Resolved _ slots => slots | _ => [] end).


End BookingModal.

(** * Properties *)

(** ** Facts about the JavaScript primitives *)

Lemma unsigned_literal_defined s : JS.unsigned_literal s <> Undefined.
Proof.
  unfold JS.unsigned_literal.
  destruct s; [discriminate|].
  destruct (JS.digits 0 _); discriminate.
Qed.

Lemma toString_defined v : v <> Undefined -> exists s, JS.toString v = Ret s.
Proof. destruct v; [congruence|eexists; reflexivity..]. Qed.

Lemma add_defined a b : JS.add a b <> Undefined.
Proof. destruct a, b; discriminate. Qed.

(** [parseTime12to24] never throws. *)
Lemma parseTime12to24_ret time12 : exists t, parseTime12to24 time12 = Ret t.
Proof.
  unfold parseTime12to24.
  destruct (TimeRegex.exec time12) as [g|]; [|eexists; reflexivity].
  destruct (JS.parseInt (TimeRegex.g1 g)) as [| |z] eqn:E.
  - exfalso. exact (unsigned_literal_defined _ E).
  - repeat (destruct (_ && _); cbn); eexists; reflexivity.
  - repeat (destruct (_ && _); cbn); eexists; reflexivity.
Qed.

Lemma apptTime24_ret appt : apptTime24 appt = Ret (normalizedTime appt).
Proof.
  unfold normalizedTime.
  assert (H : exists t, apptTime24 appt = Ret t).
  { unfold apptTime24. destruct (_ || _); [apply parseTime12to24_ret|eauto]. }
  destruct H as [t ->]. reflexivity.
Qed.

Lemma findM_pure {A} (p : A -> Res bool) (q : A -> bool) (l : list A) :
  (forall x, p x = Ret (q x)) -> findM p l = Ret (List.find q l).
Proof.
  intros Hp. induction l as [|x l IH]; [reflexivity|].
  cbn [findM List.find]. rewrite Hp. cbn. destruct (q x); [reflexivity|exact IH].
Qed.

(** One iteration's slot is [slot_of]. *)
Lemma slotAt_ret appointments date t :
  slotAt appointments date (clock24 t) (clock12 t)
  = Ret (slot_of appointments date t).
Proof.
  unfold slotAt, slot_of, occupant.
  rewrite (findM_pure _ (fun appt => String.eqb (normalizedTime appt) (clock24 t))).
  - cbn. destruct (List.find _ _); reflexivity.
  - intros a. rewrite apptTime24_ret. reflexivity.
Qed.

(** *** Clock strings, by enumeration of the 1440 minutes of a day *)

Lemma clock_checks_all : forallb clock_checks (seqZ 0 1440) = true.
Proof. vm_compute. reflexivity. Qed.

Lemma clock_checks_ok t : 0 <= t < 1440 -> clock_checks t = true.
Proof.
  intros Ht. pose proof clock_checks_all as H.
  rewrite forallb_forall in H. apply H.
  apply list_elem_of_In, elem_of_seqZ. lia.
Qed.

Lemma parse_clock24 t :
  0 <= t < 1440 ->
  JS.Number <$> JS.split_colon (clock24 t) = [Num (t / 60); Num (t `mod` 60)].
Proof.
  intros Ht. pose proof (clock_checks_ok t Ht) as H. unfold clock_checks in H.
  repeat (apply andb_prop in H as [H ?]).
  destruct (JS.Number <$> _) as [|[| |h] [|[| |m] [|]]]; try discriminate.
  apply andb_prop in H as [Hh Hm].
  apply Z.eqb_eq in Hh, Hm. congruence.
Qed.

Lemma time24_clock24 t :
  0 <= t < 1440 ->
  exists h m, JS.toString (Num (t / 60)) = Ret h
    /\ JS.toString (Num (t `mod` 60)) = Ret m
    /\ JS.padStart2 h +:+ ":" +:+ JS.padStart2 m = clock24 t.
Proof.
  intros Ht. pose proof (clock_checks_ok t Ht) as H. unfold clock_checks in H.
  repeat (apply andb_prop in H as [H ?]).
  destruct (JS.toString (Num (t / 60))) as [h| |]; try discriminate.
  destruct (JS.toString (Num (t `mod` 60))) as [m| |]; try discriminate.
  exists h, m. repeat split. by apply String.eqb_eq.
Qed.

Lemma formatTime_clock24 t :
  0 <= t < 1440 -> formatTime (clock24 t) = Ret (clock12 t).
Proof.
  intros Ht. pose proof (clock_checks_ok t Ht) as H. unfold clock_checks in H.
  repeat (apply andb_prop in H as [H ?]).
  destruct (formatTime _) as [l| |]; try discriminate.
  f_equal. by apply String.eqb_eq.
Qed.

Lemma timeOfDay_clock12 t : 0 <= t < 1440 -> timeOfDay (clock12 t) = Some t.
Proof.
  intros Ht. pose proof (clock_checks_ok t Ht) as H. unfold clock_checks in H.
  repeat (apply andb_prop in H as [H ?]).
  destruct (timeOfDay _) as [t'|]; try discriminate.
  f_equal. by apply Z.eqb_eq.
Qed.

(** ** The loop on well-formed clock times *)

Lemma bind_ret {A B} (a : A) (k : A -> Res B) : (x ← Ret a; k x) = k a.
Proof. reflexivity. Qed.

Lemma slot_count_done s e d : e <= s -> slot_count s e d = 0.
Proof. intros H. unfold slot_count. destruct (Z.ltb_spec s e); [lia|done]. Qed.

Lemma slot_count_step s e d :
  0 < d -> s < e -> slot_count s e d = 1 + slot_count (s + d) e d.
Proof.
  intros Hd Hs. unfold slot_count.
  destruct (Z.ltb_spec s e); [|lia].
  replace (e - s + d - 1) with (e - s - 1 + 1 * d) by lia.
  rewrite Z.div_add by lia.
  destruct (Z.ltb_spec (s + d) e).
  - replace (e - (s + d) + d - 1) with (e - s - 1) by lia. lia.
  - rewrite Z.div_small by lia. lia.
Qed.

Lemma slot_count_nonneg s e d : 0 < d -> 0 <= slot_count s e d.
Proof.
  intros Hd. unfold slot_count. destruct (Z.ltb_spec s e); [|lia].
  apply Z.div_pos; lia.
Qed.

Lemma slot_starts_done s e d : e <= s -> slot_starts s e d = [].
Proof. intros H. unfold slot_starts. by rewrite slot_count_done, seqZ_nil. Qed.

Lemma slot_starts_step s e d :
  0 < d -> s < e -> slot_starts s e d = s :: slot_starts (s + d) e d.
Proof.
  intros Hd Hs. unfold slot_starts.
  rewrite (slot_count_step s e d) by done.
  pose proof (slot_count_nonneg (s + d) e d Hd) as Hc.
  rewrite seqZ_cons by lia. cbn [fmap list_fmap]. f_equal; [lia|].
  replace (Z.pred (1 + slot_count (s + d) e d)) with (slot_count (s + d) e d) by lia.
  rewrite <- (fmap_add_seqZ 1 0), <- list_fmap_compose.
  apply list_fmap_ext. intros _ k _. cbn. lia.
Qed.

Lemma before_end_clock t e :
  0 <= t -> 0 <= e ->
  before_end (Num (t / 60)) (Num (t `mod` 60)) (Num (e / 60)) (Num (e `mod` 60))
  = (t <? e).
Proof.
  intros Ht He. unfold before_end. cbn [JS.lt JS.strict_eq].
  pose proof (Z.div_mod t 60 ltac:(lia)). pose proof (Z.div_mod e 60 ltac:(lia)).
  pose proof (Z.mod_pos_bound t 60 ltac:(lia)).
  pose proof (Z.mod_pos_bound e 60 ltac:(lia)).
  destruct (Z.ltb_spec (t / 60) (e / 60)), (Z.eqb_spec (t / 60) (e / 60)),
    (Z.ltb_spec (t `mod` 60) (e `mod` 60)), (Z.ltb_spec t e); cbn; lia.
Qed.

Lemma advance_clock t d :
  0 <= t -> 0 < d ->
  advance (Num (t / 60)) (Num (t `mod` 60)) (Num d)
  = (Num ((t + d) / 60), Num ((t + d) `mod` 60)).
Proof.
  intros Ht Hd. unfold advance. cbn [JS.add JS.ge JS.floor_div JS.rem].
  pose proof (Z.mod_pos_bound t 60 ltac:(lia)) as Hm.
  assert (Hsplit : t + d = t `mod` 60 + d + t / 60 * 60).
  { pose proof (Z.div_mod t 60 ltac:(lia)). lia. }
  destruct (Z.leb_spec 60 (t `mod` 60 + d)).
  - cbn. rewrite Z.rem_mod_nonneg by lia.
    rewrite Hsplit, Z.div_add, Z.mod_add by lia. do 2 f_equal. lia.
  - rewrite Hsplit, Z.div_add, Z.mod_add by lia.
    rewrite (Z.div_small (t `mod` 60 + d)), (Z.mod_small (t `mod` 60 + d)) by lia.
    reflexivity.
Qed.

Section Loop.

Context (appointments : list Appointment.t) (date : string) (e d : Z).
Hypothesis (He : 0 <= e <= 1440) (Hd : 0 < d).

(** One turn of the loop from a time before [end]. *)
Lemma generate_loop_step fuel t slots :
  0 <= t -> t < e ->
  generate_loop (S fuel) appointments date
    (Num (e / 60)) (Num (e `mod` 60)) (Num d)
    (Num (t / 60)) (Num (t `mod` 60)) slots
  = generate_loop fuel appointments date
      (Num (e / 60)) (Num (e `mod` 60)) (Num d)
      (Num ((t + d) / 60)) (Num ((t + d) `mod` 60))
      (slots ++ [slot_of appointments date t]).
Proof.
  intros Ht Hte. cbn [generate_loop].
  rewrite before_end_clock by lia.
  destruct (Z.ltb_spec t e); [|lia].
  destruct (time24_clock24 t) as (h & m & Hh & Hm & H24); [lia|].
  rewrite Hh, bind_ret, Hm, bind_ret, H24.
  rewrite formatTime_clock24, bind_ret by lia.
  rewrite slotAt_ret, bind_ret.
  rewrite advance_clock by lia. reflexivity.
Qed.

(** The loop leaves at the first time not before [end]. *)
Lemma generate_loop_exit fuel t slots :
  0 <= t -> e <= t ->
  generate_loop (S fuel) appointments date
    (Num (e / 60)) (Num (e `mod` 60)) (Num d)
    (Num (t / 60)) (Num (t `mod` 60)) slots
  = Ret slots.
Proof.
  intros Ht Hte. cbn [generate_loop].
  rewrite before_end_clock by lia.
  destruct (Z.ltb_spec t e); [lia|reflexivity].
Qed.

Lemma generate_loop_clock (n : nat) : forall t slots fuel,
  0 <= t -> slot_count t e d = Z.of_nat n -> (n < fuel)%nat ->
  generate_loop fuel appointments date
    (Num (e / 60)) (Num (e `mod` 60)) (Num d)
    (Num (t / 60)) (Num (t `mod` 60)) slots
  = Ret (slots ++ (slot_of appointments date <$> slot_starts t e d)).
Proof.
  induction n as [|n IH]; intros t slots fuel Ht Hn Hfuel;
    (destruct fuel as [|fuel]; [lia|]).
  - assert (e <= t).
    { destruct (Z.lt_ge_cases t e) as [Hlt|]; [|done].
      pose proof (slot_count_step t e d Hd Hlt).
      pose proof (slot_count_nonneg (t + d) e d Hd). lia. }
    rewrite generate_loop_exit, slot_starts_done by done.
    by rewrite app_nil_r.
  - assert (t < e).
    { destruct (Z.lt_ge_cases t e) as [|Hge]; [done|].
      rewrite slot_count_done in Hn by done. lia. }
    rewrite generate_loop_step by done.
    rewrite IH; [|lia| |lia].
    + rewrite (slot_starts_step t e d) by done.
      by rewrite fmap_cons, <- app_assoc.
    + rewrite slot_count_step in Hn by done. lia.
Qed.

End Loop.

Lemma returns_unique {A} (run : nat -> Res A) a b :
  returns run a -> returns run b -> a = b.
Proof.
  intros [n Hn] [m Hm].
  specialize (Hn (n `max` m)%nat ltac:(lia)).
  specialize (Hm (n `max` m)%nat ltac:(lia)). congruence.
Qed.

Lemma returns_not_throws {A} (run : nat -> Res A) a : returns run a -> ~ throws run.
Proof.
  intros [n Hn] (m & e & Hm).
  specialize (Hn (n `max` m)%nat ltac:(lia)).
  specialize (Hm (n `max` m)%nat ltac:(lia)). congruence.
Qed.

Lemma returns_not_diverges {A} (run : nat -> Res A) a : returns run a -> ~ diverges run.
Proof. intros [n Hn] Hd. specialize (Hn n ltac:(lia)). rewrite Hd in Hn. discriminate. Qed.

Lemma clock24_nonempty t d : JS.or_string (Some (clock24 t)) d = clock24 t.
Proof. reflexivity. Qed.

Section Generate.

Context (weekdayName : string -> string).

(** The result on an enabled day whose effective start, end and duration
    (after the defaults) are well formed. *)
Lemma generateTimeSlots_effective schedule appointments date day s e d fuel :
  Schedule.weeklySchedule schedule !! weekdayName date = Some day ->
  DaySetting.enabled day = true ->
  JS.or_string (DaySetting.start day) "09:00" = clock24 s ->
  JS.or_string (DaySetting.end_ day) "17:00" = clock24 e ->
  JS.or (Schedule.slotDuration schedule) (Num 30) = Num d ->
  0 <= s < 1440 -> 0 <= e < 1440 -> 0 < d ->
  (Z.to_nat (slot_count s e d) < fuel)%nat ->
  generateTimeSlots weekdayName fuel (Some schedule) appointments date
  = Ret (slot_of appointments date <$> slot_starts s e d).
Proof.
  intros Hday Hen Hs He Hdur Hs' He' Hd Hfuel.
  unfold generateTimeSlots. rewrite Hday, Hen. cbn [negb].
  rewrite Hs, He, Hdur, !parse_clock24 by done.
  cbn [JS.element lookup list_lookup].
  apply (generate_loop_clock appointments date e d ltac:(lia) Hd
           (Z.to_nat (slot_count s e d))); [lia| |done].
  pose proof (slot_count_nonneg s e d Hd). lia.
Qed.

Lemma generateTimeSlots_opens schedule appointments date s e d :
  opens schedule (weekdayName date) s e d ->
  returns (fun fuel => generateTimeSlots weekdayName fuel (Some schedule)
                         appointments date)
          (slot_of appointments date <$> slot_starts s e d).
Proof.
  intros (day & Hday & Hen & Hs & He & Hdur & Hs' & He' & Hd).
  exists (S (Z.to_nat (slot_count s e d))). intros fuel Hfuel.
  apply (generateTimeSlots_effective _ _ _ day);
    [done|done|by rewrite Hs|by rewrite He| |done|done|done|lia].
  rewrite Hdur. unfold JS.or. cbn. destruct (Z.eqb_spec d 0); [lia|done].
Qed.

End Generate.

(** ** The start times *)

Lemma elem_of_slot_starts s e d t :
  0 < d ->
  t ∈ slot_starts s e d <-> exists k, 0 <= k /\ t = s + k * d /\ t < e.
Proof.
  intros Hd. unfold slot_starts. rewrite list_elem_of_fmap.
  setoid_rewrite elem_of_seqZ.
  assert (Hcount : forall k, 0 <= k -> (k < slot_count s e d <-> s + k * d < e)).
  { intros k Hk. unfold slot_count. destruct (Z.ltb_spec s e) as [Hlt|Hge].
    - split; intros H.
      + assert (k * d <= e - s - 1); [|lia].
        assert (k <= (e - s + d - 1) / d - 1) as Hk' by lia.
        replace (e - s + d - 1) with (e - s - 1 + 1 * d) in Hk' by lia.
        rewrite Z.div_add in Hk' by lia.
        pose proof (Z.mul_div_le (e - s - 1) d Hd). nia.
      + assert (k + 1 <= (e - s + d - 1) / d); [|lia].
        apply Z.div_le_lower_bound; nia.
    - split; [lia|nia]. }
  split.
  - intros (k & -> & Hk). exists k. rewrite <- Hcount by lia. lia.
  - intros (k & Hk & -> & Hlt). exists k. rewrite Hcount by lia. lia.
Qed.

Lemma slot_starts_sorted s e d : 0 < d -> StronglySorted Z.lt (slot_starts s e d).
Proof.
  intros Hd. unfold slot_starts. generalize (slot_count s e d) as c. intros c.
  destruct (Z.le_gt_cases c 0) as [Hc|Hc].
  { rewrite seqZ_nil by done. constructor. }
  rewrite <- (Z2Nat.id c) by lia. generalize (Z.to_nat c) as n. clear c Hc.
  intros n. generalize 0 as m. induction n as [|n IH]; intros m.
  { rewrite seqZ_nil by done. constructor. }
  rewrite seqZ_cons by lia. cbn [fmap list_fmap]. constructor.
  - replace (Z.pred (Z.of_nat (S n))) with (Z.of_nat n) by lia. apply IH.
  - rewrite Forall_fmap, Forall_seqZ. intros k Hk. cbn. nia.
Qed.

Lemma slot_starts_bounds s e d t :
  0 < d -> 0 <= s -> t ∈ slot_starts s e d -> s <= t < e.
Proof.
  intros Hd Hs Ht. apply elem_of_slot_starts in Ht as (k & Hk & -> & Hlt); [|done].
  nia.
Qed.

Lemma StronglySorted_lt_NoDup (l : list Z) : StronglySorted Z.lt l -> NoDup l.
Proof.
  induction 1 as [|x l Hl IH Hx]; constructor; [|done].
  intros Hin. rewrite Forall_forall in Hx. specialize (Hx x Hin). lia.
Qed.

Lemma slot_of_time appointments date t :
  TimeSlot.time (slot_of appointments date t) = clock12 t.
Proof. unfold slot_of. by destruct (occupant _ _ _). Qed.

Lemma slot_starts_times appointments date (l : list Z) :
  TimeSlot.time <$> (slot_of appointments date <$> l) = clock12 <$> l.
Proof.
  rewrite <- list_fmap_compose. apply list_fmap_ext.
  intros _ t _. apply slot_of_time.
Qed.

(** *** Occupancy *)

Lemma or_string_shown_name patientName :
  JS.or_string patientName "Patient" = shown_name patientName.
Proof. by destruct patientName as [[|]|]. Qed.

(** An appointment matches a slot when it is on the queried date and its
    normalised time is the slot's 24-hour start time. *)
Lemma occupant_Some appointments date time24 appt :
  occupant appointments date time24 = Some appt ->
  exists earlier later,
    appointments = earlier ++ appt :: later
    /\ Appointment.date appt = date
    /\ normalizedTime appt = time24
    /\ forall b, b ∈ earlier ->
         ~ (Appointment.date b = date /\ normalizedTime b = time24).
Proof.
  unfold occupant. induction appointments as [|a l IH]; [discriminate|].
  rewrite filter_cons. destruct (decide (Appointment.date a = date)) as [Hd|Hd].
  - cbn [List.find]. destruct (String.eqb_spec (normalizedTime a) time24) as [Ht|Ht].
    + intros [= ->]. exists [], l. repeat split; try done. by intros b ?%elem_of_nil.
    + intros H. destruct (IH H) as (earlier & later & -> & ? & ? & Hno).
      exists (a :: earlier), later. repeat split; try done.
      intros b [->|Hb]%elem_of_cons; [tauto|by apply Hno].
  - intros H. destruct (IH H) as (earlier & later & -> & ? & ? & Hno).
    exists (a :: earlier), later. repeat split; try done.
    intros b [->|Hb]%elem_of_cons; [tauto|by apply Hno].
Qed.

Lemma occupant_None appointments date time24 :
  occupant appointments date time24 = None ->
  forall b, b ∈ appointments ->
    ~ (Appointment.date b = date /\ normalizedTime b = time24).
Proof.
  unfold occupant. induction appointments as [|a l IH]; intros H b Hb.
  { by apply elem_of_nil in Hb. }
  rewrite filter_cons in H. destruct (decide (Appointment.date a = date)) as [Hd|Hd].
  - cbn [List.find] in H.
    destruct (String.eqb_spec (normalizedTime a) time24) as [Ht|Ht]; [discriminate|].
    apply elem_of_cons in Hb as [->|Hb]; [tauto|by apply IH].
  - apply elem_of_cons in Hb as [->|Hb]; [tauto|by apply IH].
Qed.

(** The first match wins. *)
Lemma occupant_first earlier appt later date time24 :
  Appointment.date appt = date -> normalizedTime appt = time24 ->
  (forall b, b ∈ earlier ->
     ~ (Appointment.date b = date /\ normalizedTime b = time24)) ->
  occupant (earlier ++ appt :: later) date time24 = Some appt.
Proof.
  intros Hd Ht. unfold occupant. induction earlier as [|a l IH]; intros Hno.
  - cbn [app]. rewrite filter_cons, decide_True by done. cbn [List.find].
    by rewrite <- Ht, String.eqb_refl.
  - cbn [app]. rewrite filter_cons.
    assert (Ha : ~ (Appointment.date a = date /\ normalizedTime a = time24)).
    { apply Hno. by left. }
    assert (IH' : List.find (fun appt0 => (normalizedTime appt0 =? time24)%string)
                    (filter (fun appt0 => Appointment.date appt0 = date)
                       (l ++ appt :: later)) = Some appt).
    { apply IH. intros b Hb. apply Hno. by right. }
    destruct (decide (Appointment.date a = date)) as [Hd'|Hd']; [|done].
    cbn [List.find].
    destruct (String.eqb_spec (normalizedTime a) time24); [tauto|done].
Qed.

Lemma slot_of_same_booking l l' date t :
  Forall2 same_booking l l' -> slot_of l date t = slot_of l' date t.
Proof.
  intros H. unfold slot_of, occupant. induction H as [|a b l l' Hab _ IH]; [done|].
  destruct Hab as (Hd & Ht & Hn & Hi). rewrite !filter_cons, <- Hd.
  destruct (decide (Appointment.date a = date)); [|exact IH].
  cbn [List.find]. rewrite <- Ht.
  destruct (normalizedTime a =? clock24 t)%string; [|exact IH].
  by rewrite Hn, Hi.
Qed.

Lemma opens_bounds schedule dayName s e d :
  opens schedule dayName s e d -> 0 <= s < 1440 /\ 0 <= e < 1440 /\ 0 < d.
Proof. intros (day & _ & _ & _ & _ & _ & Hs & He & Hd). done. Qed.

Lemma clock24_inj t t' :
  0 <= t < 1440 -> 0 <= t' < 1440 -> clock24 t = clock24 t' -> t = t'.
Proof.
  intros Ht Ht' H. pose proof (parse_clock24 t Ht) as P.
  rewrite H, parse_clock24 in P by done. injection P as Hq Hr.
  rewrite (Z.div_mod t 60), (Z.div_mod t' 60) by lia. congruence.
Qed.

(** *** Stored times *)

Lemma stored_checks_all : forallb stored_checks (seqZ 0 1440) = true.
Proof. vm_compute. reflexivity. Qed.

(** The code's normalisation agrees with the specification's reading of a
    stored time, in each of its forms. *)
Lemma stored_as_normalized a t :
  0 <= t < 1440 -> Appointment.time a ∈ stored_as t ->
  normalizedTime a = clock24 t.
Proof.
  intros Ht Hin. pose proof stored_checks_all as H.
  rewrite forallb_forall in H. specialize (H t).
  unfold stored_checks in H. rewrite forallb_forall in H.
  apply String.eqb_eq.
  change (normalizedTime a)
    with (normalizedTime (Appointment.mk "" (Appointment.time a) None "")).
  apply H; [|by apply list_elem_of_In].
  apply list_elem_of_In, elem_of_seqZ. lia.
Qed.

(** A string stores at most one time of day. *)
Lemma stored_as_inj a t t' :
  0 <= t < 1440 -> 0 <= t' < 1440 ->
  Appointment.time a ∈ stored_as t -> Appointment.time a ∈ stored_as t' ->
  t = t'.
Proof.
  intros Ht Ht' H H'. apply clock24_inj; [done..|].
  by rewrite <- (stored_as_normalized a t), <- (stored_as_normalized a t').
Qed.

Lemma same_stored_same_booking a b : same_stored a b -> same_booking a b.
Proof.
  intros (Hd & (t & Ht & Ha & Hb) & Hn & Hi). repeat split; try done.
  by rewrite (stored_as_normalized a t), (stored_as_normalized b t).
Qed.

(** ** The claims about slot generation *)

Section Claims.

Context (weekdayName : string -> string).

(** C1.  On an enabled day from [s] to [e] with slots of [d] minutes,
    [generateTimeSlots] returns one slot for each of the times [s],
    [s + d], [s + 2d], ... that lie strictly below [e], and no other, in
    strictly ascending order, each labelled with its zero-padded
    ["hh:mm AM/PM"] form; when [e <= s] it returns the empty array. *)
Theorem generateTimeSlots_half_open_interval schedule appointments date s e d :
  opens schedule (weekdayName date) s e d ->
  exists slots,
    returns (fun fuel => generateTimeSlots weekdayName fuel (Some schedule)
                           appointments date) slots
    /\ TimeSlot.time <$> slots = clock12 <$> slot_starts s e d
    /\ (forall t, t ∈ slot_starts s e d <->
                  exists k, 0 <= k /\ t = s + k * d /\ t < e)
    /\ StronglySorted Z.lt (slot_starts s e d)
    /\ (e <= s -> slots = []).
Proof.
  intros Hopen.
  destruct (opens_bounds _ _ _ _ _ Hopen) as (_ & _ & Hd).
  exists (slot_of appointments date <$> slot_starts s e d).
  split; [by apply generateTimeSlots_opens|].
  split; [apply slot_starts_times|].
  split; [intros t; by apply elem_of_slot_starts|].
  split; [by apply slot_starts_sorted|].
  intros Hes. by rewrite slot_starts_done.
Qed.

(** C5.  When the resolved weekday has no setting in the template, or a
    setting that is not enabled, [generateTimeSlots] completes normally
    with the empty array, whatever the appointments and the duration; the
    outcome is not a thrown error. *)
Theorem generateTimeSlots_disabled_day fuel schedule appointments date :
  (forall day,
     Schedule.weeklySchedule schedule !! weekdayName date = Some day ->
     DaySetting.enabled day = false) ->
  generateTimeSlots weekdayName fuel (Some schedule) appointments date = Ret []
  /\ forall err,
       generateTimeSlots weekdayName fuel (Some schedule) appointments date
       <> Throw err.
Proof.
  intros Hday.
  assert (H : generateTimeSlots weekdayName fuel (Some schedule) appointments date
              = Ret []).
  { unfold generateTimeSlots.
    destruct (Schedule.weeklySchedule schedule !! weekdayName date) as [day|];
      [|done].
    by rewrite (Hday day eq_refl). }
  split; [exact H|]. intros err. by rewrite H.
Qed.

(** C6.  On valid input the times of day of the returned slots are
    strictly ascending, and no label occurs twice. *)
Theorem generateTimeSlots_strictly_ascending schedule appointments date s e d :
  opens schedule (weekdayName date) s e d ->
  exists slots times,
    returns (fun fuel => generateTimeSlots weekdayName fuel (Some schedule)
                           appointments date) slots
    /\ (fun slot => timeOfDay (TimeSlot.time slot)) <$> slots = Some <$> times
    /\ StronglySorted Z.lt times
    /\ NoDup (TimeSlot.time <$> slots).
Proof.
  intros Hopen.
  destruct (opens_bounds _ _ _ _ _ Hopen) as ([Hs _] & [_ He] & Hd).
  exists (slot_of appointments date <$> slot_starts s e d), (slot_starts s e d).
  assert (Htimes : timeOfDay <$> (clock12 <$> slot_starts s e d)
                   = Some <$> slot_starts s e d).
  { rewrite <- list_fmap_compose. apply list_fmap_ext. intros i t Ht.
    apply list_elem_of_lookup_2 in Ht.
    apply slot_starts_bounds in Ht; [|done..]. cbn. apply timeOfDay_clock12. lia. }
  split; [by apply generateTimeSlots_opens|].
  split; [|split; [by apply slot_starts_sorted|]].
  - rewrite <- Htimes, <- (slot_starts_times appointments date).
    by rewrite <- !list_fmap_compose.
  - rewrite slot_starts_times. apply (NoDup_fmap_1 timeOfDay). rewrite Htimes.
    apply NoDup_fmap_2; [apply _|].
    by apply StronglySorted_lt_NoDup, slot_starts_sorted.
Qed.

(** C2 (amended).  Let every appointment of the queried date store a time
    of day, as 24-hour ["HH:MM"] or as 12-hour ["h:mm AM"] with an
    upper-case marker.  A returned slot is unavailable exactly when some
    appointment of the list is on the queried date and stores the slot's
    start time, in either form; it then carries the id of such an
    appointment and its patient name, shown as ["Patient"] when the name is
    missing or empty, and otherwise it is available with neither.
    Appointment lists that differ only in the form the times are stored in
    (["14:00"] or ["2:00 PM"]) give the same slots. *)
Theorem slot_occupied_iff_matching_appointment schedule appointments date s e d :
  opens schedule (weekdayName date) s e d ->
  Forall (fun a => Appointment.date a = date ->
                   exists t, 0 <= t < 1440 /\ Appointment.time a ∈ stored_as t)
         appointments ->
  exists slots,
    returns (fun fuel => generateTimeSlots weekdayName fuel (Some schedule)
                           appointments date) slots
    /\ Forall2 (fun slot t =>
          TimeSlot.time slot = clock12 t
          /\ (TimeSlot.available slot = false <->
               exists a, a ∈ appointments /\ Appointment.date a = date
                         /\ Appointment.time a ∈ stored_as t)
          /\ (TimeSlot.available slot = false ->
               exists a, a ∈ appointments /\ Appointment.date a = date
                 /\ Appointment.time a ∈ stored_as t
                 /\ TimeSlot.patientName slot
                    = Some (shown_name (Appointment.patientName a))
                 /\ TimeSlot.appointmentId slot = Some (Appointment.id a))
          /\ (TimeSlot.available slot = true ->
               TimeSlot.patientName slot = None
               /\ TimeSlot.appointmentId slot = None))
        slots (slot_starts s e d)
    /\ (forall appointments',
          Forall2 same_stored appointments appointments' ->
          returns (fun fuel => generateTimeSlots weekdayName fuel (Some schedule)
                                 appointments' date) slots)
    /\ (forall day name id,
          same_stored (Appointment.mk day "14:00" name id)
                      (Appointment.mk day "2:00 PM" name id)).
Proof.
  intros Hopen Hstored.
  destruct (opens_bounds _ _ _ _ _ Hopen) as ([Hs _] & [_ He] & Hd).
  exists (slot_of appointments date <$> slot_starts s e d).
  split; [by apply generateTimeSlots_opens|]. split; [|split].
  - apply Forall2_fmap_l, Forall_Forall2_diag, Forall_forall. intros t Ht.
    apply slot_starts_bounds in Ht; [|done..].
    assert (Ht' : 0 <= t < 1440) by lia.
    cbn. unfold slot_of.
    destruct (occupant appointments date (clock24 t)) as [a|] eqn:Hocc; cbn.
    + apply occupant_Some in Hocc as (l1 & l2 & -> & Hdate & Hnorm & _).
      assert (Hin : a ∈ l1 ++ a :: l2) by (apply elem_of_app; right; by left).
      assert (Hat : Appointment.time a ∈ stored_as t).
      { rewrite Forall_forall in Hstored.
        destruct (Hstored a Hin Hdate) as (ta & Hta & Hform).
        rewrite (stored_as_normalized a ta) in Hnorm by done.
        by rewrite <- (clock24_inj ta t Hta Ht' Hnorm). }
      repeat split; try done.
      * intros _. by exists a.
      * intros _. exists a. by rewrite or_string_shown_name.
    + pose proof (occupant_None _ _ _ Hocc) as Hno.
      repeat split; try done.
      intros (a & Ha & Hdate & Hat). destruct (Hno a Ha).
      split; [done|]. by apply stored_as_normalized.
  - intros appointments' Hsame.
    rewrite (list_fmap_ext (slot_of appointments date) (slot_of appointments' date)
               (slot_starts s e d)).
    { by apply generateTimeSlots_opens. }
    intros i t _. apply slot_of_same_booking.
    eapply Forall2_impl; [exact Hsame|]. apply same_stored_same_booking.
  - intros day name id. repeat split.
    exists 840. split; [lia|].
    split; apply list_elem_of_In; vm_compute; tauto.
Qed.

(** C9.  On an enabled day a missing or empty start time stands for
    ["09:00"] and a missing or empty end time for ["17:00"]; a missing or
    zero slot duration stands for 30 minutes, and the slots of that
    duration are returned. *)
Theorem generateTimeSlots_defaults fuel schedule appointments date day :
  Schedule.weeklySchedule schedule !! weekdayName date = Some day ->
  DaySetting.enabled day = true ->
  (DaySetting.start day = None \/ DaySetting.start day = Some "" ->
   generateTimeSlots weekdayName fuel (Some schedule) appointments date
   = generateTimeSlots weekdayName fuel
       (Some (with_day schedule (weekdayName date)
                (DaySetting.mk true (Some "09:00") (DaySetting.end_ day))))
       appointments date)
  /\ (DaySetting.end_ day = None \/ DaySetting.end_ day = Some "" ->
      generateTimeSlots weekdayName fuel (Some schedule) appointments date
      = generateTimeSlots weekdayName fuel
          (Some (with_day schedule (weekdayName date)
                   (DaySetting.mk true (DaySetting.start day) (Some "17:00"))))
          appointments date)
  /\ (Schedule.slotDuration schedule = Undefined
      \/ Schedule.slotDuration schedule = Num 0 ->
      generateTimeSlots weekdayName fuel (Some schedule) appointments date
      = generateTimeSlots weekdayName fuel
          (Some (with_duration schedule (Num 30))) appointments date
      /\ forall s e,
           DaySetting.start day = Some (clock24 s) ->
           DaySetting.end_ day = Some (clock24 e) ->
           0 <= s < 1440 -> 0 <= e < 1440 ->
           returns (fun fuel => generateTimeSlots weekdayName fuel (Some schedule)
                                  appointments date)
                   (slot_of appointments date <$> slot_starts s e 30)).
Proof.
  intros Hday Hen. split; [|split].
  - intros Hs. unfold generateTimeSlots, with_day. cbn [Schedule.weeklySchedule
      Schedule.slotDuration]. rewrite lookup_insert_eq, Hday, Hen.
    cbn [DaySetting.enabled DaySetting.start DaySetting.end_ negb].
    by destruct Hs as [-> | ->].
  - intros He. unfold generateTimeSlots, with_day. cbn [Schedule.weeklySchedule
      Schedule.slotDuration]. rewrite lookup_insert_eq, Hday, Hen.
    cbn [DaySetting.enabled DaySetting.start DaySetting.end_ negb].
    by destruct He as [-> | ->].
  - intros Hdur.
    assert (Hor : JS.or (Schedule.slotDuration schedule) (Num 30) = Num 30)
      by (by destruct Hdur as [-> | ->]).
    split.
    + unfold generateTimeSlots, with_duration.
      cbn [Schedule.weeklySchedule Schedule.slotDuration].
      rewrite Hday, Hen, Hor. reflexivity.
    + intros s e Hs He Hs' He'.
      exists (S (Z.to_nat (slot_count s e 30))). intros fuel' Hfuel.
      apply (generateTimeSlots_effective _ _ _ _ day);
        [done|done|by rewrite Hs|by rewrite He|done|done|done|lia|lia].
Qed.

(** C10.  The first appointment of the list that matches a slot (same
    date, same normalised time) makes the slot unavailable and supplies its
    id and its name; a missing or empty name is shown as ["Patient"]. *)
Theorem occupied_slot_first_match_default_name schedule date s e d i t
    earlier appt later :
  opens schedule (weekdayName date) s e d ->
  slot_starts s e d !! i = Some t ->
  Appointment.date appt = date ->
  normalizedTime appt = clock24 t ->
  (forall b, b ∈ earlier ->
     ~ (Appointment.date b = date /\ normalizedTime b = clock24 t)) ->
  exists slots,
    returns (fun fuel => generateTimeSlots weekdayName fuel (Some schedule)
                           (earlier ++ appt :: later) date) slots
    /\ slots !! i
       = Some (TimeSlot.mk (clock12 t) false
                 (Some (shown_name (Appointment.patientName appt)))
                 (Some (Appointment.id appt)))
    /\ (Appointment.patientName appt = None
        \/ Appointment.patientName appt = Some "" ->
        slots !! i
        = Some (TimeSlot.mk (clock12 t) false (Some "Patient")
                  (Some (Appointment.id appt)))).
Proof.
  intros Hopen Hi Hd Ht Hno.
  exists (slot_of (earlier ++ appt :: later) date <$> slot_starts s e d).
  split; [by apply generateTimeSlots_opens|].
  assert (Hslot : (slot_of (earlier ++ appt :: later) date <$> slot_starts s e d) !! i
                  = Some (TimeSlot.mk (clock12 t) false
                            (Some (shown_name (Appointment.patientName appt)))
                            (Some (Appointment.id appt)))).
  { rewrite list_lookup_fmap, Hi. cbn. f_equal. unfold slot_of.
    rewrite (occupant_first earlier appt later date (clock24 t)) by done.
    do 2 f_equal. by destruct (Appointment.patientName appt) as [[|]|]. }
  split; [exact Hslot|].
  intros Hname. rewrite Hslot. by destruct Hname as [-> | ->].
Qed.

(** C4 (amended).  A slot duration of zero is not rejected: on
    an enabled day with well-formed start and end the call completes
    normally with the slots of a 30-minute duration; it neither throws nor
    runs forever. *)
Theorem generateTimeSlots_zero_duration schedule appointments date day s e :
  Schedule.weeklySchedule schedule !! weekdayName date = Some day ->
  DaySetting.enabled day = true ->
  DaySetting.start day = Some (clock24 s) ->
  DaySetting.end_ day = Some (clock24 e) ->
  0 <= s < 1440 -> 0 <= e < 1440 ->
  Schedule.slotDuration schedule = Num 0 ->
  returns (fun fuel => generateTimeSlots weekdayName fuel (Some schedule)
                         appointments date)
          (slot_of appointments date <$> slot_starts s e 30)
  /\ ~ throws (fun fuel => generateTimeSlots weekdayName fuel (Some schedule)
                             appointments date)
  /\ ~ diverges (fun fuel => generateTimeSlots weekdayName fuel (Some schedule)
                               appointments date).
Proof.
  intros Hday Hen Hs He Hs' He' Hdur.
  assert (H : returns (fun fuel => generateTimeSlots weekdayName fuel
                         (Some schedule) appointments date)
                (slot_of appointments date <$> slot_starts s e 30)).
  { exists (S (Z.to_nat (slot_count s e 30))). intros fuel Hfuel.
    apply (generateTimeSlots_effective _ _ _ _ day);
      [done|done|by rewrite Hs|by rewrite He|by rewrite Hdur|done|done|lia|lia]. }
  split; [exact H|]. split.
  - by eapply returns_not_throws.
  - by eapply returns_not_diverges.
Qed.

End Claims.

(** ** The conversion rule of [parseTime12to24] *)

Lemma rule_checks_all : forallb rule_checks (seqZ 0 720) = true.
Proof. vm_compute. reflexivity. Qed.

(** 12 AM is hour 00, 1-11 AM keep their hour, 12 PM stays 12 and 1-11 PM
    gain twelve hours, for every spelling of [spellings12]. *)
Lemma parseTime12to24_rule h m time12 :
  1 <= h <= 12 -> 0 <= m < 60 ->
  (time12 ∈ spellings12 h m "AM" ->
   parseTime12to24 time12 = Ret (clock24 (60 * (h `mod` 12) + m)))
  /\ (time12 ∈ spellings12 h m "PM" ->
      parseTime12to24 time12 = Ret (clock24 (60 * (h `mod` 12 + 12) + m))).
Proof.
  intros Hh Hm. pose proof rule_checks_all as H.
  rewrite forallb_forall in H.
  specialize (H (60 * (h - 1) + m)). unfold rule_checks in H.
  replace ((60 * (h - 1) + m) / 60 + 1) with h in H.
  2:{ replace (60 * (h - 1) + m) with (m + (h - 1) * 60) by lia.
      rewrite Z.div_add, Z.div_small by lia. lia. }
  replace ((60 * (h - 1) + m) `mod` 60) with m in H.
  2:{ replace (60 * (h - 1) + m) with (m + (h - 1) * 60) by lia.
      by rewrite Z.mod_add, Z.mod_small by lia. }
  apply andb_prop in H as [Ham Hpm].
  2:{ apply list_elem_of_In, elem_of_seqZ. lia. }
  rewrite forallb_forall in Ham, Hpm.
  split; intros Hin%list_elem_of_In.
  - specialize (Ham _ Hin). unfold parses_to in Ham.
    destruct (parseTime12to24 time12); try discriminate.
    f_equal. by apply String.eqb_eq.
  - specialize (Hpm _ Hin). unfold parses_to in Hpm.
    destruct (parseTime12to24 time12); try discriminate.
    f_equal. by apply String.eqb_eq.
Qed.

(** A string that the regular expression does not match is read as
    midnight. *)
Lemma parseTime12to24_no_match time12 :
  TimeRegex.exec time12 = None -> parseTime12to24 time12 = Ret "00:00".
Proof. intros H. unfold parseTime12to24. by rewrite H. Qed.

(** A string without an upper-case marker is compared as it is. *)
Lemma apptTime24_no_marker appt :
  JS.includes (Appointment.time appt) "AM" = false ->
  JS.includes (Appointment.time appt) "PM" = false ->
  apptTime24 appt = Ret (Appointment.time appt).
Proof. intros H1 H2. unfold apptTime24. by rewrite H1, H2. Qed.

(** ** Non-positive durations *)

Lemma split_colon_nonempty s : JS.split_colon s <> [].
Proof.
  destruct s as [|c s]; [done|]. cbn [JS.split_colon].
  destruct (Ascii.eqb c ":"); [done|]. by destruct (JS.split_colon s).
Qed.

Lemma split_colon_two a b :
  exists x y r, JS.split_colon (a +:+ ":" +:+ b) = x :: y :: r.
Proof.
  induction a as [|c a (x & y & r & IH)].
  - change ("" +:+ ":" +:+ b) with (String ":" b). cbn [JS.split_colon Ascii.eqb].
    pose proof (split_colon_nonempty b).
    destruct (JS.split_colon b) as [|y r] eqn:E; [done|].
    exists "", y, r. by vm_compute.
  - change (String c a +:+ ":" +:+ b) with (String c (a +:+ ":" +:+ b)).
    cbn [JS.split_colon]. rewrite IH. destruct (Ascii.eqb c ":"); eauto.
Qed.

Lemma Number_defined s : JS.Number s <> Undefined.
Proof.
  unfold JS.Number. destruct (JS.trim s) as [|c r]; [done|].
  pose proof (unsigned_literal_defined r).
  pose proof (unsigned_literal_defined (String c r)).
  destruct c as [[] [] [] [] [] [] [] []]; try done;
    by destruct (JS.unsigned_literal r).
Qed.

(** [formatTime] completes on every string with a colon. *)
Lemma formatTime_ret a b : exists l, formatTime (a +:+ ":" +:+ b) = Ret l.
Proof.
  unfold formatTime. destruct (split_colon_two a b) as (x & y & r & ->).
  cbn [fmap list_fmap JS.element lookup list_lookup].
  assert (H12 : JS.or (JS.rem (JS.Number x) (Num 12)) (Num 12) <> Undefined).
  { unfold JS.or. destruct (JS.rem _ _); cbn; try done. by destruct (_ =? _). }
  destruct (toString_defined _ H12) as [h ->].
  destruct (toString_defined _ (Number_defined y)) as [m ->].
  eexists. reflexivity.
Qed.

Lemma slotAt_completes appointments date time24 time12 :
  exists slot, slotAt appointments date time24 time12 = Ret slot.
Proof.
  unfold slotAt.
  rewrite (findM_pure _ (fun appt => String.eqb (normalizedTime appt) time24)).
  - cbn. destruct (List.find _ _); eexists; reflexivity.
  - intros a. rewrite apptTime24_ret. reflexivity.
Qed.

Lemma before_end_earlier h m m' endHour endMin :
  m' <= m ->
  before_end (Num h) (Num m) endHour endMin = true ->
  before_end (Num h) (Num m') endHour endMin = true.
Proof.
  intros Hm. unfold before_end.
  destruct (JS.lt (Num h) endHour); [done|]. cbn [orb].
  destruct (JS.strict_eq (Num h) endHour); [|done]. cbn [andb].
  destruct endMin as [| |x]; cbn; try done.
  intros H%Z.ltb_lt. apply Z.ltb_lt. lia.
Qed.

(** With a negative duration the minutes only decrease, the hour never
    moves, and the test of the loop stays true. *)
Lemma generate_loop_negative_duration appointments date endHour endMin d :
  d < 0 ->
  forall fuel h m slots,
    m < 60 ->
    before_end (Num h) (Num m) endHour endMin = true ->
    generate_loop fuel appointments date endHour endMin (Num d)
      (Num h) (Num m) slots = Timeout.
Proof.
  intros Hd. induction fuel as [|fuel IH]; intros h m slots Hm Hbe; [done|].
  cbn [generate_loop JS.toString]. rewrite Hbe, !bind_ret.
  destruct (formatTime_ret
              (JS.padStart2 (NilZero.string_of_int (Z.to_int h)))
              (JS.padStart2 (NilZero.string_of_int (Z.to_int m)))) as [l ->].
  rewrite bind_ret.
  destruct (slotAt_completes appointments date
              (JS.padStart2 (NilZero.string_of_int (Z.to_int h)) +:+ ":" +:+
               JS.padStart2 (NilZero.string_of_int (Z.to_int m))) l) as [slot ->].
  rewrite bind_ret. unfold advance. cbn [JS.add JS.ge].
  destruct (Z.leb_spec 60 (m + d)); [lia|].
  apply IH; [lia|]. apply (before_end_earlier h m); [lia|done].
Qed.

Section Negative.

Context (weekdayName : string -> string).

(** A negative slot duration is not rejected either: on an enabled day
    that starts before it ends the loop never leaves. *)
Lemma generateTimeSlots_negative_duration_diverges schedule appointments date
    day s e d :
  Schedule.weeklySchedule schedule !! weekdayName date = Some day ->
  DaySetting.enabled day = true ->
  DaySetting.start day = Some (clock24 s) ->
  DaySetting.end_ day = Some (clock24 e) ->
  0 <= s < 1440 -> 0 <= e < 1440 -> s < e ->
  Schedule.slotDuration schedule = Num d -> d < 0 ->
  diverges (fun fuel => generateTimeSlots weekdayName fuel (Some schedule)
                          appointments date).
Proof.
  intros Hday Hen Hs He Hs' He' Hse Hdur Hd fuel.
  unfold generateTimeSlots. rewrite Hday, Hen, Hs, He, Hdur. cbn [negb].
  rewrite !clock24_nonempty, !parse_clock24 by done.
  cbn [JS.element lookup list_lookup].
  assert (Hor : JS.or (Num d) (Num 30) = Num d).
  { unfold JS.or. cbn. destruct (Z.eqb_spec d 0); [lia|done]. }
  rewrite Hor. apply generate_loop_negative_duration; [done| |].
  - pose proof (Z.mod_pos_bound s 60 ltac:(lia)). lia.
  - rewrite before_end_clock by lia. apply Z.ltb_lt. lia.
Qed.

End Negative.

(** ** The claims on concrete input *)

(** The two schedules of the specification's examples: 09:00 to 10:00 and
    09:00 to 09:45, both in half hours, give the slots of 09:00 and
    09:30. *)
Example slots_0900_1000_30 :
  generateTimeSlots always_monday 3
    (Some (monday_only (Some "09:00") (Some "10:00") (Num 30))) [] "2024-01-15"
  = Ret [TimeSlot.mk "09:00 AM" true None None;
         TimeSlot.mk "09:30 AM" true None None].
Proof. reflexivity. Qed.

Example slots_0900_0945_30 :
  generateTimeSlots always_monday 3
    (Some (monday_only (Some "09:00") (Some "09:45") (Num 30))) [] "2024-01-15"
  = Ret [TimeSlot.mk "09:00 AM" true None None;
         TimeSlot.mk "09:30 AM" true None None].
Proof. reflexivity. Qed.

(** Minutes past 59 roll into the hour: 09:00, 09:45, 10:30. *)
Example slots_0900_1100_45 :
  generateTimeSlots always_monday 4
    (Some (monday_only (Some "09:00") (Some "11:00") (Num 45))) [] "2024-01-15"
  = Ret [TimeSlot.mk "09:00 AM" true None None;
         TimeSlot.mk "09:45 AM" true None None;
         TimeSlot.mk "10:30 AM" true None None].
Proof. reflexivity. Qed.

(** A start time without minutes makes the call throw as soon as the loop
    is entered. *)
Example start_without_minutes_throws :
  generateTimeSlots always_monday 4
    (Some (monday_only (Some "09") (Some "11:00") (Num 45))) [] "2024-01-15"
  = Throw TypeError.
Proof. reflexivity. Qed.

Ltac solve_opens :=
  unfold opens, monday_only, one_day;
  eexists; split; [apply lookup_singleton_eq|];
  cbn; repeat split; first [reflexivity | lia].

Lemma generateTimeSlots_half_open_interval_witness :
  opens (monday_only (Some "09:00") (Some "10:00") (Num 45))
        (always_monday "2024-01-15") 540 600 45
  /\ exists slots,
       returns (fun fuel => generateTimeSlots always_monday fuel
                  (Some (monday_only (Some "09:00") (Some "10:00") (Num 45)))
                  sample_appts "2024-01-15") slots
       /\ TimeSlot.time <$> slots = clock12 <$> slot_starts 540 600 45
       /\ (forall t, t ∈ slot_starts 540 600 45 <->
                     exists k, 0 <= k /\ t = 540 + k * 45 /\ t < 600)
       /\ StronglySorted Z.lt (slot_starts 540 600 45)
       /\ (600 <= 540 -> slots = []).
Proof.
  split; [solve_opens|].
  apply (generateTimeSlots_half_open_interval always_monday
           (monday_only (Some "09:00") (Some "10:00") (Num 45))
           sample_appts "2024-01-15" 540 600 45).
  solve_opens.
Defined.

Lemma generateTimeSlots_disabled_day_witness :
  generateTimeSlots always_monday 0
    (Some (one_day "monday" (DaySetting.mk false (Some "09:00") (Some "17:00"))
             (Num 30)))
    sample_appts "2024-01-15" = Ret []
  /\ forall err,
       generateTimeSlots always_monday 0
         (Some (one_day "monday" (DaySetting.mk false (Some "09:00") (Some "17:00"))
                  (Num 30)))
         sample_appts "2024-01-15" <> Throw err.
Proof.
  apply (generateTimeSlots_disabled_day always_monday 0
           (one_day "monday" (DaySetting.mk false (Some "09:00") (Some "17:00"))
              (Num 30))
           sample_appts "2024-01-15").
  intros day. unfold one_day, always_monday. cbn.
  rewrite lookup_singleton_eq. intros [= <-]. reflexivity.
Defined.

Lemma generateTimeSlots_strictly_ascending_witness :
  exists slots times,
    returns (fun fuel => generateTimeSlots always_monday fuel
               (Some (monday_only (Some "09:00") (Some "17:00") (Num 20)))
               sample_appts "2024-01-15") slots
    /\ (fun slot => timeOfDay (TimeSlot.time slot)) <$> slots = Some <$> times
    /\ StronglySorted Z.lt times
    /\ NoDup (TimeSlot.time <$> slots).
Proof.
  apply (generateTimeSlots_strictly_ascending always_monday
           (monday_only (Some "09:00") (Some "17:00") (Num 20))
           sample_appts "2024-01-15" 540 1020 20).
  solve_opens.
Defined.

Lemma slot_occupied_iff_matching_appointment_witness :
  exists slots,
    returns (fun fuel => generateTimeSlots always_monday fuel
               (Some (monday_only (Some "13:00") (Some "15:00") (Num 30)))
               sample_appts "2024-01-15") slots
    /\ Forall2 (fun slot t =>
          TimeSlot.time slot = clock12 t
          /\ (TimeSlot.available slot = false <->
               exists a, a ∈ sample_appts /\ Appointment.date a = "2024-01-15"
                         /\ Appointment.time a ∈ stored_as t)
          /\ (TimeSlot.available slot = false ->
               exists a, a ∈ sample_appts /\ Appointment.date a = "2024-01-15"
                 /\ Appointment.time a ∈ stored_as t
                 /\ TimeSlot.patientName slot
                    = Some (shown_name (Appointment.patientName a))
                 /\ TimeSlot.appointmentId slot = Some (Appointment.id a))
          /\ (TimeSlot.available slot = true ->
               TimeSlot.patientName slot = None
               /\ TimeSlot.appointmentId slot = None))
        slots (slot_starts 780 900 30)
    /\ (forall appointments',
          Forall2 same_stored sample_appts appointments' ->
          returns (fun fuel => generateTimeSlots always_monday fuel
                     (Some (monday_only (Some "13:00") (Some "15:00") (Num 30)))
                     appointments' "2024-01-15") slots)
    /\ (forall day name id,
          same_stored (Appointment.mk day "14:00" name id)
                      (Appointment.mk day "2:00 PM" name id)).
Proof.
  apply (slot_occupied_iff_matching_appointment always_monday
           (monday_only (Some "13:00") (Some "15:00") (Num 30))
           sample_appts "2024-01-15" 780 900 30).
  - solve_opens.
  - unfold sample_appts.
    repeat (apply List.Forall_cons; [intros _|]); [| | | |apply List.Forall_nil].
    + exists 570. split; [lia|]. apply list_elem_of_In. vm_compute. tauto.
    + exists 840. split; [lia|]. apply list_elem_of_In. vm_compute. tauto.
    + exists 540. split; [lia|]. apply list_elem_of_In. vm_compute. tauto.
    + exists 840. split; [lia|]. apply list_elem_of_In. vm_compute. tauto.
Defined.

Lemma generateTimeSlots_defaults_witness :
  generateTimeSlots always_monday 40
    (Some (monday_only None (Some "") (Num 0))) sample_appts "2024-01-15"
  = generateTimeSlots always_monday 40
      (Some (with_day (monday_only None (Some "") (Num 0)) "monday"
               (DaySetting.mk true (Some "09:00") (Some ""))))
      sample_appts "2024-01-15".
Proof.
  destruct (generateTimeSlots_defaults always_monday 40
              (monday_only None (Some "") (Num 0)) sample_appts "2024-01-15"
              (DaySetting.mk true None (Some ""))) as (Hstart & _ & _).
  - apply lookup_singleton_eq.
  - reflexivity.
  - apply Hstart. left. reflexivity.
Defined.

Lemma occupied_slot_first_match_default_name_witness :
  exists slots,
    returns (fun fuel => generateTimeSlots always_monday fuel
               (Some (monday_only (Some "13:00") (Some "15:00") (Num 30)))
               sample_appts "2024-01-15") slots
    /\ slots !! 2%nat
       = Some (TimeSlot.mk "02:00 PM" false (Some "Patient") (Some "a2")).
Proof.
  destruct (occupied_slot_first_match_default_name always_monday
              (monday_only (Some "13:00") (Some "15:00") (Num 30))
              "2024-01-15" 780 900 30 2%nat 840
              [Appointment.mk "2024-01-15" "09:30" (Some "Ann") "a1"]
              (Appointment.mk "2024-01-15" "2:00 PM" None "a2")
              [Appointment.mk "2024-01-16" "09:00" (Some "Bob") "a3";
               Appointment.mk "2024-01-15" "2:00 PM" (Some "Cy") "a4"])
    as (slots & Hret & Hslot & _).
  - solve_opens.
  - reflexivity.
  - reflexivity.
  - reflexivity.
  - intros b ->%list_elem_of_singleton [_ Ht]. vm_compute in Ht. discriminate.
  - exists slots. split; [exact Hret|exact Hslot].
Defined.

Lemma generateTimeSlots_zero_duration_witness :
  returns (fun fuel => generateTimeSlots always_monday fuel
             (Some (monday_only (Some "09:00") (Some "10:00") (Num 0)))
             sample_appts "2024-01-15")
          (slot_of sample_appts "2024-01-15" <$> slot_starts 540 600 30)
  /\ ~ throws (fun fuel => generateTimeSlots always_monday fuel
                 (Some (monday_only (Some "09:00") (Some "10:00") (Num 0)))
                 sample_appts "2024-01-15")
  /\ ~ diverges (fun fuel => generateTimeSlots always_monday fuel
                   (Some (monday_only (Some "09:00") (Some "10:00") (Num 0)))
                   sample_appts "2024-01-15").
Proof.
  apply (generateTimeSlots_zero_duration always_monday
           (monday_only (Some "09:00") (Some "10:00") (Num 0))
           sample_appts "2024-01-15"
           (DaySetting.mk true (Some "09:00") (Some "10:00")) 540 600);
    first [apply lookup_singleton_eq | reflexivity | lia].
Defined.

(** C2, as the specification states it, fails on an appointment whose
    patient name is empty: the occupied slot carries ["Patient"], not the
    appointment's name. *)
Lemma occupied_slot_does_not_carry_empty_name :
  generateTimeSlots always_monday 2
    (Some (monday_only (Some "14:00") (Some "14:30") (Num 30)))
    [Appointment.mk "2024-01-15" "14:00" (Some "") "a1"] "2024-01-15"
  = Ret [TimeSlot.mk "02:00 PM" false (Some "Patient") (Some "a1")]
  /\ TimeSlot.patientName
       (TimeSlot.mk "02:00 PM" false (Some "Patient") (Some "a1"))
     <> Appointment.patientName
          (Appointment.mk "2024-01-15" "14:00" (Some "") "a1").
Proof. split; [by vm_compute|discriminate]. Qed.

(** C4, as the specification states it, fails: with a duration of zero on
    a Monday from 09:00 to 10:00 the call does not throw, it returns the
    two half-hour slots. *)
Lemma zero_duration_is_not_rejected :
  returns (fun fuel => generateTimeSlots always_monday fuel
             (Some (monday_only (Some "09:00") (Some "10:00") (Num 0)))
             [] "2024-01-15")
          [TimeSlot.mk "09:00 AM" true None None;
           TimeSlot.mk "09:30 AM" true None None]
  /\ ~ throws (fun fuel => generateTimeSlots always_monday fuel
                 (Some (monday_only (Some "09:00") (Some "10:00") (Num 0)))
                 [] "2024-01-15").
Proof.
  assert (H : returns (fun fuel => generateTimeSlots always_monday fuel
                (Some (monday_only (Some "09:00") (Some "10:00") (Num 0)))
                [] "2024-01-15")
              [TimeSlot.mk "09:00 AM" true None None;
               TimeSlot.mk "09:30 AM" true None None]).
  { exists 3%nat. intros fuel Hfuel.
    do 3 (destruct fuel as [|fuel]; [lia|]). reflexivity. }
  split; [exact H|]. by eapply returns_not_throws.
Qed.

(** C3 at a lower-case marker.  [parseTime12to24] itself reads
    ["2:00 pm"] as ["14:00"], but [generateTimeSlots] only calls it on
    strings that contain ["AM"] or ["PM"] in upper case: the appointment
    is compared as ["2:00 pm"] and the 02:00 PM slot stays available. *)
Lemma lowercase_marker_is_not_normalized :
  parseTime12to24 "2:00 pm" = Ret "14:00"
  /\ apptTime24 (Appointment.mk "2024-01-15" "2:00 pm" (Some "Ann") "a1")
     = Ret "2:00 pm"
  /\ apptTime24 (Appointment.mk "2024-01-15" "2:00 PM" (Some "Ann") "a1")
     = Ret "14:00"
  /\ generateTimeSlots always_monday 3
       (Some (monday_only (Some "14:00") (Some "15:00") (Num 30)))
       [Appointment.mk "2024-01-15" "2:00 pm" (Some "Ann") "a1"] "2024-01-15"
     = Ret [TimeSlot.mk "02:00 PM" true None None;
            TimeSlot.mk "02:30 PM" true None None]
  /\ generateTimeSlots always_monday 3
       (Some (monday_only (Some "14:00") (Some "15:00") (Num 30)))
       [Appointment.mk "2024-01-15" "2:00 PM" (Some "Ann") "a1"] "2024-01-15"
     = Ret [TimeSlot.mk "02:00 PM" false (Some "Ann") (Some "a1");
            TimeSlot.mk "02:30 PM" true None None].
Proof. repeat split; vm_compute; reflexivity. Qed.

(** ** The pending-update gate *)

Module ProfilePageFacts.
Import ProfilePage.

Lemma handleSubmit_isLoading api now st :
  isLoading (handleSubmit api now st).1 = isLoading st.
Proof.
  unfold handleSubmit. destruct (hasPendingUpdate (pendingUpdate st)); [done|].
  by destruct (requestProfileUpdate api _).
Qed.

Lemma handleSubmit_pending api now st :
  hasPendingUpdate (pendingUpdate st) = true ->
  hasPendingUpdate (pendingUpdate (handleSubmit api now st).1) = true.
Proof. intros H. unfold handleSubmit. by rewrite H. Qed.

(** Once the page is loaded with a pending update, no step clears it. *)
Lemma pending_stays st st' :
  rtc step st st' ->
  isLoading st = false ->
  hasPendingUpdate (pendingUpdate st) = true ->
  isLoading st' = false /\ hasPendingUpdate (pendingUpdate st') = true.
Proof.
  induction 1 as [st|st st1 st2 Hstep _ IH]; intros Hload Hpend; [done|].
  apply IH; inversion Hstep; subst; try congruence.
  - by rewrite handleSubmit_isLoading.
  - by apply handleSubmit_pending.
Qed.

(** C7.  While [hasPendingUpdate] is true the submit button is disabled,
    and [handleSubmit] sends no request and only sets a warning message;
    the pending update is left as it is, and no later step of the page
    clears it. *)
Theorem handleSubmit_pending_gate api now st :
  hasPendingUpdate (pendingUpdate st) = true ->
  submitDisabled st = true
  /\ (handleSubmit api now st).2 = []
  /\ (exists txt, message (handleSubmit api now st).1
                  = Some (mkMessage Warning txt))
  /\ pendingUpdate (handleSubmit api now st).1 = pendingUpdate st
  /\ (isLoading st = false ->
      forall st', rtc step st st' ->
                  hasPendingUpdate (pendingUpdate st') = true).
Proof.
  intros Hpend. unfold handleSubmit, submitDisabled. rewrite Hpend. cbn.
  split; [apply orb_true_r|]. repeat split; [eauto|].
  intros Hload st' Hsteps. by eapply pending_stays.
Qed.

End ProfilePageFacts.

(** ** The store-level function against the functional one *)

Module HeapFacts.

Lemma bind_ret_eq {A B} (m : Heap.M A) (k : A -> Heap.M B) σ a σ' :
  m σ = Ret (a, σ') -> Heap.bind m k σ = k a σ'.
Proof. intros H. unfold Heap.bind. by rewrite H. Qed.

Lemma bind_lift {A B} (r : Res A) (k : A -> Heap.M B) σ :
  Heap.bind (Heap.lift r) k σ
  = match r with
    | Ret a => k a σ
    | Throw e => Throw e
    | Timeout => Timeout
    end.
Proof. unfold Heap.bind, Heap.lift. by destruct r. Qed.

Lemma bind_find {B} p arr (k : option Appointment.t -> Heap.M B) σ l :
  σ !! arr = Some (Heap.Appointments l) ->
  Heap.bind (Heap.find_appointment p arr) k σ
  = match findM p l with
    | Ret a => k a σ
    | Throw e => Throw e
    | Timeout => Timeout
    end.
Proof.
  intros H. unfold Heap.bind, Heap.find_appointment, Heap.lift. rewrite H.
  by destruct (findM p l).
Qed.

Lemma fresh_lookup (σ : gmap Heap.loc Heap.obj) : σ !! fresh (dom σ) = None.
Proof. apply not_elem_of_dom, is_fresh. Qed.

Lemma fresh_ne (σ : gmap Heap.loc Heap.obj) l o : σ !! l = Some o -> l <> fresh (dom σ).
Proof. intros H ->. by rewrite fresh_lookup in H. Qed.

Section Simulation.

Context (appointments : Heap.loc) (appts : list Appointment.t) (date : string).
Context (endHour endMin slotDuration : value) (slots : Heap.loc).

(** The loop on the store does what the functional loop does to the array
    [slots], and leaves every other object of the store as it was. *)
Lemma generate_loop_sim fuel : forall σ currentHour currentMin acc,
  σ !! appointments = Some (Heap.Appointments appts) ->
  σ !! slots = Some (Heap.Slots acc) ->
  match generate_loop fuel appts date endHour endMin slotDuration
          currentHour currentMin acc with
  | Ret result =>
      exists σ',
        Heap.generate_loop fuel appointments date endHour endMin slotDuration
          currentHour currentMin slots σ = Ret (tt, σ')
        /\ σ' !! slots = Some (Heap.Slots result)
        /\ forall l o, l <> slots -> σ !! l = Some o -> σ' !! l = Some o
  | Throw e =>
      Heap.generate_loop fuel appointments date endHour endMin slotDuration
        currentHour currentMin slots σ = Throw e
  | Timeout =>
      Heap.generate_loop fuel appointments date endHour endMin slotDuration
        currentHour currentMin slots σ = Timeout
  end.
Proof.
  induction fuel as [|fuel IH]; intros σ h m acc Happ Hslots; [done|].
  cbn [generate_loop Heap.generate_loop].
  destruct (before_end h m endHour endMin); [|by exists σ].
  rewrite bind_lift.
  destruct (JS.toString h) as [hs| |]; cbn [mbind Res_bind]; [|done..].
  rewrite bind_lift.
  destruct (JS.toString m) as [ms| |]; cbn [mbind Res_bind]; [|done..].
  rewrite bind_lift.
  destruct (formatTime _) as [time12| |]; cbn [mbind Res_bind]; [|done..].
  unfold slotAt.
  set (lf := fresh (dom σ)).
  set (σ1 := <[lf := Heap.Appointments
                       (filter (fun appt => Appointment.date appt = date) appts)]> σ).
  rewrite (bind_ret_eq _ _ σ lf σ1).
  2:{ unfold Heap.filter_appointments. by rewrite Happ. }
  assert (Hlf : σ1 !! lf = Some (Heap.Appointments
                  (filter (fun appt => Appointment.date appt = date) appts)))
    by apply lookup_insert_eq.
  assert (Hne : lf <> slots) by (apply not_eq_sym; by eapply fresh_ne).
  assert (Hne' : lf <> appointments) by (apply not_eq_sym; by eapply fresh_ne).
  assert (Hne'' : slots <> appointments) by (intros ->; congruence).
  rewrite (bind_find _ _ _ _ _ Hlf).
  destruct (findM _ _) as [matchingAppt| |]; cbn [mbind Res_bind]; [|done..].
  set (slot := match matchingAppt with
               | Some appt =>
                   TimeSlot.mk time12 false
                     (Some (JS.or_string (Appointment.patientName appt)
                              "Patient"))
                     (Some (Appointment.id appt))
               | None => TimeSlot.mk time12 true None None
               end).
  set (σ2 := <[slots := Heap.Slots (acc ++ [slot])]> σ1).
  assert (Hpush : forall k : unit -> Heap.M unit,
            Heap.bind (match matchingAppt with
                  | Some appt =>
                      Heap.push slots
                        (TimeSlot.mk time12 false
                           (Some (JS.or_string (Appointment.patientName appt)
                                    "Patient"))
                           (Some (Appointment.id appt)))
                  | None => Heap.push slots (TimeSlot.mk time12 true None None)
                  end) k σ1 = k tt σ2).
  { intros k. apply bind_ret_eq. subst slot σ2.
    destruct matchingAppt; unfold Heap.push, σ1;
      by rewrite lookup_insert_ne, Hslots by done. }
  rewrite Hpush.
  assert (Hslot : (match matchingAppt with
                   | Some appt =>
                       Ret (TimeSlot.mk time12 false
                              (Some (JS.or_string (Appointment.patientName appt)
                                       "Patient"))
                              (Some (Appointment.id appt)))
                   | None => Ret (TimeSlot.mk time12 true None None)
                   end : Res TimeSlot.t) = Ret slot)
    by (by destruct matchingAppt).
  rewrite Hslot, bind_ret.
  destruct (advance h m slotDuration) as [h' m'].
  assert (Happ2 : σ2 !! appointments = Some (Heap.Appointments appts)).
  { unfold σ2, σ1. by rewrite !lookup_insert_ne. }
  assert (Hslots2 : σ2 !! slots = Some (Heap.Slots (acc ++ [slot])))
    by apply lookup_insert_eq.
  specialize (IH σ2 h' m' (acc ++ [slot]) Happ2 Hslots2).
  destruct (generate_loop fuel appts date endHour endMin slotDuration
              h' m' (acc ++ [slot])) as [result| |]; [|done..].
  destruct IH as (σ' & Hrun & Hres & Hframe).
  exists σ'. repeat split; [done..|].
  intros l o Hl Hlo. apply Hframe; [done|].
  unfold σ2, σ1. rewrite !lookup_insert_ne; [done| |done].
  apply not_eq_sym. by eapply fresh_ne.
Qed.

End Simulation.

Lemma alloc_extends (σ : gmap Heap.loc Heap.obj) o :
  σ ⊆ <[fresh (dom σ) := o]> σ.
Proof. apply insert_subseteq, fresh_lookup. Qed.

Lemma holds_extends σ σ' schedule appointments sch appts :
  σ ⊆ σ' ->
  Heap.holds σ schedule appointments sch appts ->
  Heap.holds σ' schedule appointments sch appts.
Proof.
  intros Hsub [Happ Hsch]. split.
  - by eapply lookup_weaken.
  - destruct schedule, sch; try done. by eapply lookup_weaken.
Qed.

Section Calls.

Context (weekdayName : string -> string).

(** A call on the store returns a new array with the slots of the
    functional model and extends the store: every object that was there
    is still there, unchanged. *)
Lemma generateTimeSlots_sim fuel σ schedule appointments sch appts date :
  Heap.holds σ schedule appointments sch appts ->
  match generateTimeSlots weekdayName fuel sch appts date with
  | Ret result =>
      exists l σ',
        Heap.generateTimeSlots weekdayName fuel schedule appointments date σ
        = Ret (l, σ')
        /\ σ !! l = None
        /\ σ' !! l = Some (Heap.Slots result)
        /\ σ ⊆ σ'
  | Throw e =>
      Heap.generateTimeSlots weekdayName fuel schedule appointments date σ
      = Throw e
  | Timeout =>
      Heap.generateTimeSlots weekdayName fuel schedule appointments date σ
      = Timeout
  end.
Proof.
  intros [Happ Hsch].
  assert (Hempty : exists l σ',
            Heap.alloc (Heap.Slots []) σ = Ret (l, σ')
            /\ σ !! l = None /\ σ' !! l = Some (Heap.Slots []) /\ σ ⊆ σ').
  { exists (fresh (dom σ)), (<[fresh (dom σ) := Heap.Slots []]> σ).
    split; [done|]. split; [apply fresh_lookup|].
    split; [apply lookup_insert_eq|apply alloc_extends]. }
  destruct schedule as [ls|], sch as [s|]; try done.
  unfold generateTimeSlots, Heap.generateTimeSlots.
  rewrite (bind_ret_eq _ _ σ s σ) by (unfold Heap.read_template; by rewrite Hsch).
  destruct (Schedule.weeklySchedule s !! weekdayName date) as [day|]; [|done].
  destruct (DaySetting.enabled day); cbn [negb]; [|done].
  set (l := fresh (dom σ)). set (σ1 := <[l := Heap.Slots []]> σ).
  rewrite (bind_ret_eq _ _ σ l σ1) by done.
  assert (Hl : σ !! l = None) by apply fresh_lookup.
  assert (Happ1 : σ1 !! appointments = Some (Heap.Appointments appts)).
  { unfold σ1. rewrite lookup_insert_ne; [done|]. intros ->. congruence. }
  assert (Hslots1 : σ1 !! l = Some (Heap.Slots [])) by apply lookup_insert_eq.
  pose proof (generate_loop_sim appointments appts date
                (JS.element (JS.Number <$> JS.split_colon
                   (JS.or_string (DaySetting.end_ day) "17:00")) 0)
                (JS.element (JS.Number <$> JS.split_colon
                   (JS.or_string (DaySetting.end_ day) "17:00")) 1)
                (JS.or (Schedule.slotDuration s) (Num 30)) l fuel σ1
                (JS.element (JS.Number <$> JS.split_colon
                   (JS.or_string (DaySetting.start day) "09:00")) 0)
                (JS.element (JS.Number <$> JS.split_colon
                   (JS.or_string (DaySetting.start day) "09:00")) 1)
                [] Happ1 Hslots1) as Hsim.
  destruct (generate_loop fuel appts date _ _ _ _ _ []) as [result| |].
  - destruct Hsim as (σ' & Hrun & Hres & Hframe).
    exists l, σ'. rewrite (bind_ret_eq _ _ σ1 tt σ') by done.
    repeat split; try done.
    apply map_subseteq_spec. intros i o Hi. apply Hframe; [congruence|].
    unfold σ1. rewrite lookup_insert_ne; [done|congruence].
  - unfold Heap.bind. by rewrite Hsim.
  - unfold Heap.bind. by rewrite Hsim.
Qed.

(** C8.  Two calls in a row, with the same references and the same date,
    return arrays with the same slots (those of the functional model); no
    call changes an object that was in the store before it, so the
    appointment array and the template are as they were. *)
Theorem generateTimeSlots_repeatable fuel σ schedule appointments sch appts date :
  Heap.holds σ schedule appointments sch appts ->
  match generateTimeSlots weekdayName fuel sch appts date with
  | Ret result =>
      exists l1 σ1 l2 σ2,
        Heap.generateTimeSlots weekdayName fuel schedule appointments date σ
        = Ret (l1, σ1)
        /\ Heap.generateTimeSlots weekdayName fuel schedule appointments date σ1
           = Ret (l2, σ2)
        /\ σ1 !! l1 = Some (Heap.Slots result)
        /\ σ2 !! l2 = Some (Heap.Slots result)
        /\ σ2 !! l1 = Some (Heap.Slots result)
        /\ σ ⊆ σ1 /\ σ1 ⊆ σ2
        /\ Heap.holds σ2 schedule appointments sch appts
  | Throw e =>
      Heap.generateTimeSlots weekdayName fuel schedule appointments date σ
      = Throw e
  | Timeout =>
      Heap.generateTimeSlots weekdayName fuel schedule appointments date σ
      = Timeout
  end.
Proof.
  intros Hholds.
  pose proof (generateTimeSlots_sim fuel σ schedule appointments sch appts date
                Hholds) as Hfirst.
  destruct (generateTimeSlots weekdayName fuel sch appts date)
    as [result| |] eqn:Hpure; [|done..].
  destruct Hfirst as (l1 & σ1 & Hrun1 & _ & Hres1 & Hsub1).
  pose proof (generateTimeSlots_sim fuel σ1 schedule appointments sch appts date
                (holds_extends _ _ _ _ _ _ Hsub1 Hholds)) as Hsecond.
  rewrite Hpure in Hsecond.
  destruct Hsecond as (l2 & σ2 & Hrun2 & _ & Hres2 & Hsub2).
  exists l1, σ1, l2, σ2. repeat split; try done.
  - by eapply lookup_weaken.
  - by eapply lookup_weaken; [apply Hholds|etrans].
  - destruct Hholds as [_ Hsch]. destruct schedule, sch; try done.
    by eapply lookup_weaken; [apply Hsch|etrans].
Qed.

End Calls.

End HeapFacts.

Lemma handleSubmit_pending_gate_witness :
  ProfilePage.submitDisabled sample_pending_page = true
  /\ (ProfilePage.handleSubmit sample_api "2024-01-16T08:00:00.000Z"
     sample_pending_page).2 = []
  /\ (exists txt,
        ProfilePage.message
          (ProfilePage.handleSubmit sample_api "2024-01-16T08:00:00.000Z"
             sample_pending_page).1
        = Some (ProfilePage.mkMessage ProfilePage.Warning txt))
  /\ ProfilePage.pendingUpdate
       (ProfilePage.handleSubmit sample_api "2024-01-16T08:00:00.000Z"
          sample_pending_page).1
     = ProfilePage.pendingUpdate sample_pending_page
  /\ (ProfilePage.isLoading sample_pending_page = false ->
      forall st', rtc ProfilePage.step sample_pending_page st' ->
        ProfilePage.hasPendingUpdate (ProfilePage.pendingUpdate st') = true).
Proof.
  apply (ProfilePageFacts.handleSubmit_pending_gate sample_api
           "2024-01-16T08:00:00.000Z" sample_pending_page).
  reflexivity.
Defined.

Lemma generateTimeSlots_repeatable_witness :
  exists l1 σ1 l2 σ2,
    Heap.generateTimeSlots always_monday 5 (Some 2%positive) 1%positive
      "2024-01-15" sample_store = Ret (l1, σ1)
    /\ Heap.generateTimeSlots always_monday 5 (Some 2%positive) 1%positive
         "2024-01-15" σ1 = Ret (l2, σ2)
    /\ σ1 !! l1
       = Some (Heap.Slots
                 [TimeSlot.mk "09:00 AM" true None None;
                  TimeSlot.mk "09:30 AM" false (Some "Ann") (Some "a1")])
    /\ σ2 !! l2
       = Some (Heap.Slots
                 [TimeSlot.mk "09:00 AM" true None None;
                  TimeSlot.mk "09:30 AM" false (Some "Ann") (Some "a1")])
    /\ σ2 !! l1
       = Some (Heap.Slots
                 [TimeSlot.mk "09:00 AM" true None None;
                  TimeSlot.mk "09:30 AM" false (Some "Ann") (Some "a1")])
    /\ sample_store ⊆ σ1 /\ σ1 ⊆ σ2
    /\ Heap.holds σ2 (Some 2%positive) 1%positive
         (Some (monday_only (Some "09:00") (Some "10:00") (Num 30)))
         sample_appts.
Proof.
  apply (HeapFacts.generateTimeSlots_repeatable always_monday 5 sample_store
           (Some 2%positive) 1%positive
           (Some (monday_only (Some "09:00") (Some "10:00") (Num 30)))
           sample_appts "2024-01-15").
  split; reflexivity.
Defined.

(** * Further properties *)

(** ** The two time formats *)

Lemma roundtrip_checks_all : forallb roundtrip_checks (seqZ 0 1440) = true.
Proof. vm_compute. reflexivity. Qed.

(** X1.  For every time of day, [formatTime] turns its ["HH:MM"] string
    into a label that [parseTime12to24] turns back into the same string. *)
Theorem formatTime_parseTime12to24_roundtrip t :
  0 <= t < 1440 ->
  exists label,
    formatTime (clock24 t) = Ret label
    /\ label = clock12 t
    /\ parseTime12to24 label = Ret (clock24 t).
Proof.
  intros Ht. pose proof roundtrip_checks_all as H.
  rewrite forallb_forall in H. specialize (H t).
  unfold roundtrip_checks in H. rewrite formatTime_clock24 in H by done.
  exists (clock12 t). split; [by apply formatTime_clock24|]. split; [done|].
  destruct (parseTime12to24 (clock12 t)) as [r| |].
  - f_equal. apply String.eqb_eq, H, list_elem_of_In, elem_of_seqZ. lia.
  - discriminate H. apply list_elem_of_In, elem_of_seqZ. lia.
  - discriminate H. apply list_elem_of_In, elem_of_seqZ. lia.
Qed.

Lemma formatTime_parseTime12to24_roundtrip_witness :
  exists label,
    formatTime (clock24 825) = Ret label
    /\ label = clock12 825
    /\ parseTime12to24 label = Ret (clock24 825).
Proof. apply (formatTime_parseTime12to24_roundtrip 825). lia. Defined.

Lemma split_colon_no_colon s : JS.includes s ":" = false -> JS.split_colon s = [s].
Proof.
  induction s as [|c s IH]; [done|]. cbn [JS.includes JS.split_colon].
  intros H. apply orb_false_elim in H as [Hp Hs].
  destruct (Ascii.eqb_spec c ":") as [->|Hc].
  - cbn [String.prefix] in Hp.
    destruct (ascii_dec ":" ":"); [destruct s; discriminate Hp|congruence].
  - by rewrite (IH Hs).
Qed.

Lemma includes_colon_split s :
  JS.includes s ":" = true -> exists a b, s = a +:+ ":" +:+ b.
Proof.
  induction s as [|c s IH]; [intros H; by vm_compute in H|]. cbn [JS.includes].
  intros [Hp|Hs]%orb_prop.
  - exists "", s. cbn [String.prefix] in Hp.
    destruct (ascii_dec ":" c) as [<-|]; [done|discriminate Hp].
  - destruct (IH Hs) as (a & b & ->). by exists (String c a), b.
Qed.

(** X2.  [formatTime] throws exactly on the strings without a colon; on
    every other string it returns a label. *)
Theorem formatTime_throws_iff_no_colon time24 :
  (formatTime time24 = Throw TypeError <-> JS.includes time24 ":" = false)
  /\ ((exists label, formatTime time24 = Ret label)
      <-> JS.includes time24 ":" = true).
Proof.
  destruct (JS.includes time24 ":") eqn:Hc.
  - destruct (includes_colon_split _ Hc) as (a & b & ->).
    destruct (formatTime_ret a b) as [l Hl]. rewrite Hl.
    split; [split; discriminate|]. split; [done|eauto].
  - assert (Hthrow : formatTime time24 = Throw TypeError).
    { unfold formatTime. rewrite (split_colon_no_colon _ Hc).
      cbn [fmap list_fmap JS.element lookup list_lookup].
      assert (H12 : JS.or (JS.rem (JS.Number time24) (Num 12)) (Num 12)
                    <> Undefined).
      { unfold JS.or. destruct (JS.rem _ _); cbn; try done. by destruct (_ =? _). }
      by destruct (toString_defined _ H12) as [h ->]. }
    rewrite Hthrow. split; [done|]. split; [intros [l ?]|]; discriminate.
Qed.

(** X3.  [parseTime12to24] never throws, and [formatTime] accepts whatever
    it returns; a string the regular expression does not match is read as
    midnight. *)
Theorem parseTime12to24_lenient time12 :
  exists time24 label,
    parseTime12to24 time12 = Ret time24
    /\ formatTime time24 = Ret label
    /\ (TimeRegex.exec time12 = None -> time24 = "00:00" /\ label = "12:00 AM").
Proof.
  unfold parseTime12to24.
  destruct (TimeRegex.exec time12) as [g|].
  - destruct (JS.parseInt (TimeRegex.g1 g)) as [| |z] eqn:E;
      [exfalso; exact (unsigned_literal_defined _ E)|..];
      repeat (destruct (_ && _); cbn [JS.add JS.toString mbind Res_bind]);
      lazymatch goal with
      | |- exists t l, Ret (?a +:+ ":" +:+ ?b) = Ret t /\ _ =>
          destruct (formatTime_ret a b) as [l Hl];
          exists (a +:+ ":" +:+ b), l; by repeat split
      end.
  - exists "00:00", "12:00 AM". by vm_compute.
Qed.

(** *** Letter case *)

Lemma upper_digit c : JS.is_digit (ascii_upper c) = JS.is_digit c.
Proof. by destruct c as [[] [] [] [] [] [] [] []]. Qed.

Lemma upper_space c : JS.is_space (ascii_upper c) = JS.is_space c.
Proof. by destruct c as [[] [] [] [] [] [] [] []]. Qed.

Lemma upper_colon c : Ascii.eqb (ascii_upper c) ":" = Ascii.eqb c ":".
Proof. by destruct c as [[] [] [] [] [] [] [] []]. Qed.

Lemma upper_idem c : ascii_upper (ascii_upper c) = ascii_upper c.
Proof. by destruct c as [[] [] [] [] [] [] [] []]. Qed.

Lemma upper_of_digit c : JS.is_digit c = true -> ascii_upper c = c.
Proof. by destruct c as [[] [] [] [] [] [] [] []]. Qed.

Lemma toUpperCase_idem s : toUpperCase (toUpperCase s) = toUpperCase s.
Proof. induction s as [|c s IH]; [done|]. cbn. by rewrite upper_idem, IH. Qed.

Lemma period_upper s :
  TimeRegex.period (toUpperCase s) = toUpperCase <$> TimeRegex.period s.
Proof.
  destruct s as [|a [|m r]]; [done..|]. cbn [toUpperCase TimeRegex.period].
  rewrite !upper_idem. by destruct (_ && _).
Qed.

Lemma trim_start_upper s :
  JS.trim_start (toUpperCase s) = toUpperCase (JS.trim_start s).
Proof.
  induction s as [|c s IH]; [done|]. cbn [toUpperCase JS.trim_start].
  rewrite upper_space. by destruct (JS.is_space c).
Qed.

(** [after_hours] with its colon tested instead of matched. *)
Lemma after_hours_eqb s :
  TimeRegex.after_hours s
  = match s with
    | String c (String d1 (String d2 r)) =>
        if Ascii.eqb c ":" && JS.is_digit d1 && JS.is_digit d2 then
          p ← TimeRegex.period (JS.trim_start r);
          Some (String d1 (String d2 ""), p)
        else None
    | _ => None
    end.
Proof.
  destruct s as [|c [|d1 [|d2 r]]]; [done|..];
    by destruct c as [[] [] [] [] [] [] [] []].
Qed.

Lemma after_hours_upper s :
  TimeRegex.after_hours (toUpperCase s)
  = (fun mp => (mp.1, toUpperCase mp.2)) <$> TimeRegex.after_hours s.
Proof.
  rewrite !after_hours_eqb.
  destruct s as [|c [|d1 [|d2 r]]]; [done..|]. cbn [toUpperCase].
  rewrite upper_colon, !upper_digit, trim_start_upper, period_upper.
  destruct (Ascii.eqb c ":"); [|done].
  destruct (JS.is_digit d1) eqn:H1; [|done].
  destruct (JS.is_digit d2) eqn:H2; [|done]. cbn [andb].
  rewrite (upper_of_digit d1), (upper_of_digit d2) by done.
  by destruct (TimeRegex.period _).
Qed.

Lemma at_head_upper s :
  TimeRegex.at_head (toUpperCase s) = upper_marker <$> TimeRegex.at_head s.
Proof.
  unfold TimeRegex.at_head.
  destruct s as [|d1 [|d2 r]]; [done| |].
  - cbn [toUpperCase]. rewrite upper_digit.
    by destruct (JS.is_digit d1).
  - cbn [toUpperCase]. rewrite !upper_digit.
    change (String (ascii_upper d2) (toUpperCase r))
      with (toUpperCase (String d2 r)).
    rewrite !after_hours_upper.
    destruct (JS.is_digit d1) eqn:H1; [|done].
    rewrite (upper_of_digit d1) by done.
    destruct (JS.is_digit d2) eqn:H2; cbn [andb].
    + rewrite (upper_of_digit d2) by done.
      destruct (TimeRegex.after_hours r) as [[m p]|]; [done|].
      by destruct (TimeRegex.after_hours (String d2 r)) as [[m p]|].
    + by destruct (TimeRegex.after_hours (String d2 r)) as [[m p]|].
Qed.

Lemma exec_cons c s :
  TimeRegex.exec (String c s)
  = match TimeRegex.at_head (String c s) with
    | Some g => Some g
    | None => TimeRegex.exec s
    end.
Proof. reflexivity. Qed.

Lemma exec_upper s :
  TimeRegex.exec (toUpperCase s) = upper_marker <$> TimeRegex.exec s.
Proof.
  induction s as [|c s IH].
  - change (toUpperCase "") with "". by vm_compute.
  - change (toUpperCase (String c s))
      with (String (ascii_upper c) (toUpperCase s)).
    rewrite !exec_cons.
    change (String (ascii_upper c) (toUpperCase s))
      with (toUpperCase (String c s)).
    rewrite at_head_upper.
    destruct (TimeRegex.at_head (String c s)); [done|]. exact IH.
Qed.

Lemma parseTime12to24_upper s :
  parseTime12to24 (toUpperCase s) = parseTime12to24 s.
Proof.
  unfold parseTime12to24. rewrite exec_upper.
  destruct (TimeRegex.exec s) as [g|]; [|done].
  cbn [fmap option_fmap option_map upper_marker TimeRegex.g1 TimeRegex.g2
         TimeRegex.g3].
  by rewrite toUpperCase_idem.
Qed.

(** X4.  [parseTime12to24] does not look at the case of letters: two
    strings that differ only in the case of their ASCII letters are read
    as the same time. *)
Theorem parseTime12to24_ignores_case s s' :
  toUpperCase s = toUpperCase s' -> parseTime12to24 s = parseTime12to24 s'.
Proof.
  intros H. by rewrite <- (parseTime12to24_upper s), H, parseTime12to24_upper.
Qed.

Lemma parseTime12to24_ignores_case_witness :
  parseTime12to24 "2:05 pm" = parseTime12to24 "2:05 Pm".
Proof. apply (parseTime12to24_ignores_case "2:05 pm" "2:05 Pm"). reflexivity. Defined.

(** ** More on slot generation *)

Section MoreSlots.

Context (weekdayName : string -> string).

(** X5.  A negative slot duration on an enabled day that starts before it
    ends makes the loop run forever: the call neither returns nor
    throws. *)
Theorem negative_duration_never_returns schedule appointments date day s e d :
  Schedule.weeklySchedule schedule !! weekdayName date = Some day ->
  DaySetting.enabled day = true ->
  DaySetting.start day = Some (clock24 s) ->
  DaySetting.end_ day = Some (clock24 e) ->
  0 <= s < 1440 -> 0 <= e < 1440 -> s < e ->
  Schedule.slotDuration schedule = Num d -> d < 0 ->
  diverges (fun fuel => generateTimeSlots weekdayName fuel (Some schedule)
                          appointments date)
  /\ (forall slots,
        ~ returns (fun fuel => generateTimeSlots weekdayName fuel (Some schedule)
                                 appointments date) slots)
  /\ ~ throws (fun fuel => generateTimeSlots weekdayName fuel (Some schedule)
                             appointments date).
Proof.
  intros Hday Hen Hs He Hs' He' Hse Hdur Hd.
  assert (Hdiv : diverges (fun fuel => generateTimeSlots weekdayName fuel
                             (Some schedule) appointments date)).
  { intros fuel. unfold generateTimeSlots.
    rewrite Hday, Hen, Hs, He, Hdur. cbn [negb].
    rewrite !clock24_nonempty, !parse_clock24 by done.
    cbn [JS.element lookup list_lookup].
    assert (Hor : JS.or (Num d) (Num 30) = Num d).
    { unfold JS.or. cbn. destruct (Z.eqb_spec d 0); [lia|done]. }
    rewrite Hor. apply generate_loop_negative_duration; [done| |].
    - pose proof (Z.mod_pos_bound s 60 ltac:(lia)). lia.
    - rewrite before_end_clock by lia. apply Z.ltb_lt. lia. }
  split; [exact Hdiv|]. split.
  - intros slots [n Hn]. specialize (Hn n ltac:(lia)).
    rewrite Hdiv in Hn. discriminate.
  - intros (n & err & Hn). specialize (Hn n ltac:(lia)).
    rewrite Hdiv in Hn. discriminate.
Qed.

(** X6.  A start time written without a colon (["09"]) leaves the minutes
    undefined: as soon as its hour is below the end hour, the first turn
    of the loop throws a [TypeError]. *)
Theorem generateTimeSlots_start_without_colon_throws fuel schedule
    appointments date day c start h e :
  Schedule.weeklySchedule schedule !! weekdayName date = Some day ->
  DaySetting.enabled day = true ->
  DaySetting.start day = Some (String c start) ->
  JS.includes (String c start) ":" = false ->
  JS.Number (String c start) = Num h ->
  DaySetting.end_ day = Some (clock24 e) ->
  0 <= e < 1440 -> h < e / 60 ->
  generateTimeSlots weekdayName (S fuel) (Some schedule) appointments date
  = Throw TypeError.
Proof.
  intros Hday Hen Hs Hcolon Hnum He He' Hh.
  unfold generateTimeSlots. rewrite Hday, Hen, Hs, He. cbn [negb].
  change (JS.or_string (Some (String c start)) "09:00") with (String c start).
  rewrite clock24_nonempty, parse_clock24, (split_colon_no_colon _ Hcolon)
    by done.
  cbn [fmap list_fmap JS.element lookup list_lookup]. rewrite Hnum.
  cbn [generate_loop]. unfold before_end. cbn [JS.lt].
  destruct (Z.ltb_spec h (e / 60)); [|lia]. reflexivity.
Qed.

End MoreSlots.

Lemma negative_duration_never_returns_witness :
  diverges (fun fuel => generateTimeSlots always_monday fuel
              (Some (monday_only (Some "09:00") (Some "10:00") (Num (-30))))
              sample_appts "2024-01-15").
Proof.
  apply (negative_duration_never_returns always_monday
           (monday_only (Some "09:00") (Some "10:00") (Num (-30)))
           sample_appts "2024-01-15"
           (DaySetting.mk true (Some "09:00") (Some "10:00")) 540 600 (-30));
    first [apply lookup_singleton_eq | reflexivity | lia].
Defined.

Lemma generateTimeSlots_start_without_colon_throws_witness :
  generateTimeSlots always_monday 1
    (Some (monday_only (Some "09") (Some "10:00") (Num 30)))
    sample_appts "2024-01-15"
  = Throw TypeError.
Proof.
  apply (generateTimeSlots_start_without_colon_throws always_monday 0
           (monday_only (Some "09") (Some "10:00") (Num 30))
           sample_appts "2024-01-15"
           (DaySetting.mk true (Some "09") (Some "10:00")) "0" "9" 9 600);
    first [apply lookup_singleton_eq | reflexivity | lia | by vm_compute].
Defined.

(** *** Which appointments count *)

Lemma find_app_skip {A} (p : A -> bool) l1 x l2 :
  p x = false -> List.find p (l1 ++ x :: l2) = List.find p (l1 ++ l2).
Proof.
  intros Hx. induction l1 as [|y l1 IH]; cbn [app List.find].
  - by rewrite Hx.
  - by rewrite IH.
Qed.

Lemma occupant_skip l1 a l2 date time24 :
  Appointment.date a <> date \/ normalizedTime a <> time24 ->
  occupant (l1 ++ a :: l2) date time24 = occupant (l1 ++ l2) date time24.
Proof.
  intros Ha. unfold occupant. rewrite !filter_app, filter_cons.
  destruct (decide (Appointment.date a = date)) as [Hd|Hd]; [|done].
  apply find_app_skip. destruct (String.eqb_spec (normalizedTime a) time24); tauto.
Qed.

(** The occupants of a list of distinct times are distinct appointments of
    the queried date. *)
Lemma occupants_NoDup appointments date (l : list Z) :
  NoDup l -> Forall (fun t => 0 <= t < 1440) l ->
  NoDup (omap (fun t => occupant appointments date (clock24 t)) l)
  /\ omap (fun t => occupant appointments date (clock24 t)) l
     ⊆ filter (fun a => Appointment.date a = date) appointments.
Proof.
  induction 1 as [|t l Ht Hl IH]; intros Hrange.
  { split; [constructor|]. by intros x ?%elem_of_nil. }
  apply Forall_cons in Hrange as [Hrt Hrl]. destruct (IH Hrl) as [IHn IHs].
  cbn [omap list_omap].
  destruct (occupant appointments date (clock24 t)) as [a|] eqn:Hocc; [|done].
  apply occupant_Some in Hocc as (l1 & l2 & Happ & Hd & Hn & _). split.
  - constructor; [|done]. intros Hin.
    apply list_elem_of_omap in Hin as (t' & Ht' & Hocc').
    apply occupant_Some in Hocc' as (_ & _ & _ & _ & Hn' & _).
    rewrite Forall_forall in Hrl.
    assert (t = t'); [|by subst].
    apply clock24_inj; [done|by apply Hrl|congruence].
  - intros x [->|Hx]%elem_of_cons; [|by apply IHs].
    apply list_elem_of_filter. split; [done|].
    rewrite Happ. apply elem_of_app. right. by left.
Qed.

Lemma occupied_length appointments date (l : list Z) :
  length (filter (fun slot => TimeSlot.available slot = false)
            (slot_of appointments date <$> l))
  = length (omap (fun t => occupant appointments date (clock24 t)) l).
Proof.
  induction l as [|t l IH]; [done|].
  cbn [fmap list_fmap omap list_omap]. rewrite filter_cons.
  destruct (occupant appointments date (clock24 t)) as [a|] eqn:Hocc.
  - rewrite decide_True by (unfold slot_of; by rewrite Hocc).
    cbn [length]. by rewrite IH.
  - rewrite decide_False by (unfold slot_of; by rewrite Hocc). exact IH.
Qed.

Section Occupancy.

Context (weekdayName : string -> string).

(** X7.  An appointment on another date, or at a time that is not the
    start of a generated slot, does not change the result: the slots are
    those of the list without it. *)
Theorem unmatched_appointment_is_ignored schedule date s e d l1 a l2 :
  opens schedule (weekdayName date) s e d ->
  Appointment.date a <> date
  \/ normalizedTime a ∉ (clock24 <$> slot_starts s e d) ->
  exists slots,
    returns (fun fuel => generateTimeSlots weekdayName fuel (Some schedule)
                           (l1 ++ a :: l2) date) slots
    /\ returns (fun fuel => generateTimeSlots weekdayName fuel (Some schedule)
                              (l1 ++ l2) date) slots.
Proof.
  intros Hopen Ha.
  exists (slot_of (l1 ++ l2) date <$> slot_starts s e d).
  split; [|by apply generateTimeSlots_opens].
  rewrite <- (list_fmap_ext (slot_of (l1 ++ a :: l2) date)
                (slot_of (l1 ++ l2) date) (slot_starts s e d)).
  { by apply generateTimeSlots_opens. }
  intros i t Ht. unfold slot_of. rewrite occupant_skip; [done|].
  destruct Ha as [Hd|Hn]; [by left|right].
  intros Heq. apply Hn. rewrite Heq. apply list_elem_of_fmap.
  exists t. split; [done|]. by eapply list_elem_of_lookup_2.
Qed.

(** X8.  No more slots are shown as occupied than there are appointments
    on the queried date: every occupied slot has an appointment of its
    own. *)
Theorem occupied_slots_bounded schedule appointments date s e d :
  opens schedule (weekdayName date) s e d ->
  exists slots,
    returns (fun fuel => generateTimeSlots weekdayName fuel (Some schedule)
                           appointments date) slots
    /\ (length (filter (fun slot => TimeSlot.available slot = false) slots)
        <= length (filter (fun a => Appointment.date a = date) appointments))%nat.
Proof.
  intros Hopen.
  destruct (opens_bounds _ _ _ _ _ Hopen) as ([Hs _] & [_ He] & Hd).
  exists (slot_of appointments date <$> slot_starts s e d).
  split; [by apply generateTimeSlots_opens|].
  rewrite occupied_length.
  destruct (occupants_NoDup appointments date (slot_starts s e d)) as [Hn Hsub].
  - by apply StronglySorted_lt_NoDup, slot_starts_sorted.
  - apply Forall_forall. intros t Ht.
    apply slot_starts_bounds in Ht; [lia|done..].
  - by apply submseteq_length, NoDup_submseteq.
Qed.

(** X9.  A time that carries an upper-case marker but no readable
    [h:mm AM/PM] counts as midnight: on a day that opens at 00:00 such an
    appointment of the queried date makes the first slot unavailable. *)
Theorem malformed_time_occupies_midnight schedule appointments date e d a :
  opens schedule (weekdayName date) 0 e d -> 0 < e ->
  a ∈ appointments ->
  Appointment.date a = date ->
  JS.includes (Appointment.time a) "AM" = true
  \/ JS.includes (Appointment.time a) "PM" = true ->
  TimeRegex.exec (Appointment.time a) = None ->
  exists slots slot,
    returns (fun fuel => generateTimeSlots weekdayName fuel (Some schedule)
                           appointments date) slots
    /\ slots !! 0%nat = Some slot
    /\ TimeSlot.time slot = "12:00 AM"
    /\ TimeSlot.available slot = false.
Proof.
  intros Hopen He Ha Hd Hmark Hexec.
  destruct (opens_bounds _ _ _ _ _ Hopen) as (_ & _ & Hd0).
  assert (Hn : normalizedTime a = clock24 0).
  { unfold normalizedTime, apptTime24.
    assert (Hor : JS.includes (Appointment.time a) "AM"
                  || JS.includes (Appointment.time a) "PM" = true).
    { destruct Hmark as [-> | ->]; [done|apply orb_true_r]. }
    by rewrite Hor, (parseTime12to24_no_match _ Hexec). }
  exists (slot_of appointments date <$> slot_starts 0 e d),
         (slot_of appointments date 0).
  split; [by apply generateTimeSlots_opens|].
  split; [by rewrite slot_starts_step|].
  unfold slot_of.
  destruct (occupant appointments date (clock24 0)) as [b|] eqn:Hocc; [done|].
  destruct (occupant_None _ _ _ Hocc a Ha). done.
Qed.

End Occupancy.

Lemma unmatched_appointment_is_ignored_witness :
  exists slots,
    returns (fun fuel => generateTimeSlots always_monday fuel
               (Some (monday_only (Some "09:00") (Some "10:00") (Num 30)))
               ([] ++ Appointment.mk "2024-01-15" "9:30" (Some "Ann") "a1" :: [])
               "2024-01-15") slots
    /\ returns (fun fuel => generateTimeSlots always_monday fuel
                  (Some (monday_only (Some "09:00") (Some "10:00") (Num 30)))
                  ([] ++ []) "2024-01-15") slots.
Proof.
  apply (unmatched_appointment_is_ignored always_monday
           (monday_only (Some "09:00") (Some "10:00") (Num 30))
           "2024-01-15" 540 600 30 []
           (Appointment.mk "2024-01-15" "9:30" (Some "Ann") "a1") []).
  - solve_opens.
  - right. vm_compute. intros H.
    repeat (apply elem_of_cons in H as [H|H]; [discriminate H|]).
    by apply elem_of_nil in H.
Defined.

Lemma occupied_slots_bounded_witness :
  exists slots,
    returns (fun fuel => generateTimeSlots always_monday fuel
               (Some (monday_only (Some "09:00") (Some "17:00") (Num 30)))
               sample_appts "2024-01-15") slots
    /\ (length (filter (fun slot => TimeSlot.available slot = false) slots)
        <= length (filter (fun a => Appointment.date a = "2024-01-15")
                     sample_appts))%nat.
Proof.
  apply (occupied_slots_bounded always_monday
           (monday_only (Some "09:00") (Some "17:00") (Num 30))
           sample_appts "2024-01-15" 540 1020 30).
  solve_opens.
Defined.

Lemma malformed_time_occupies_midnight_witness :
  exists slots slot,
    returns (fun fuel => generateTimeSlots always_monday fuel
               (Some (monday_only (Some "00:00") (Some "01:00") (Num 30)))
               [Appointment.mk "2024-01-15" "noon, PM" (Some "Ann") "a1"]
               "2024-01-15") slots
    /\ slots !! 0%nat = Some slot
    /\ TimeSlot.time slot = "12:00 AM"
    /\ TimeSlot.available slot = false.
Proof.
  apply (malformed_time_occupies_midnight always_monday
           (monday_only (Some "00:00") (Some "01:00") (Num 30))
           [Appointment.mk "2024-01-15" "noon, PM" (Some "Ann") "a1"]
           "2024-01-15" 60 30
           (Appointment.mk "2024-01-15" "noon, PM" (Some "Ann") "a1")).
  - solve_opens.
  - lia.
  - by left.
  - reflexivity.
  - right. reflexivity.
  - reflexivity.
Defined.

(** ** The week view *)

Section WeekViewFacts.

Context (weekDate : string -> nat -> Res string).

Lemma weekDays_loop_entries schedule appointments selectedDate dateOf :
  forall turns days,
    (forall i, i ∈ turns -> weekDate selectedDate i = Ret (dateOf i)) ->
    weekDays_loop weekDate schedule appointments selectedDate turns days
    = Ret (days ++ omap (weekDay_entry schedule appointments dateOf) turns).
Proof.
  induction turns as [|i turns IH]; intros days Hdates.
  { cbn. by rewrite app_nil_r. }
  cbn [weekDays_loop]. rewrite (Hdates i) by (by left). rewrite bind_ret.
  rewrite IH by (intros j Hj; apply Hdates; by right).
  cbn [omap list_omap]. unfold weekDay_entry at 2.
  destruct (isEnabled schedule (dayNames !!! i)); [|done].
  by rewrite <- app_assoc.
Qed.

(** X10.  When the host supplies the seven dates of the week,
    [generateWeekDays] lists exactly the enabled weekdays of the template,
    in Monday-to-Sunday order; each entry carries the date of its turn and
    the number of appointments on that date.  The list is empty exactly
    when no weekday is enabled. *)
Theorem generateWeekDays_lists_enabled_days schedule appointments selectedDate
    dateOf :
  (forall i, (i < 7)%nat -> weekDate selectedDate i = Ret (dateOf i)) ->
  exists days,
    generateWeekDays weekDate (Some schedule) appointments selectedDate = Ret days
    /\ DayData.dayName <$> days
       = filter (fun n => isEnabled schedule n = true) dayNames
    /\ Forall (fun d =>
         DayData.enabled d = true
         /\ exists i, (i < 7)%nat
              /\ DayData.date d = dateOf i
              /\ dayNames !! i = Some (DayData.dayName d)
              /\ shortDayNames !! i = Some (DayData.day d)
              /\ DayData.appointments d
                 = Z.of_nat (length (filter
                     (fun appt => Appointment.date appt = DayData.date d)
                     appointments))) days
    /\ (days = [] <-> forall n, n ∈ dayNames -> isEnabled schedule n = false).
Proof.
  intros Hdates.
  exists (omap (weekDay_entry schedule appointments dateOf) (seq 0 7)).
  split.
  { unfold generateWeekDays. rewrite (weekDays_loop_entries _ _ _ dateOf); [done|].
    intros i Hi%elem_of_seq. apply Hdates. lia. }
  assert (Hnames : DayData.dayName
                     <$> omap (weekDay_entry schedule appointments dateOf) (seq 0 7)
                   = filter (fun n => isEnabled schedule n = true) dayNames).
  { unfold dayNames. cbn [seq omap list_omap]. unfold weekDay_entry.
    rewrite !filter_cons, filter_nil. cbn [lookup_total list_lookup_total dayNames].
    repeat (destruct (isEnabled schedule _); cbn [decide_rel]; try done). }
  split; [exact Hnames|]. split.
  - apply Forall_forall. intros d Hd.
    apply list_elem_of_omap in Hd as (i & Hi%elem_of_seq & Hentry).
    unfold weekDay_entry in Hentry.
    destruct (isEnabled schedule (dayNames !!! i)); [|done].
    injection Hentry as <-. cbn. split; [done|].
    exists i. split; [lia|]. split; [done|].
    assert (Hi7 : (i < 7)%nat) by lia.
    do 7 (destruct i as [|i]; [by repeat split|]). lia.
  - split.
    + intros Hnil n Hn. destruct (isEnabled schedule n) eqn:Hen; [|done].
      assert (Hin : n ∈ filter (fun n => isEnabled schedule n = true) dayNames)
        by (by apply list_elem_of_filter).
      rewrite <- Hnames, Hnil in Hin. by apply elem_of_nil in Hin.
    + intros Hall. cbn [seq omap list_omap]. unfold weekDay_entry.
      cbn [lookup_total list_lookup_total dayNames].
      by rewrite !Hall by (apply list_elem_of_In; cbn; tauto).
Qed.

End WeekViewFacts.

Lemma generateWeekDays_lists_enabled_days_witness :
  exists days,
    generateWeekDays sample_week
      (Some (monday_only (Some "09:00") (Some "17:00") (Num 30)))
      sample_appts "2024-01-17" = Ret days
    /\ DayData.dayName <$> days
       = filter (fun n =>
           isEnabled (monday_only (Some "09:00") (Some "17:00") (Num 30)) n
           = true) dayNames
    /\ Forall (fun d =>
         DayData.enabled d = true
         /\ exists i, (i < 7)%nat
              /\ DayData.date d
                 = ["2024-01-15"; "2024-01-16"; "2024-01-17"; "2024-01-18";
                    "2024-01-19"; "2024-01-20"; "2024-01-21"] !!! i
              /\ dayNames !! i = Some (DayData.dayName d)
              /\ shortDayNames !! i = Some (DayData.day d)
              /\ DayData.appointments d
                 = Z.of_nat (length (filter
                     (fun appt => Appointment.date appt = DayData.date d)
                     sample_appts))) days
    /\ (days = [] <->
        forall n, n ∈ dayNames ->
          isEnabled (monday_only (Some "09:00") (Some "17:00") (Num 30)) n
          = false).
Proof.
  apply (generateWeekDays_lists_enabled_days sample_week
           (monday_only (Some "09:00") (Some "17:00") (Num 30))
           sample_appts "2024-01-17"
           (fun i => ["2024-01-15"; "2024-01-16"; "2024-01-17"; "2024-01-18";
                      "2024-01-19"; "2024-01-20"; "2024-01-21"] !!! i)).
  intros i _. reflexivity.
Defined.

(** ** The profile form *)

Lemma parseInt_string_defined s : parseInt_string s <> Undefined.
Proof. unfold parseInt_string. repeat case_match; done. Qed.

Lemma digits_prefix_digits acc s z :
  JS.digits acc s = Some z -> digits_prefix 10 acc s = z.
Proof.
  revert acc. induction s as [|c s IH]; intros acc; cbn [JS.digits digits_prefix].
  { by intros [= ->]. }
  unfold JS.is_digit, JS.digit_value, digit_in.
  destruct c as [[] [] [] [] [] [] [] []]; cbn; try done; apply IH.
Qed.

Lemma digit_in_10 c : JS.is_digit c = true -> exists d, digit_in 10 c = Some d.
Proof. destruct c as [[] [] [] [] [] [] [] []]; cbn; try done; eauto. Qed.

Lemma digit_not_marker c :
  JS.is_digit c = true ->
  JS.is_space c = false /\ Ascii.eqb c "-" = false /\ Ascii.eqb c "+" = false
  /\ Ascii.eqb c "x" = false /\ Ascii.eqb c "X" = false.
Proof. by destruct c as [[] [] [] [] [] [] [] []]. Qed.

(** On a run of digits the two readings of [parseInt] agree. *)
Lemma parseInt_string_digits s z :
  JS.parseInt s = Num z -> parseInt_string s = Num z.
Proof.
  unfold JS.parseInt, JS.unsigned_literal.
  destruct s as [|c s]; [done|].
  destruct (JS.digits 0 (String c s)) as [z'|] eqn:Hd; [|done]. intros [= ->].
  pose proof (digits_prefix_digits _ _ _ Hd) as Hp.
  cbn [JS.digits] in Hd. destruct (JS.is_digit c) eqn:Hc; [|done].
  destruct (digit_not_marker c Hc) as (Hsp & Hm & Hpl & _).
  destruct (digit_in_10 c Hc) as [d Hdig].
  unfold parseInt_string. cbn [JS.trim_start]. rewrite Hsp, Hm, Hpl.
  destruct s as [|x s].
  - rewrite Hdig, Hp. f_equal. lia.
  - cbn [JS.digits] in Hd. destruct (JS.is_digit x) eqn:Hx; [|done].
    destruct (digit_not_marker x Hx) as (_ & _ & _ & -> & ->).
    rewrite andb_false_r, Hdig, Hp. f_equal. lia.
Qed.

Module ProfileSessionFacts.
Import ProfilePage ProfileForm ProfileSession.

Lemma session_run_cons s ev evs :
  run s (ev :: evs)
  = ((run (step s ev).1 evs).1, (step s ev).2 ++ (run (step s ev).1 evs).2).
Proof.
  cbn [run]. destruct (step s ev) as [s1 sent1]. cbn [fst snd].
  by destruct (run s1 evs).
Qed.

Lemma session_run_app s evs evs' :
  run s (evs ++ evs')
  = ((run (run s evs).1 evs').1, (run s evs).2 ++ (run (run s evs).1 evs').2).
Proof.
  revert s. induction evs as [|ev evs IH]; intros s.
  { cbn [app run fst snd]. by destruct (run s evs'). }
  cbn [app]. rewrite !session_run_cons, IH. cbn [fst snd].
  by rewrite app_assoc.
Qed.

(** Edits send nothing and touch neither the submissions under way nor
    the pending update. *)
Lemma edits_keep evs : forall s,
  forallb is_edit evs = true ->
  (run s evs).2 = []
  /\ awaiting (run s evs).1 = awaiting s
  /\ pendingUpdate (page (run s evs).1) = pendingUpdate (page s)
  /\ isLoading (page (run s evs).1) = isLoading (page s).
Proof.
  induction evs as [|ev evs IH]; intros s Hevs; [done|].
  cbn [forallb] in Hevs. apply andb_prop in Hevs as [Hev Hevs].
  rewrite session_run_cons. cbn [fst snd].
  destruct (IH (step s ev).1 Hevs) as (-> & -> & -> & ->).
  destruct ev; try discriminate Hev. cbn [step].
  by destruct (isLoading (page s) || hasPendingUpdate (pendingUpdate (page s))).
Qed.

(** With an update pending and no submission under way nothing moves. *)
Lemma frozen evs : forall s,
  isLoading (page s) = false ->
  hasPendingUpdate (pendingUpdate (page s)) = true ->
  awaiting s = [] ->
  (run s evs).2 = []
  /\ formData (page (run s evs).1) = formData (page s)
  /\ pendingUpdate (page (run s evs).1) = pendingUpdate (page s).
Proof.
  induction evs as [|ev evs IH]; intros s Hload Hpend Hnone; [done|].
  rewrite session_run_cons. cbn [fst snd].
  assert (Hstep : (step s ev).2 = []
                  /\ isLoading (page (step s ev).1) = false
                  /\ pendingUpdate (page (step s ev).1) = pendingUpdate (page s)
                  /\ formData (page (step s ev).1) = formData (page s)
                  /\ awaiting (step s ev).1 = []).
  { destruct ev; cbn [step]; rewrite ?Hload, ?Hpend, ?Hnone; cbn [orb]; try done.
    unfold submit_begin. by rewrite Hpend. }
  destruct Hstep as (-> & Hl & Hp & Hf & Ha).
  destruct (IH (step s ev).1 Hl) as (-> & -> & ->); [by rewrite Hp|done|].
  by rewrite Hp, Hf.
Qed.

(** X11.  A submission sends the form data of its moment.  Edits made
    while the request is under way change the form but not what is
    recorded: when the request is accepted, the pending update holds the
    data that was sent, with the time of the answer.  From then on the
    page is frozen: whatever is typed or submitted, nothing more is sent
    and neither the form data nor the pending update changes. *)
Theorem accepted_submission_freezes_the_page st edits now s1 sent evs :
  isLoading st = false ->
  hasPendingUpdate (pendingUpdate st) = false ->
  forallb is_edit edits = true ->
  run (mkSession st []) (Submitted :: edits ++ [Accepted 0 now]) = (s1, sent) ->
  sent = [RequestProfileUpdate (formData st)]
  /\ pendingUpdate (page s1) = mkPendingUpdate true (Some (formData st)) (Some now)
  /\ formData (page s1)
     = formData (page (run (mkSession st []) (Submitted :: edits)).1)
  /\ (run s1 evs).2 = []
  /\ formData (page (run s1 evs).1) = formData (page s1)
  /\ pendingUpdate (page (run s1 evs).1) = pendingUpdate (page s1).
Proof.
  intros Hload Hpend Hedits Hrun.
  rewrite !session_run_cons in *. cbn [step page fst snd] in *.
  rewrite Hload in *. unfold submit_begin in *. cbn [page awaiting] in *.
  rewrite Hpend in *. cbn [fst snd app] in *.
  set (s0 := mkSession (setMessage None (setIsSaving true st)) [formData st]) in *.
  rewrite session_run_app in Hrun. cbn [fst snd] in Hrun.
  destruct (edits_keep edits s0 Hedits) as (Hsent & Hwait & Hp & Hl).
  rewrite Hsent in *. rewrite session_run_cons in Hrun.
  cbn [step run fst snd app] in Hrun. rewrite Hwait in Hrun.
  cbn [awaiting s0 lookup list_lookup delete list_delete] in Hrun.
  injection Hrun as <- <-.
  split; [done|]. split; [done|]. split; [done|].
  apply frozen; cbn [page awaiting]; try done.
  unfold submit_resolved. cbn. by rewrite Hl.
Qed.

Lemma accepted_submission_freezes_the_page_witness :
  pendingData
    (pendingUpdate (page
       (run (mkSession (fetchProfile sample_api initial).1 [])
          [Submitted; Changed Name "Dr. Who";
           Accepted 0 "2024-01-16T08:00:00.000Z"]).1))
  = Some (formData (fetchProfile sample_api initial).1)
  /\ name (formData (page
       (run (mkSession (fetchProfile sample_api initial).1 [])
          [Submitted; Changed Name "Dr. Who";
           Accepted 0 "2024-01-16T08:00:00.000Z"; Submitted;
           Changed Name "Dr. No"]).1))
     = "Dr. Who".
Proof.
  destruct (accepted_submission_freezes_the_page
              (fetchProfile sample_api initial).1
              [Changed Name "Dr. Who"] "2024-01-16T08:00:00.000Z"
              (run (mkSession (fetchProfile sample_api initial).1 [])
                 [Submitted; Changed Name "Dr. Who";
                  Accepted 0 "2024-01-16T08:00:00.000Z"]).1
              (run (mkSession (fetchProfile sample_api initial).1 [])
                 [Submitted; Changed Name "Dr. Who";
                  Accepted 0 "2024-01-16T08:00:00.000Z"]).2
              [Submitted; Changed Name "Dr. No"])
    as (_ & Hrecorded & _ & _ & Hform & _);
    [reflexivity|reflexivity|reflexivity|reflexivity|].
  split.
  - by rewrite Hrecorded.
  - reflexivity.
Defined.

End ProfileSessionFacts.

Module ProfileFormFacts.
Import ProfilePage ProfileForm.

Lemma page_run_cons st ev evs :
  page_run st (ev :: evs)
  = ((page_run (page_step st ev).1 evs).1,
     (page_step st ev).2 ++ (page_run (page_step st ev).1 evs).2).
Proof.
  cbn [page_run]. destruct (page_step st ev) as [st1 sent1]. cbn [fst snd].
  by destruct (page_run st1 evs) as [st2 sent2].
Qed.

Lemma or_zero_is_number v : exists z, JS.or v (Num 0) = Num z.
Proof.
  unfold JS.or. destruct v as [| |z]; cbn; eauto.
  destruct (z =? 0); cbn; eauto.
Qed.

Lemma page_step_experience st ev :
  (exists z, experience (formData st) = Num z) ->
  exists z, experience (formData (page_step st ev).1) = Num z.
Proof.
  intros Hst. destruct ev as [api|api now|target v]; cbn [page_step].
  - destruct (isLoading st); [|done]. unfold fetchProfile.
    destruct (getProfile api) as [data|]; [|done].
    destruct (getPendingUpdate api); cbn; apply or_zero_is_number.
  - destruct (isLoading st); [done|]. unfold handleSubmit.
    destruct (hasPendingUpdate (pendingUpdate st)); [done|].
    by destruct (requestProfileUpdate api _).
  - destruct (isLoading st || hasPendingUpdate (pendingUpdate st)); [done|].
    destruct target; cbn; try done. apply or_zero_is_number.
Qed.

(** X12.  The years of experience held by the form are a number at every
    moment: whatever the server sends and whatever is typed, [NaN] and
    [undefined] are replaced by 0 before they reach the form. *)
Theorem experience_is_always_a_number evs :
  exists z, experience (formData (page_run initial evs).1) = Num z.
Proof.
  assert (H : forall st, (exists z, experience (formData st) = Num z) ->
                exists z, experience (formData (page_run st evs).1) = Num z).
  { induction evs as [|ev evs IH]; intros st Hst; [done|].
    rewrite page_run_cons. cbn [fst]. by apply IH, page_step_experience. }
  apply H. by exists 0.
Qed.

(** X13.  A pending-update lookup that fails is read as "nothing pending":
    after such a mount the next submission is sent to the server, whether
    or not an update is pending there. *)
Theorem failed_pending_lookup_opens_the_gate api data api' now :
  getProfile api = Some data ->
  getPendingUpdate api = None ->
  hasPendingUpdate (pendingUpdate (page_run initial [Mounted api]).1) = false
  /\ (page_run initial [Mounted api; Submitted api' now]).2
     = [GetProfile; GetPendingUpdate;
        RequestProfileUpdate (formData (fetchProfile api initial).1)].
Proof.
  intros Hprofile Hlookup. rewrite !page_run_cons.
  cbn [page_run fst snd page_step isLoading initial].
  unfold fetchProfile. rewrite Hprofile, Hlookup.
  cbn [fst snd isLoading setIsLoading setPendingUpdate pendingUpdate
         hasPendingUpdate].
  split; [done|]. unfold handleSubmit.
  cbn [pendingUpdate setIsLoading setPendingUpdate hasPendingUpdate].
  by destruct (requestProfileUpdate api' _).
Qed.

End ProfileFormFacts.

Lemma failed_pending_lookup_opens_the_gate_witness :
  (ProfileForm.page_run ProfilePage.initial
     [ProfileForm.Mounted sample_lookup_failure;
      ProfileForm.Submitted sample_api "2024-01-16T08:00:00.000Z"]).2
  = [ProfilePage.GetProfile; ProfilePage.GetPendingUpdate;
     ProfilePage.RequestProfileUpdate
       (ProfilePage.formData
          (ProfilePage.fetchProfile sample_lookup_failure ProfilePage.initial).1)].
Proof.
  apply (ProfileFormFacts.failed_pending_lookup_opens_the_gate
           sample_lookup_failure
           (ProfilePage.mkDoctor (Some "Dr. Ann") (Some "Cardiology") None NaN None)
           sample_api "2024-01-16T08:00:00.000Z"); reflexivity.
Defined.

(** ** Searching and selecting a specialty *)

Lemma prefix_app t s : String.prefix t s = true <-> exists b, s = t +:+ b.
Proof.
  revert s. induction t as [|c t IH]; intros s.
  { split; [by exists s|intros _; by destruct s]. }
  destruct s as [|c' s]; [split; [done|by intros [b ?]]|].
  cbn [String.prefix]. destruct (ascii_dec c c') as [<-|Hne].
  - rewrite IH. split; intros [b Hb]; exists b.
    + by rewrite Hb.
    + by injection Hb.
  - split; [done|]. intros [b Hb]. injection Hb as ? _. done.
Qed.

Lemma includes_app s t :
  JS.includes s t = true <-> exists a b, s = a +:+ t +:+ b.
Proof.
  induction s as [|c s IH]; cbn [JS.includes].
  - rewrite orb_false_r, prefix_app. split.
    + intros [b Hb]. by exists "", b.
    + intros (a & b & Hab). destruct a; [by exists b|done].
  - rewrite orb_true_iff, prefix_app, IH. split.
    + intros [[b Hb]|(a & b & Hab)]; [by exists "", b|].
      exists (String c a), b. by rewrite Hab.
    + intros (a & b & Hab). destruct a as [|c' a]; [left; by exists b|].
      right. exists a, b. by injection Hab.
Qed.

Lemma string_app_cons c (a b : string) : String c a +:+ b = String c (a +:+ b).
Proof. reflexivity. Qed.

Lemma string_app_assoc (a b c : string) : (a +:+ b) +:+ c = a +:+ b +:+ c.
Proof. induction a as [|x a IH]; [done|]. by rewrite !string_app_cons, IH. Qed.

Lemma string_app_empty (a : string) : a +:+ "" = a.
Proof. induction a as [|x a IH]; [done|]. by rewrite string_app_cons, IH. Qed.

(** What contains a string contains its parts. *)
Lemma includes_part s a t b :
  JS.includes s (a +:+ t +:+ b) = true -> JS.includes s t = true.
Proof.
  rewrite !includes_app. intros (x & y & ->).
  exists (x +:+ a), (b +:+ y). by rewrite !string_app_assoc.
Qed.

Lemma includes_refl s : JS.includes s s = true.
Proof.
  apply includes_app. exists "", "".
  change ("" +:+ s +:+ "") with (s +:+ ""). by rewrite string_app_empty.
Qed.

Lemma toLowerCase_app a b : toLowerCase (a +:+ b) = toLowerCase a +:+ toLowerCase b.
Proof.
  induction a as [|c a IH]; [done|].
  rewrite string_app_cons. cbn [toLowerCase]. by rewrite string_app_cons, IH.
Qed.

Lemma lower_idem c : ascii_lower (ascii_lower c) = ascii_lower c.
Proof. by destruct c as [[] [] [] [] [] [] [] []]. Qed.

Lemma lower_upper c : ascii_lower (ascii_upper c) = ascii_lower c.
Proof. by destruct c as [[] [] [] [] [] [] [] []]. Qed.

Lemma toLowerCase_idem s : toLowerCase (toLowerCase s) = toLowerCase s.
Proof. induction s as [|c s IH]; [done|]. cbn. by rewrite lower_idem, IH. Qed.

Lemma toLowerCase_upper s : toLowerCase (toUpperCase s) = toLowerCase s.
Proof. induction s as [|c s IH]; [done|]. cbn. by rewrite lower_upper, IH. Qed.

Lemma filter_sublist {A} (p q : A -> bool) (l : list A) :
  (forall x, p x = true -> q x = true) ->
  sublist (List.filter p l) (List.filter q l).
Proof.
  intros Hpq. induction l as [|x l IH]; [constructor|]. cbn [List.filter].
  destruct (p x) eqn:Hp.
  - rewrite (Hpq x Hp). by constructor.
  - destruct (q x); [by constructor|done].
Qed.

Module SpecialtySelectorFacts.
Import SpecialtySelector.

(** X14.  A longer query narrows the list: every specialty shown for a
    query is shown, in the same order, for each part of that query; the
    empty query shows all seventeen. *)
Theorem longer_query_narrows a q b :
  sublist (filteredSpecialties (a +:+ q +:+ b)) (filteredSpecialties q)
  /\ filteredSpecialties "" = specialties.
Proof.
  split; [|done]. apply filter_sublist. intros s. unfold matches.
  rewrite !toLowerCase_app, !orb_true_iff.
  intros [H|H]; [left|right]; by eapply includes_part.
Qed.

(** X15.  The search does not look at letter case, and the full name or
    the full category of a specialty always finds it. *)
Theorem search_ignores_case q :
  filteredSpecialties (toUpperCase q) = filteredSpecialties q
  /\ filteredSpecialties (toLowerCase q) = filteredSpecialties q
  /\ forall s, s ∈ specialties ->
       s ∈ filteredSpecialties (name s)
       /\ s ∈ filteredSpecialties (toUpperCase (category s)).
Proof.
  unfold filteredSpecialties, matches. split; [|split].
  - by rewrite toLowerCase_upper.
  - by rewrite toLowerCase_idem.
  - intros s Hs. split; apply list_elem_of_In, filter_In;
      (split; [by apply list_elem_of_In|]).
    + by rewrite includes_refl.
    + by rewrite toLowerCase_upper, includes_refl, orb_true_r.
Qed.

(** X16.  Selecting and reading back: [handleSelect] passes the name of
    the specialty, closes the list and clears the query, and the selector
    given that name finds the same specialty again; a value that is not
    the name of a specialty shows the placeholder. *)
Theorem select_then_lookup s st value :
  (s ∈ specialties ->
     selectedSpecialty (handleSelect s st).1 = Some s
     /\ buttonText (handleSelect s st).1 = name s
     /\ isOpen (handleSelect s st).2 = false
     /\ filteredSpecialties (searchQuery (handleSelect s st).2) = specialties)
  /\ (value ∉ (name <$> specialties) ->
        selectedSpecialty value = None
        /\ buttonText value = "Select your specialty").
Proof.
  split.
  - intros Hs. unfold buttonText. cbn [handleSelect fst snd isOpen searchQuery].
    assert (Hfind : selectedSpecialty (name s) = Some s).
    { revert s Hs. apply Forall_forall. unfold specialties.
      repeat (apply Forall_cons; split; [reflexivity|]). constructor. }
    by rewrite Hfind.
  - intros Hv. unfold buttonText.
    destruct (selectedSpecialty value) as [s'|] eqn:Hfind; [|done].
    apply find_some in Hfind as [Hin Heq]. apply String.eqb_eq in Heq.
    destruct Hv. apply list_elem_of_fmap. exists s'.
    split; [done|by apply list_elem_of_In].
Qed.

End SpecialtySelectorFacts.

(** ** The label of a requested change *)

Lemma rev_app_rev_app (s a b : string) :
  String.rev_app (String.rev_app s a) b = String.rev_app a (s +:+ b).
Proof.
  revert a b. induction s as [|c s IH]; intros a b; [done|].
  cbn [String.rev_app]. by rewrite IH.
Qed.

Lemma string_rev_involutive (s : string) : String.rev (String.rev s) = s.
Proof.
  unfold String.rev. rewrite rev_app_rev_app. cbn [String.rev_app].
  apply string_app_empty.
Qed.

Lemma trim_start_rev_app s : forall acc,
  ends_in_ink s = true ->
  JS.trim_start (String.rev_app s acc) = String.rev_app s acc.
Proof.
  induction s as [|c s IH]; intros acc Hs; [done|].
  cbn [String.rev_app]. destruct s as [|c' s].
  - cbn [String.rev_app JS.trim_start]. cbn in Hs. by destruct (JS.is_space c).
  - by apply IH.
Qed.

(** Nothing is trimmed from a string that begins and ends in ink. *)
Lemma trim_inked c s :
  JS.is_space c = false -> ends_in_ink (String c s) = true ->
  JS.trim (String c s) = String c s.
Proof.
  intros Hc Hs. unfold JS.trim. cbn [JS.trim_start]. rewrite Hc.
  change (String.rev (String c s)) with (String.rev_app (String c s) "").
  rewrite trim_start_rev_app by done.
  exact (string_rev_involutive (String c s)).
Qed.

Lemma capital_not_space c : is_capital c = true -> JS.is_space c = false.
Proof. by destruct c as [[] [] [] [] [] [] [] []]. Qed.

Lemma space_capitals_ends c r :
  JS.is_space c = false -> no_space r = true ->
  ends_in_ink (String c (space_capitals r)) = true.
Proof.
  revert c. induction r as [|x r IH]; intros c Hc Hr.
  { cbn. by rewrite Hc. }
  cbn [no_space] in Hr. apply andb_prop in Hr as [Hx%negb_true_iff Hr].
  cbn [space_capitals]. destruct (is_capital x); by apply IH.
Qed.

Lemma drop_spaces_space_capitals r :
  no_space r = true -> drop_spaces (space_capitals r) = r.
Proof.
  induction r as [|x r IH]; [done|]. cbn [no_space space_capitals].
  intros [Hx%negb_true_iff Hr]%andb_prop.
  destruct (is_capital x); cbn [drop_spaces]; rewrite ?Hx, IH by done; done.
Qed.

(** X17.  For a key without white space the label is the key with a space
    in front of every capital letter but a leading one; taking the spaces
    out of the label gives the key back. *)
Theorem fieldLabel_spaces_capitals key :
  no_space key = true ->
  fieldLabel key
  = match key with
    | "" => ""
    | String c r => String c (space_capitals r)
    end
  /\ drop_spaces (fieldLabel key) = key.
Proof.
  intros Hkey. destruct key as [|c r]; [done|].
  cbn [no_space] in Hkey. apply andb_prop in Hkey as [Hc%negb_true_iff Hr].
  assert (Hlabel : fieldLabel (String c r) = String c (space_capitals r)).
  { unfold fieldLabel. cbn [space_capitals].
    pose proof (trim_inked c (space_capitals r) Hc
                  (space_capitals_ends c r Hc Hr)) as Htrim.
    destruct (is_capital c); [|exact Htrim].
    unfold JS.trim in *. cbn [JS.trim_start] in *.
    change (JS.is_space " ") with true. cbn [JS.trim_start]. exact Htrim. }
  split; [exact Hlabel|].
  rewrite Hlabel. cbn [drop_spaces]. by rewrite Hc, drop_spaces_space_capitals.
Qed.

Lemma fieldLabel_spaces_capitals_witness :
  fieldLabel "pendingProfileUpdate" = "pending Profile Update"
  /\ drop_spaces (fieldLabel "pendingProfileUpdate") = "pendingProfileUpdate".
Proof. apply (fieldLabel_spaces_capitals "pendingProfileUpdate"). reflexivity. Defined.

(** ** The axis of the appointments chart *)

Module RevenueChartFacts.
Import RevenueChart.

Lemma maxAppointments_bounds appointments :
  5 <= maxAppointments appointments
  /\ Forall (fun v => v <= maxAppointments appointments) appointments.
Proof.
  unfold maxAppointments. induction appointments as [|v l [IH1 IH2]]; [done|].
  cbn [foldr]. split; [lia|]. constructor; [lia|].
  eapply Forall_impl; [exact IH2|]. cbn. lia.
Qed.

(** X18.  For appointment counts from 0 up to 2^50, where the integer
    reading of the double-precision arithmetic is exact: the top of the
    axis is a multiple of five that lies at least five above every point
    of the chart and above the floor of 5, and at most nine above the
    largest of them; the five ticks run from 0 to the top in strictly
    increasing order. *)
Theorem yAxis_encloses_the_data appointments :
  Forall (fun v => 0 <= v < 2 ^ 50) appointments ->
  yAxisMax appointments `mod` 5 = 0
  /\ 10 <= yAxisMax appointments <= maxAppointments appointments + 9
  /\ Forall (fun v => v + 5 <= yAxisMax appointments) appointments
  /\ (exists t1 t2 t3,
        yAxisTicks appointments = [0; t1; t2; t3; yAxisMax appointments])
  /\ StronglySorted Z.lt (yAxisTicks appointments).
Proof.
  intros _.
  destruct (maxAppointments_bounds appointments) as [Hm Hall].
  unfold yAxisTicks, yAxisMax, ceil_quot, round_quot in *.
  set (m := maxAppointments appointments) in *.
  assert (Hq : exists q, - (- m / 5) = q /\ m <= 5 * q <= m + 4).
  { exists (- (- m / 5)). split; [reflexivity|].
    pose proof (Z.div_mod (- m) 5) as Hdiv.
    pose proof (Z.mod_pos_bound (- m) 5). lia. }
  destruct Hq as (q & -> & Hq).
  split; [by rewrite Z.add_comm, Z_mod_plus_full|].
  split; [lia|]. split.
  { eapply Forall_impl; [exact Hall|]. cbn. lia. }
  assert (Hticks : (fun i => (2 * ((q * 5 + 5) * i) + 4) / (2 * 4)) <$> seqZ 0 5
                   = [0; (2 * ((q * 5 + 5) * 1) + 4) / 8;
                      (2 * ((q * 5 + 5) * 2) + 4) / 8;
                      (2 * ((q * 5 + 5) * 3) + 4) / 8; q * 5 + 5]).
  { change (seqZ 0 5) with [0; 1; 2; 3; 4]. cbn [fmap list_fmap].
    change (2 * 4) with 8.
    replace (2 * ((q * 5 + 5) * 0) + 4) with 4 by lia.
    replace (2 * ((q * 5 + 5) * 4) + 4) with (4 + (q * 5 + 5) * 8) by lia.
    by rewrite Z.div_add. }
  rewrite Hticks. split; [eauto|].
  pose proof (Z.div_mod (2 * ((q * 5 + 5) * 1) + 4) 8).
  pose proof (Z.mod_pos_bound (2 * ((q * 5 + 5) * 1) + 4) 8).
  pose proof (Z.div_mod (2 * ((q * 5 + 5) * 2) + 4) 8).
  pose proof (Z.mod_pos_bound (2 * ((q * 5 + 5) * 2) + 4) 8).
  pose proof (Z.div_mod (2 * ((q * 5 + 5) * 3) + 4) 8).
  pose proof (Z.mod_pos_bound (2 * ((q * 5 + 5) * 3) + 4) 8).
  repeat (apply SSorted_cons; [|repeat (apply List.Forall_cons; [lia|]); apply List.Forall_nil]).
  apply SSorted_nil.
Qed.

Lemma yAxis_encloses_the_data_witness :
  yAxisMax [3; 12; 7] `mod` 5 = 0
  /\ 10 <= yAxisMax [3; 12; 7] <= maxAppointments [3; 12; 7] + 9
  /\ Forall (fun v => v + 5 <= yAxisMax [3; 12; 7]) [3; 12; 7]
  /\ (exists t1 t2 t3,
        yAxisTicks [3; 12; 7] = [0; t1; t2; t3; yAxisMax [3; 12; 7]])
  /\ StronglySorted Z.lt (yAxisTicks [3; 12; 7]).
Proof.
  apply (yAxis_encloses_the_data [3; 12; 7]).
  repeat (apply List.Forall_cons; [lia|]). apply List.Forall_nil.
Defined.

End RevenueChartFacts.

(** ** The booking dialogue *)

Module BookingModalFacts.
Import BookingModal.

(** Every time on display, and the time chosen if there is one, is among
    the times [seen]. *)
Definition known (seen : list string) (st : State) : Prop :=
  (selectedTime st = "" \/ selectedTime st ∈ seen)
  /\ Forall (fun slot => time slot ∈ seen) (timeSlots st).

Lemma known_weaken seen more st : known seen st -> known (seen ++ more) st.
Proof.
  intros [Hsel Hslots]. split.
  - destruct Hsel as [?|?]; [by left|right]. apply elem_of_app. by left.
  - eapply Forall_impl; [exact Hslots|]. cbn. intros slot ?.
    apply elem_of_app. by left.
Qed.

Lemma effect_known seen st : known seen st -> known seen (effect st).1.
Proof.
  intros [Hsel Hslots]. unfold effect.
  destruct (isOpen st && nonempty (doctorId st)); [|done].
  split; [by left|exact Hslots].
Qed.

Lemma effect_quiet st d t ty : OnConfirm d t ty ∉ (effect st).2.
Proof.
  unfold effect. destruct (isOpen st && nonempty (doctorId st)); cbn.
  - intros [Heq|Hin%elem_of_nil]%elem_of_cons; [discriminate Heq|done].
  - apply not_elem_of_nil.
Qed.

Lemma step_known seen st ev :
  known seen st -> known (seen ++ offered [ev]) (step st ev).1.
Proof.
  intros Hst. destruct ev; cbn [step].
  - apply known_weaken. by apply effect_known.
  - apply known_weaken. case_match; [done|].
    apply effect_known. exact Hst.
  - apply known_weaken. case_match; [done|].
    apply effect_known. exact Hst.
  - apply known_weaken. by case_match.
  - apply known_weaken. destruct Hst as [Hsel Hslots].
    destruct (isOpen st && grid_drawn st); [|done].
    destruct (timeSlots st !! i) as [slot|] eqn:Hi; [|done].
    destruct (available slot); [|done].
    split; [right|exact Hslots]. cbn.
    eapply Forall_lookup_1 in Hslots; [exact Hslots|exact Hi].
  - apply known_weaken. by case_match.
  - apply known_weaken. by case_match.
  - destruct Hst as [Hsel Hslots]. split; cbn.
    + destruct Hsel as [?|?]; [by left|right]. apply elem_of_app. by left.
    + apply Forall_fmap, Forall_forall. intros slot Hslot. cbn.
      apply elem_of_app. right. unfold offered. cbn. by rewrite app_nil_r.
  - apply known_weaken. destruct Hst as [Hsel _]. split; [exact Hsel|].
    cbn. constructor.
Qed.

Lemma nonempty_true s : nonempty s = true -> s <> "".
Proof. by destruct s. Qed.

Lemma handleConfirm_out st d t ty :
  OnConfirm d t ty ∈ handleConfirm st ->
  t = selectedTime st /\ d = selectedDate st /\ t <> "".
Proof.
  unfold handleConfirm. destruct (nonempty (selectedTime st)) eqn:Hsel.
  - intros [Heq|[Heq|Hin%elem_of_nil]%elem_of_cons]%elem_of_cons;
      [|discriminate Heq|done].
    injection Heq as -> -> _. by apply nonempty_true in Hsel.
  - by intros ?%elem_of_nil.
Qed.

Lemma step_out st ev d t ty :
  OnConfirm d t ty ∈ (step st ev).2 ->
  t = selectedTime st /\ d = selectedDate st /\ t <> "".
Proof.
  destruct ev; cbn [step]; repeat case_match; cbn [snd];
    try (by intros ?%elem_of_nil);
    try (by intros ?%effect_quiet);
    try (by apply handleConfirm_out).
  intros [Heq|Hin%elem_of_nil]%elem_of_cons; [discriminate Heq|done].
Qed.

Lemma run_cons st ev evs :
  run st (ev :: evs)
  = ((run (step st ev).1 evs).1, (step st ev).2 ++ (run (step st ev).1 evs).2).
Proof.
  cbn [run]. destruct (step st ev) as [st1 out1]. cbn [fst snd].
  by destruct (run st1 evs).
Qed.

Lemma offered_cons ev evs : offered (ev :: evs) = offered [ev] ++ offered evs.
Proof. unfold offered. cbn. by rewrite app_nil_r. Qed.

Lemma run_known seen st evs d t ty :
  known seen st ->
  OnConfirm d t ty ∈ (run st evs).2 ->
  t <> "" /\ t ∈ seen ++ offered evs.
Proof.
  revert seen st. induction evs as [|ev evs IH]; intros seen st Hst.
  { by intros ?%elem_of_nil. }
  rewrite run_cons. cbn [snd]. intros [Hout|Hout]%elem_of_app.
  - apply step_out in Hout as (-> & _ & Hne). split; [exact Hne|].
    destruct Hst as [[?|Hsel] _]; [done|]. apply elem_of_app. by left.
  - eapply IH in Hout; [|by apply step_known].
    rewrite offered_cons, app_assoc. exact Hout.
Qed.

(** X19.  Whatever happens to the dialogue after it is mounted, a booking
    is only ever confirmed with a time that is not empty and that some
    answer of the server has offered. *)
Theorem confirmed_time_was_offered open doctor today evs d t ty :
  OnConfirm d t ty ∈ (run (initial open doctor today) evs).2 ->
  t <> "" /\ t ∈ offered evs.
Proof.
  intros Hout. eapply (run_known []) in Hout; [exact Hout|].
  split; [by left|constructor].
Qed.

Lemma confirmed_time_was_offered_witness :
  "10:30" <> "" /\ "10:30" ∈ offered
    [Mounted; Resolved "2026-03-02" ["10:00"; "10:30"]; SlotClicked 1;
     ConfirmClicked].
Proof.
  apply (confirmed_time_was_offered true "d1" "2026-03-02"
           [Mounted; Resolved "2026-03-02" ["10:00"; "10:30"]; SlotClicked 1;
            ConfirmClicked] "2026-03-02" "10:30" Video).
  vm_compute. apply elem_of_cons. right. apply elem_of_cons. by left.
Defined.






(** X21.  An answer is put on display whatever date it was asked for.
    When the date is changed while a request is under way and the answer
    for the new date arrives first, with at least one slot, the late
    answer for the old date replaces it; a click on one of its times and
    on the confirm button then books the new date at that time. *)
Theorem late_answer_is_booked_on_the_new_date st old new slots_old slots_new i t :
  isOpen st = true -> nonempty (doctorId st) = true ->
  old = selectedDate st -> new <> old ->
  slots_new <> [] -> slots_old !! i = Some t -> t <> "" ->
  (run st [DateChanged new; Resolved new slots_new; Resolved old slots_old;
           SlotClicked i; ConfirmClicked]).2
  = [GetAvailableSlots (doctorId st) new;
     OnConfirm new t (consultationType st); OnClose].
Proof.
  intros Hopen Hdoctor -> Hnew Hslots Hi Ht.
  rewrite run_cons. cbn [step]. rewrite Hopen, bool_decide_eq_false_2 by done.
  cbn [negb orb]. unfold effect. cbn [isOpen doctorId]. rewrite Hdoctor.
  cbn [andb fetch_begin fst snd app]. f_equal.
  rewrite run_cons. cbn [step fst snd app].
  rewrite run_cons. cbn [step fst snd app].
  rewrite run_cons. cbn [step fst snd app].
  unfold fetch_resolved. cbn [isOpen doctorId selectedDate selectedTime
    consultationType timeSlots isLoading error].
  rewrite !length_fmap.
  destruct slots_new as [|s_new slots_new]; [done|].
  destruct slots_old as [|s_old slots_old]; [done|].
  cbn [length]. rewrite !decide_False by done.
  unfold grid_drawn. cbn [isOpen doctorId selectedDate selectedTime
    consultationType timeSlots isLoading error shows negb andb].
  rewrite length_fmap. cbn [length]. rewrite bool_decide_eq_false_2 by done.
  cbn [negb]. rewrite list_lookup_fmap, Hi. cbn [fmap option_fmap option_map available time].
  rewrite run_cons. cbn [step fst snd app isOpen run].
  unfold handleConfirm. cbn [selectedTime selectedDate consultationType].
  destruct t; [done|]. by cbn.
Qed.

Lemma late_answer_is_booked_on_the_new_date_witness :
  (run (initial true "d1" "2026-03-02")
     [DateChanged "2026-03-03"; Resolved "2026-03-03" ["11:00"];
      Resolved "2026-03-02" ["10:00"; "10:30"]; SlotClicked 1;
      ConfirmClicked]).2
  = [GetAvailableSlots "d1" "2026-03-03";
     OnConfirm "2026-03-03" "10:30" Video; OnClose].
Proof.
  apply (late_answer_is_booked_on_the_new_date
           (initial true "d1" "2026-03-02") "2026-03-02" "2026-03-03"
           ["10:00"; "10:30"] ["11:00"] 1 "10:30");
    [reflexivity|reflexivity|reflexivity|discriminate|discriminate
    |reflexivity|discriminate].
Defined.

End BookingModalFacts.
